(** * BlueKing IAM SaaS: policy authorization engine

    A shallow embedding of the request path of the group authorization
    workflow ([backend/biz/group.py]), the policy operation service
    ([backend/service/policy/operation.py]), the application data
    transformer ([backend/trans/application.py]) and the resource id/name
    cache ([backend/service/resource.py]).

    Python functions become Rocq functions.  Code that raises becomes a
    computation in [result]; code that reads or writes the relational store,
    Redis or the IAM backend becomes a computation in the state-and-exception
    monad [M], whose state survives a raise exactly as a Python object does.
    [transaction.atomic()] is the combinator [transaction_atomic], which
    restores the store when its body raises.  Services, constants and
    helpers that the modelled methods call but whose source is not part of
    the repository excerpt are either fields of the environment [Env] or
    definitions marked as modelled from the specification. *)

From Stdlib Require Import ZArith Lia DecimalString DecimalZ.
From stdpp Require Import base option list gmap strings.

Local Open Scope string_scope.
Local Open Scope list_scope.
Local Open Scope Z_scope.

(** ** Exceptions *)

(** The members of [error_codes] that the modelled code raises. *)
Inductive ErrorCode : Type :=
  | VALIDATE_ERROR
  | INVALID_ARGS
  | CONFLICT_ERROR.

(** The message of a [CodeException].  The source formats translated
    strings; the embedding keeps the format arguments as data. *)
Inductive Message : Type :=
  | MsgTemplateUpdating
  | MsgGrantRepeated
  | MsgGroupAuthorizing
  | MsgActionExists (system_id action_id : string)
  | MsgActionExistsNoUpdate (system_id action_id : string)
  | MsgTemplateCheck (system_id : string) (template_id : Z) (inner : Message)
  | MsgInstanceLimit (action_id rrt_type : string) (limit : Z)
  | MsgNoChange
  | MsgResourceName (node_type node_id node_name : string)
  | MsgText (text : string).

Inductive Exn : Type :=
  | CodeException (code : ErrorCode) (message : Message)
  | RedisError
  | DatabaseError
  | APIError
  | DoesNotExist
  | ValueError.

#[export] Instance ErrorCode_eq_dec : EqDecision ErrorCode.
Proof. solve_decision. Defined.
#[export] Instance Message_eq_dec : EqDecision Message.
Proof. solve_decision. Defined.
#[export] Instance Exn_eq_dec : EqDecision Exn.
Proof. solve_decision. Defined.

Inductive result (A : Type) : Type :=
  | Ok (a : A)
  | Raise (e : Exn).
Arguments Ok {A} a.
Arguments Raise {A} e.

Definition is_ok {A} (r : result A) : bool :=
  match r with Ok _ => true | Raise _ => false end.

Definition result_bind {A B} (r : result A) (k : A -> result B) : result B :=
  match r with Ok a => k a | Raise e => Raise e end.

Notation "'try!' x ':=' r 'in' k" := (result_bind r (fun x => k))
  (at level 10, x pattern, r at level 100, k at level 200).

(** ** State and exceptions *)

Definition M (S A : Type) : Type := S -> result A * S.

Definition ret {S A} (a : A) : M S A := fun s => (Ok a, s).

Definition raise {S A} (e : Exn) : M S A := fun s => (Raise e, s).

Definition bind {S A B} (m : M S A) (k : A -> M S B) : M S B :=
  fun s => match m s with
           | (Ok a, s') => k a s'
           | (Raise e, s') => (Raise e, s')
           end.

Definition lift {S A} (r : result A) : M S A := fun s => (r, s).

Definition gets {S A} (f : S -> A) : M S A := fun s => (Ok (f s), s).

Definition modify {S} (f : S -> S) : M S unit := fun s => (Ok tt, f s).

(** [try: m except E: h]: the handler runs on the state the body left. *)
Definition catch {S A} (m : M S A) (handles : Exn -> bool) (h : Exn -> M S A) : M S A :=
  fun s => match m s with
           | (Ok a, s') => (Ok a, s')
           | (Raise e, s') => if handles e then h e s' else (Raise e, s')
           end.

Notation "'let!' x ':=' m 'in' k" := (bind m (fun x => k))
  (at level 10, x pattern, m at level 100, k at level 200).
Notation "m '>>' k" := (bind m (fun _ => k))
  (at level 100, k at level 200, right associativity).

(** Python's [when cond: m]. *)
Definition when {S} (cond : bool) (m : M S unit) : M S unit :=
  if cond then m else ret tt.

(** A Python list is falsy exactly when it is empty. *)
Definition truthy {A} (l : list A) : bool :=
  match l with [] => false | _ :: _ => true end.

(** A dict comprehension [{k: v for k, v in pairs}]: later pairs win. *)
Definition dict_of_pairs {K V} `{Countable K} (pairs : list (K * V)) : gmap K V :=
  foldl (fun m kv => <[kv.1 := kv.2]> m) ∅ pairs.

(** ** Policy value model *)

Record Subject : Type := mkSubject {
  subject_type : string;
  subject_id : string
}.

#[export] Instance Subject_eq_dec : EqDecision Subject.
Proof. solve_decision. Defined.

(** [SubjectType.GROUP.value] and [SubjectType.USER.value]. *)
Definition GROUP : string := "group".
Definition USER : string := "user".

(** Python's [str(n)] on an integer, and [int(s)] on such a string: the
    decimal numeral of [n] and back.  ([int] accepts more spellings than the
    ones [str] produces; only those are read back here.) *)
Definition str (n : Z) : string := NilZero.string_of_int (Z.to_int n).

Definition int (s : string) : result Z :=
  match NilZero.int_of_string s with
  | Some d => Ok (Z.of_int d)
  | None => Raise ValueError
  end.

(** The request body documented in [from_grant_policy_application]. *)
Record PathNodeBean : Type := mkPathNode {
  node_system_id : string;
  node_type : string;
  node_id : string;
  node_name : string
}.

Record InstanceBean : Type := mkInstance {
  instance_type : string;
  instance_name : string;
  path : list (list PathNodeBean)
}.

Record ValueBean : Type := mkValue {
  value_id : string;
  value_name : string
}.

Record AttributeBean : Type := mkAttribute {
  attribute_id : string;
  attribute_name : string;
  values : list ValueBean
}.

Record ConditionBean : Type := mkCondition {
  condition_id : string;
  instances : list InstanceBean;
  attributes : list AttributeBean
}.

Record RelatedResourceBean : Type := mkRelatedResource {
  rrt_system_id : string;
  rrt_type : string;
  condition : list ConditionBean
}.

Record PolicyBean : Type := mkPolicy {
  action_id : string;
  related_resource_types : list RelatedResourceBean;
  policy_id : Z;
  expired_at : Z
}.

#[export] Instance PathNodeBean_eq_dec : EqDecision PathNodeBean.
Proof. solve_decision. Defined.
#[export] Instance InstanceBean_eq_dec : EqDecision InstanceBean.
Proof. solve_decision. Defined.
#[export] Instance ValueBean_eq_dec : EqDecision ValueBean.
Proof. solve_decision. Defined.
#[export] Instance AttributeBean_eq_dec : EqDecision AttributeBean.
Proof. solve_decision. Defined.
#[export] Instance ConditionBean_eq_dec : EqDecision ConditionBean.
Proof. solve_decision. Defined.
#[export] Instance RelatedResourceBean_eq_dec : EqDecision RelatedResourceBean.
Proof. solve_decision. Defined.
#[export] Instance PolicyBean_eq_dec : EqDecision PolicyBean.
Proof. solve_decision. Defined.

(** [Policy.set_expired_at]: overwrites the single expiration of a policy. *)
Definition set_expired_at (p : PolicyBean) (timestamp : Z) : PolicyBean :=
  {| action_id := action_id p;
     related_resource_types := related_resource_types p;
     policy_id := policy_id p;
     expired_at := timestamp |}.

(** Modelled from the spec: [Condition.count_instance] and
    [RelatedResource.count_instance] live in [backend/service/models], which
    is not part of the sources at hand.  The count is the total number of
    concrete instances (resource paths) across all conditions. *)
Definition condition_count_instance (c : ConditionBean) : Z :=
  foldr (fun i acc => Z.of_nat (length (path i)) + acc) 0 (instances c).

Definition count_instance (rrt : RelatedResourceBean) : Z :=
  foldr (fun c acc => condition_count_instance c + acc) 0 (condition rrt).

(** ** Settings ([config/default.py]) *)

Module settings.

(** [int(os.getenv("BKAPP_APPLY_POLICY_ADD_INSTANCES_LIMIT", 20))]; the
    environment maps a variable to the integer its text denotes. *)
Definition APPLY_POLICY_ADD_INSTANCES_LIMIT (environ : gmap string Z) : Z :=
  default 20 (environ !! "BKAPP_APPLY_POLICY_ADD_INSTANCES_LIMIT").

End settings.

(** ** Resource id/name cache ([backend/service/resource.py]) *)

Module ResourceIDNameCache.

(** The values a provider may return for a display name; only [str] is
    cached. *)
Inductive PyValue : Type :=
  | PyStr (s : string)
  | PyNone
  | PyInt (n : Z).

(** The Redis server as the cache sees it: the keys with their value and
    time to live, and whether the server answers at all.  A pipeline that
    reaches a server that does not answer raises [RedisError] and stores
    nothing. *)
Record Redis : Type := mkRedis {
  store : gmap string (string * Z);
  available : bool
}.

Inductive Command : Type :=
  | SET (key value : string) (ex : Z)
  | GET (key : string).

Definition run_command (st : gmap string (string * Z)) (c : Command)
  : gmap string (string * Z) * option string :=
  match c with
  | SET k v ex => (<[k := (v, ex)]> st, Some "OK")
  | GET k => (st, fst <$> st !! k)
  end.

Fixpoint run_commands (st : gmap string (string * Z)) (cs : list Command)
  : gmap string (string * Z) * list (option string) :=
  match cs with
  | [] => (st, [])
  | c :: cs' =>
      let '(st1, r) := run_command st c in
      let '(st2, rs) := run_commands st1 cs' in
      (st2, r :: rs)
  end.

(** [pipe.execute()]: the buffered commands are sent in order and the
    replies come back as an ordered list. *)
Definition execute (cs : list Command) : M Redis (list (option string)) :=
  fun r =>
    if available r then
      let '(st, replies) := run_commands (store r) cs in
      (Ok replies, {| store := st; available := true |})
    else (Raise RedisError, r).

Record t : Type := mk {
  system_id : string;
  resource_type_id : string
}.

Definition _generate_id_cache_key (self : t) (resource_id : string) : string :=
  "bk_iam:rp:id_name" +:+ ":" +:+ system_id self +:+ ":" +:+
  resource_type_id self +:+ ":" +:+ resource_id.

Definition is_RedisError (e : Exn) : bool :=
  match e with RedisError => true | _ => false end.

(** [set]: the dict is walked in insertion order, hence the list of
    items; [isinstance(name, str)] is the match on [PyStr]. *)
Definition set (self : t) (id_name_map : list (string * PyValue)) : M Redis unit :=
  catch
    (let pipe :=
       omap (fun item =>
               match item.2 with
               | PyStr name => Some (SET (_generate_id_cache_key self item.1) name (5 * 60))
               | _ => None
               end) id_name_map in
     execute pipe >> ret tt)
    is_RedisError
    (fun error => ret tt).

Definition get (self : t) (ids : list string) : M Redis (gmap string (option string)) :=
  let! result :=
    catch
      (execute ((fun _id => GET (_generate_id_cache_key self _id)) <$> ids))
      is_RedisError
      (fun error => ret (replicate (length ids) None)) in
  ret (dict_of_pairs (zip ids result)).

End ResourceIDNameCache.

(** ** The relational store *)

(** [backend.apps.policy.models.Policy], the local mirror of a backend
    policy.  The primary key is the key of the table. *)
Record PolicyModel : Type := mkPolicyModel {
  pm_subject_type : string;
  pm_subject_id : string;
  pm_system_id : string;
  pm_action_id : string;
  pm_policy_id : Z;
  _resources : list RelatedResourceBean
}.

(** [backend.apps.group.models.GroupAuthorizeLock]; [lock_data] is the
    list stored under ["actions"] in the JSON column [data]. *)
Record GroupAuthorizeLock : Type := mkGroupAuthorizeLock {
  lock_template_id : Z;
  lock_group_id : Z;
  lock_system_id : string;
  lock_key : string;
  lock_data : list PolicyBean
}.

Inductive TaskType : Type :=
  | GROUP_AUTHORIZATION.

(** [backend.long_task.models.TaskDetail] with the arguments
    [[subject.dict(), uuid]] of a group authorization. *)
Record TaskDetail : Type := mkTaskDetail {
  task_id : Z;
  task_type : TaskType;
  task_args : Subject * string
}.

Record PermTemplatePreUpdateLock : Type := mkPermTemplatePreUpdateLock {
  pre_update_template_id : Z
}.

(** [PermTemplatePolicyAuthorized]; [authorized_actions] is
    [data["actions"]]. *)
Record PermTemplatePolicyAuthorized : Type := mkPermTemplatePolicyAuthorized {
  authorized_template_id : Z;
  authorized_subject : Subject;
  authorized_system_id : string;
  authorized_actions : list PolicyBean
}.

Record RoleRelatedObject : Type := mkRoleRelatedObject {
  related_role_id : Z;
  related_object_type : string;
  related_object_id : Z
}.

Record GroupSaaSAttribute : Type := mkGroupSaaSAttribute {
  attribute_group_id : Z;
  attribute_key : string;
  attribute_value : string
}.

Record Group : Type := mkGroup {
  group_id : Z;
  group_name : string
}.

Record Role : Type := mkRole {
  role_id : Z
}.

#[export] Instance PolicyModel_eq_dec : EqDecision PolicyModel.
Proof. solve_decision. Defined.
#[export] Instance GroupAuthorizeLock_eq_dec : EqDecision GroupAuthorizeLock.
Proof. solve_decision. Defined.

Record DB : Type := mkDB {
  policy : gmap Z PolicyModel;
  group_authorize_lock : list GroupAuthorizeLock;
  task_detail : list TaskDetail;
  perm_template_pre_update_lock : list PermTemplatePreUpdateLock;
  perm_template_policy_authorized : list PermTemplatePolicyAuthorized;
  role_related_object : list RoleRelatedObject;
  group_saas_attribute : list GroupSaaSAttribute;
  group : list Group
}.

Definition set_policy (f : gmap Z PolicyModel -> gmap Z PolicyModel) (d : DB) : DB :=
  mkDB (f (policy d)) (group_authorize_lock d) (task_detail d)
       (perm_template_pre_update_lock d) (perm_template_policy_authorized d)
       (role_related_object d) (group_saas_attribute d) (group d).

Definition set_group_authorize_lock
    (f : list GroupAuthorizeLock -> list GroupAuthorizeLock) (d : DB) : DB :=
  mkDB (policy d) (f (group_authorize_lock d)) (task_detail d)
       (perm_template_pre_update_lock d) (perm_template_policy_authorized d)
       (role_related_object d) (group_saas_attribute d) (group d).

Definition set_task_detail (f : list TaskDetail -> list TaskDetail) (d : DB) : DB :=
  mkDB (policy d) (group_authorize_lock d) (f (task_detail d))
       (perm_template_pre_update_lock d) (perm_template_policy_authorized d)
       (role_related_object d) (group_saas_attribute d) (group d).

Definition set_perm_template_policy_authorized
    (f : list PermTemplatePolicyAuthorized -> list PermTemplatePolicyAuthorized)
    (d : DB) : DB :=
  mkDB (policy d) (group_authorize_lock d) (task_detail d)
       (perm_template_pre_update_lock d) (f (perm_template_policy_authorized d))
       (role_related_object d) (group_saas_attribute d) (group d).

Definition set_role_related_object
    (f : list RoleRelatedObject -> list RoleRelatedObject) (d : DB) : DB :=
  mkDB (policy d) (group_authorize_lock d) (task_detail d)
       (perm_template_pre_update_lock d) (perm_template_policy_authorized d)
       (f (role_related_object d)) (group_saas_attribute d) (group d).

Definition set_group_saas_attribute
    (f : list GroupSaaSAttribute -> list GroupSaaSAttribute) (d : DB) : DB :=
  mkDB (policy d) (group_authorize_lock d) (task_detail d)
       (perm_template_pre_update_lock d) (perm_template_policy_authorized d)
       (role_related_object d) (f (group_saas_attribute d)) (group d).

Definition set_group (f : list Group -> list Group) (d : DB) : DB :=
  mkDB (policy d) (group_authorize_lock d) (task_detail d)
       (perm_template_pre_update_lock d) (perm_template_policy_authorized d)
       (role_related_object d) (group_saas_attribute d) (f (group d)).

(** The calls of the modelled methods, in the order they are made. *)
Inductive Event : Type :=
  | EvBegin
  | EvCreateDbPolicies
  | EvUpdateDbPolicies
  | EvDeleteDbPolicies
  | EvAlterBackendPolicies
  | EvCommit
  | EvRollback
  | EvSyncDbPolicyId.

#[export] Instance Event_eq_dec : EqDecision Event.
Proof. solve_decision. Defined.

(** Everything a request can change: the store, the queue of the task
    runner, and the log of calls (which no rollback erases). *)
Record World : Type := mkWorld {
  db : DB;
  celery : list Z;
  trace : list Event
}.

Definition set_db (f : DB -> DB) (w : World) : World :=
  mkWorld (f (db w)) (celery w) (trace w).

Definition add_event (ev : Event) (w : World) : World :=
  mkWorld (db w) (celery w) (trace w ++ [ev]).

Definition log (ev : Event) : M World unit := modify (add_event ev).

(** [with transaction.atomic(): body].  The block commits when the body
    returns and rolls the store back to its state at entry when the body
    raises; the exception goes on to the caller. *)
Definition transaction_atomic {A} (body : M World A) : M World A :=
  fun w =>
    match body (add_event EvBegin w) with
    | (Ok a, w') => (Ok a, add_event EvCommit w')
    | (Raise e, w') =>
        (Raise e, add_event EvRollback (mkWorld (db w) (celery w') (trace w')))
    end.

(** ** Collaborators *)

(** The storage and queue statements that may fail. *)
Inductive Op : Type :=
  | OpPolicyBulkCreate
  | OpPolicyUpdate
  | OpPolicyDelete
  | OpPolicyBulkUpdate
  | OpLockBulkCreate
  | OpTaskCreate
  | OpTaskDelay
  | OpGroupRelationDelete
  | OpTemplateAuthDelete
  | OpGroupAttributeDelete
  | OpGroupDelete.

#[export] Instance Op_eq_dec : EqDecision Op.
Proof. solve_decision. Defined.

(** A thin backend policy as [new_backend_policy_list_by_subject] returns
    it. *)
Record BackendPolicy : Type := mkBackendPolicy {
  backend_id : Z;
  backend_action_id : string
}.

(** What lies outside the modelled code and is consulted by it: the
    responses of the IAM backend, the outcome of each storage statement,
    the canonical names known to the resource providers, and the checks and
    queries of services whose source is not at hand. *)
Record Env : Type := mkEnv {
  (** [iam.alter_policies(system_id, subject_type, subject_id, create,
      update, delete_ids)]. *)
  iam_alter_policies :
    string -> string -> string -> list PolicyBean -> list PolicyBean ->
    list Z -> result unit;
  (** [new_backend_policy_list_by_subject(system_id, subject)]. *)
  backend_policy_list_by_subject : string -> Subject -> result (list BackendPolicy);
  (** whether a statement raises [DatabaseError]. *)
  fails : Op -> bool;
  (** the display name a resource provider reports for (system, type, id). *)
  resource_name : string * string * string -> option string;
  (** [PolicyQueryService.list_by_subject(system_id, subject)]. *)
  list_by_subject : string -> Subject -> list PolicyBean;
  (** [TemplateCheckBiz.check_add_member(template_id, subject, action_ids)]. *)
  check_add_member : Z -> Subject -> list string -> result unit;
  (** [RoleAuthorizationScopeChecker(role).check_policies(system_id, policies)]. *)
  check_policies : Role -> string -> list PolicyBean -> result unit;
  (** [gen_uuid()]. *)
  gen_uuid : string;
  (** [backend.common.time.PERMANENT_SECONDS]. *)
  PERMANENT_SECONDS : Z
}.

(** A statement on the store: it raises when the environment says so and
    applies its change otherwise. *)
Definition statement (env : Env) (op : Op) (f : DB -> DB) : M World unit :=
  if fails env op then raise DatabaseError else modify (set_db f).


(** ** Policy collection ([backend.biz.policy.PolicyBeanList]) *)

Module PolicyBeanList.

(** Modelled from the spec: the class [PolicyBeanList] is not among the
    sources.  It holds the policies of one system and an index by action id
    built once at construction. *)
Record t : Type := mk {
  system_id : string;
  policies : list PolicyBean;
  _policy_dict : gmap string PolicyBean
}.

Definition new (system_id : string) (policies : list PolicyBean) : t :=
  mk system_id policies (dict_of_pairs ((fun p => (action_id p, p)) <$> policies)).

(** Modelled from the spec: [get(action_id) -> Policy | none], a lookup in
    the index. *)
Definition get (self : t) (action_id : string) : option PolicyBean :=
  _policy_dict self !! action_id.

(** A resource instance is identified by the chain of (system, type, id)
    along its path; display names take no part in the comparison. *)
Definition node_key (n : PathNodeBean) : string * string * string :=
  (node_system_id n, node_type n, node_id n).

Definition path_key (p : list PathNodeBean) : list (string * string * string) :=
  node_key <$> p.

Definition rrt_paths (r : RelatedResourceBean) : list (list PathNodeBean) :=
  c ← condition r; i ← instances c; path i.

Definition policy_paths (p : PolicyBean) : list (list PathNodeBean) :=
  r ← related_resource_types p; rrt_paths r.

Definition same_resource_type (r o : RelatedResourceBean) : Prop :=
  rrt_system_id o = rrt_system_id r /\ rrt_type o = rrt_type r.

#[export] Instance same_resource_type_dec r o : Decision (same_resource_type r o).
Proof. unfold same_resource_type. apply _. Defined.

(** The instance paths and the attribute values that the other policy
    already holds for the resource type of [r]. *)
Definition old_path_keys (old : list RelatedResourceBean) (r : RelatedResourceBean)
  : list (list (string * string * string)) :=
  o ← filter (same_resource_type r) old; path_key <$> rrt_paths o.

Definition old_value_ids (old : list RelatedResourceBean) (r : RelatedResourceBean)
    (id : string) : list string :=
  o ← filter (same_resource_type r) old;
  c ← condition o;
  a ← filter (fun a => attribute_id a = id) (attributes c);
  value_id <$> values a.

Definition instance_sub (keys : list (list (string * string * string)))
    (i : InstanceBean) : InstanceBean :=
  mkInstance (instance_type i) (instance_name i)
    (filter (fun p => path_key p ∉ keys) (path i)).

Definition attribute_sub (old : list RelatedResourceBean) (r : RelatedResourceBean)
    (a : AttributeBean) : AttributeBean :=
  mkAttribute (attribute_id a) (attribute_name a)
    (filter (fun v => value_id v ∉ old_value_ids old r (attribute_id a)) (values a)).

Definition condition_sub (old : list RelatedResourceBean) (r : RelatedResourceBean)
    (c : ConditionBean) : ConditionBean :=
  mkCondition (condition_id c)
    (filter (fun i => path i <> []) (instance_sub (old_path_keys old r) <$> instances c))
    (filter (fun a => values a <> []) (attribute_sub old r <$> attributes c)).

Definition rrt_sub (old : list RelatedResourceBean) (r : RelatedResourceBean)
  : RelatedResourceBean :=
  mkRelatedResource (rrt_system_id r) (rrt_type r)
    (filter (fun c => instances c <> [] \/ attributes c <> [])
       (condition_sub old r <$> condition r)).

Definition policy_sub (p old : PolicyBean) : option PolicyBean :=
  let rrts := rrt_sub (related_resource_types old) <$> related_resource_types p in
  if bool_decide (Forall (fun r => condition r = []) rrts) then None
  else Some (mkPolicy (action_id p) rrts (policy_id p) (expired_at p)).

(** Modelled from the spec: [sub(other)] returns, for each policy of
    [self], the remainder after removing every instance and attribute value
    that also appears in the policy of [other] with the same action id.
    Without such a policy in [other] the whole policy is kept unchanged; a
    policy left with no condition in any of its related resource types is
    dropped. *)
Definition sub (self other : t) : t :=
  new (system_id self)
    (omap (fun p => match get other (action_id p) with
                    | None => Some p
                    | Some old => policy_sub p old
                    end) (policies self)).

Definition list_path_nodes (self : t) : list PathNodeBean :=
  p ← policies self; pth ← policy_paths p; pth.

Definition resource_name_error (n : PathNodeBean) : Exn :=
  CodeException VALIDATE_ERROR
    (MsgResourceName (node_type n) (node_id n) (node_name n)).

Definition check_node (env : Env) (n : PathNodeBean) : result unit :=
  match resource_name env (node_key n) with
  | Some name =>
      if bool_decide (name = node_name n) then Ok tt
      else Raise (resource_name_error n)
  | None => Ok tt
  end.

Fixpoint check_nodes (env : Env) (ns : list PathNodeBean) : result unit :=
  match ns with
  | [] => Ok tt
  | n :: rest => try! _ := check_node env n in check_nodes env rest
  end.

(** Modelled from the spec: [check_resource_name()] fails with a validation
    error when an instance of some condition carries a name that differs
    from the canonical name the resource provider resolves for it; an
    instance the provider does not resolve is tolerated. *)
Definition check_resource_name (env : Env) (self : t) : result unit :=
  check_nodes env (list_path_nodes self).

End PolicyBeanList.

(** ** Application data ([backend/trans/application.py]) *)

Module ApplicationDataTrans.

Definition instance_limit_error (action_id rrt_type : string) (limit : Z) : Exn :=
  CodeException VALIDATE_ERROR (MsgInstanceLimit action_id rrt_type limit).

(** The inner loop of [_check_application_policy_instance_count_limit]. *)
Fixpoint check_related_resource_types (limit : Z) (action_id : string)
    (rrts : list RelatedResourceBean) : result unit :=
  match rrts with
  | [] => Ok tt
  | rrt :: rest =>
      if bool_decide (count_instance rrt > limit)
      then Raise (instance_limit_error action_id (rrt_type rrt) limit)
      else check_related_resource_types limit action_id rest
  end.

Fixpoint _check_application_policy_instance_count_limit (limit : Z)
    (policies : list PolicyBean) : result unit :=
  match policies with
  | [] => Ok tt
  | policy :: rest =>
      try! _ := check_related_resource_types limit (action_id policy)
                  (related_resource_types policy) in
      _check_application_policy_instance_count_limit limit rest
  end.

(** Modelled from the spec: [Policy.is_expired] is not among the sources;
    a policy is expired when [expired_at <= now]. *)
Definition is_expired (p : PolicyBean) (now : Z) : bool :=
  bool_decide (expired_at p <= now).

(** Step 4 of [_gen_need_apply_policy_list] for one requested policy. *)
Definition application_policy (now : Z) (old_policy_list diff_policy_list : PolicyBeanList.t)
    (p : PolicyBean) : option PolicyBean :=
  match PolicyBeanList.get old_policy_list (action_id p) with
  | None => Some p
  | Some old_policy =>
      if is_expired old_policy now then Some p
      else
        match PolicyBeanList.get diff_policy_list (action_id p) with
        | None => None
        | Some diff_policy => Some (set_expired_at diff_policy (expired_at old_policy))
        end
  end.

(** [_gen_need_apply_policy_list]; [now] is the clock read by
    [is_expired]. *)
Definition _gen_need_apply_policy_list (env : Env) (now : Z) (applicant : string)
    (system_id : string) (policy_list : PolicyBeanList.t) : result PolicyBeanList.t :=
  let old_policy_list :=
    PolicyBeanList.new system_id
      (list_by_subject env system_id (mkSubject USER applicant)) in
  let diff_policy_list := PolicyBeanList.sub policy_list old_policy_list in
  try! _ := PolicyBeanList.check_resource_name env diff_policy_list in
  let application_policies :=
    omap (application_policy now old_policy_list diff_policy_list)
         (PolicyBeanList.policies policy_list) in
  if bool_decide (length application_policies = 0%nat)
  then Raise (CodeException INVALID_ARGS MsgNoChange)
  else Ok (PolicyBeanList.new system_id application_policies).

End ApplicationDataTrans.

(** ** Policy operation service ([backend/service/policy/operation.py]) *)

Module PolicyOperationService.

(** Modelled from the spec: [PolicyList] of [service/policy/query.py] is not
    among the sources; [ids] lists the backend identifiers and [get] looks
    an action up in an index built at construction. *)
Definition PolicyList_ids (policies : list PolicyBean) : list Z :=
  policy_id <$> policies.

Definition PolicyList_get (policies : list PolicyBean) (action_id : string)
  : option PolicyBean :=
  PolicyBeanList.get (PolicyBeanList.new "" policies) action_id.

Definition BackendPolicyList_get (policies : list BackendPolicy) (action_id : string)
  : option BackendPolicy :=
  dict_of_pairs ((fun p => (backend_action_id p, p)) <$> policies) !! action_id.

(** Modelled from the spec: [Policy.to_db_model] builds the mirror row of a
    new policy; the row carries the identifier placeholder 0 until the
    backend identifier is synchronised. *)
Definition to_db_model (system_id : string) (subject : Subject) (p : PolicyBean)
  : PolicyModel :=
  mkPolicyModel (subject_type subject) (subject_id subject) system_id
    (action_id p) 0 (related_resource_types p).

(** Modelled from the spec: [Policy.to_backend_dict], the flattened dict
    form of a policy; the embedding keeps the policy itself. *)
Definition to_backend_dict (p : PolicyBean) : PolicyBean := p.

(** [PolicyModel.objects.bulk_create]: every row gets a fresh primary key. *)
Definition bulk_create (rows : list PolicyModel) (table : gmap Z PolicyModel)
  : gmap Z PolicyModel :=
  foldl (fun t row => <[fresh (dom t) := row]> t) table rows.

Definition of_subject (system_id : string) (subject : Subject) (row : PolicyModel)
  : Prop :=
  pm_system_id row = system_id /\ pm_subject_type row = subject_type subject
  /\ pm_subject_id row = subject_id subject.

#[export] Instance of_subject_dec system_id subject row :
  Decision (of_subject system_id subject row).
Proof. unfold of_subject. apply _. Defined.

Definition set_resources (rrts : list RelatedResourceBean) (row : PolicyModel)
  : PolicyModel :=
  mkPolicyModel (pm_subject_type row) (pm_subject_id row) (pm_system_id row)
    (pm_action_id row) (pm_policy_id row) rrts.

Definition set_policy_id (id : Z) (row : PolicyModel) : PolicyModel :=
  mkPolicyModel (pm_subject_type row) (pm_subject_id row) (pm_system_id row)
    (pm_action_id row) id (_resources row).

Section Service.

Variable env : Env.

Definition _alter_backend_policies (system_id : string) (subject : Subject)
    (create_policies update_policies : list PolicyBean) (delete_policy_ids : list Z)
  : M World unit :=
  log EvAlterBackendPolicies >>
  let backend_create_policies := to_backend_dict <$> create_policies in
  let backend_update_policies := to_backend_dict <$> update_policies in
  lift (iam_alter_policies env system_id (subject_type subject) (subject_id subject)
          backend_create_policies backend_update_policies delete_policy_ids).

Definition _create_db_policies (system_id : string) (subject : Subject)
    (policies : list PolicyBean) : M World unit :=
  log EvCreateDbPolicies >>
  let db_policies := to_db_model system_id subject <$> policies in
  statement env OpPolicyBulkCreate (set_policy (bulk_create db_policies)).

(** The loop of [_update_db_policies]: one update by primary key for each
    selected row whose action is among the policies to update. *)
Fixpoint update_each (policy_list : list PolicyBean) (db_policies : list (Z * PolicyModel))
  : M World unit :=
  match db_policies with
  | [] => ret tt
  | (id, p) :: rest =>
      match PolicyList_get policy_list (pm_action_id p) with
      | None => update_each policy_list rest
      | Some update_policy =>
          statement env OpPolicyUpdate
            (set_policy (base.alter (set_resources (related_resource_types update_policy)) id)) >>
          update_each policy_list rest
      end
  end.

Definition _update_db_policies (system_id : string) (subject : Subject)
    (policies : list PolicyBean) : M World unit :=
  log EvUpdateDbPolicies >>
  let! db_policies :=
    gets (fun w => map_to_list
            (filter (fun kv => of_subject system_id subject kv.2
                               /\ pm_policy_id kv.2 ∈ PolicyList_ids policies)
                    (policy (db w)))) in
  update_each policies db_policies.

Definition _delete_db_policies (system_id : string) (subject : Subject)
    (policy_ids : list Z) : M World unit :=
  log EvDeleteDbPolicies >>
  statement env OpPolicyDelete
    (set_policy (filter (fun kv => ~ (of_subject system_id subject kv.2
                                      /\ pm_policy_id kv.2 ∈ policy_ids)))).

(** The assignment loop of [_sync_db_policy_id] on one fetched row. *)
Definition assign_policy_id (backend_policy_list : list BackendPolicy)
    (p : PolicyModel) : PolicyModel :=
  match BackendPolicyList_get backend_policy_list (pm_action_id p) with
  | None => p
  | Some backend_policy => set_policy_id (backend_id backend_policy) p
  end.

(** [bulk_update(objs, fields=["policy_id"])]: the column is written for
    the row of each object's primary key. *)
Definition bulk_update_policy_id (objs : list (Z * PolicyModel))
    (table : gmap Z PolicyModel) : gmap Z PolicyModel :=
  foldl (fun t obj => base.alter (set_policy_id (pm_policy_id obj.2)) obj.1 t) table objs.

Definition _sync_db_policy_id (system_id : string) (subject : Subject) : M World unit :=
  log EvSyncDbPolicyId >>
  let! db_policies :=
    gets (fun w => map_to_list
            (filter (fun kv => of_subject system_id subject kv.2 /\ pm_policy_id kv.2 = 0)
                    (policy (db w)))) in
  if bool_decide (length db_policies = 0%nat) then ret tt
  else
    let! backend_policy_list := lift (backend_policy_list_by_subject env system_id subject) in
    let db_policies :=
      (fun obj => (obj.1, assign_policy_id backend_policy_list obj.2)) <$> db_policies in
    statement env OpPolicyBulkUpdate (set_policy (bulk_update_policy_id db_policies)).

Definition alter (system_id : string) (subject : Subject)
    (create_policies update_policies : option (list PolicyBean))
    (delete_policy_ids : option (list Z)) : M World unit :=
  let create_policies := default [] create_policies in
  let update_policies := default [] update_policies in
  let delete_policy_ids := default [] delete_policy_ids in
  transaction_atomic
    (when (truthy create_policies)
       (_create_db_policies system_id subject create_policies) >>
     when (truthy update_policies)
       (_update_db_policies system_id subject update_policies) >>
     when (truthy delete_policy_ids)
       (_delete_db_policies system_id subject delete_policy_ids) >>
     when (truthy create_policies || truthy update_policies || truthy delete_policy_ids)
       (_alter_backend_policies system_id subject create_policies update_policies
          delete_policy_ids)) >>
  when (truthy create_policies) (_sync_db_policy_id system_id subject).

End Service.

End PolicyOperationService.


(** ** Group authorization ([backend/biz/group.py]) *)

Module GroupBiz.

Record GroupTemplateGrantBean : Type := mkGroupTemplateGrantBean {
  system_id : string;
  template_id : Z;
  policies : list PolicyBean
}.

Definition is_CodeException (e : Exn) : bool :=
  match e with CodeException _ _ => true | _ => false end.

(** [e.message] of a caught [CodeException]. *)
Definition message_of (e : Exn) : Message :=
  match e with
  | CodeException _ message => message
  | _ => MsgText ""
  end.

(** [GroupAuthorizeLock.objects.filter(group_id=group.id).filter(
    Q(template_id__in=template_ids)
    | (Q(template_id=0) & Q(system_id__in=custom_action_system_ids)))]. *)
Definition lock_conflicts (group_id : Z) (template_ids : list Z)
    (custom_action_system_ids : list string) (l : GroupAuthorizeLock) : Prop :=
  lock_group_id l = group_id
  /\ (lock_template_id l ∈ template_ids
      \/ (lock_template_id l = 0 /\ lock_system_id l ∈ custom_action_system_ids)).

#[export] Instance lock_conflicts_dec group_id template_ids systems l :
  Decision (lock_conflicts group_id template_ids systems l).
Proof. unfold lock_conflicts. apply _. Defined.

Definition requested_template_ids (templates : list GroupTemplateGrantBean) : list Z :=
  template_id <$> filter (fun template => template_id template <> 0) templates.

Definition requested_custom_system_ids (templates : list GroupTemplateGrantBean)
  : list string :=
  system_id <$> filter (fun template => template_id template = 0) templates.

Section Biz.

Variable env : Env.

Definition _check_before_grant (group : Group) (templates : list GroupTemplateGrantBean)
  : M World unit :=
  let template_ids := requested_template_ids templates in
  let custom_action_system_ids := requested_custom_system_ids templates in
  let! updating :=
    gets (fun w => bool_decide
            (Exists (fun l => pre_update_template_id l ∈ template_ids)
                    (perm_template_pre_update_lock (db w)))) in
  if updating then raise (CodeException VALIDATE_ERROR MsgTemplateUpdating)
  else
    let! authorizing :=
      gets (fun w => bool_decide
              (Exists (lock_conflicts (group_id group) template_ids custom_action_system_ids)
                      (group_authorize_lock (db w)))) in
    if authorizing then raise (CodeException VALIDATE_ERROR MsgGrantRepeated)
    else ret tt.

(** The loop of [_valid_grant_actions_not_exists]. *)
Fixpoint actions_not_exists (policy_list : PolicyBeanList.t) (system_id : string)
    (action_ids : list string) : result unit :=
  match action_ids with
  | [] => Ok tt
  | action_id :: rest =>
      match PolicyBeanList.get policy_list action_id with
      | Some _ => Raise (CodeException VALIDATE_ERROR (MsgActionExists system_id action_id))
      | None => actions_not_exists policy_list system_id rest
      end
  end.

Definition _valid_grant_actions_not_exists (subject : Subject) (system_id : string)
    (action_ids : list string) : result unit :=
  let policy_list := PolicyBeanList.new system_id (list_by_subject env system_id subject) in
  actions_not_exists policy_list system_id action_ids.

(** The first check of [_gen_grant_lock]: the template's action list for a
    template grant, add-only for a custom grant. *)
Definition check_actions (subject : Subject) (template : GroupTemplateGrantBean)
  : result unit :=
  let action_ids := action_id <$> policies template in
  if bool_decide (template_id template <> 0)
  then check_add_member env (template_id template) subject action_ids
  else _valid_grant_actions_not_exists subject (system_id template) action_ids.

Definition check_names (template : GroupTemplateGrantBean) : result unit :=
  PolicyBeanList.check_resource_name env
    (PolicyBeanList.new (system_id template) (policies template)).

Definition check_scope (role : Role) (template : GroupTemplateGrantBean) : result unit :=
  check_policies env role (system_id template) (policies template).

(** [for p in template.policies: p.set_expired_at(PERMANENT_SECONDS)]: the
    policies of the caller's bean are overwritten in place. *)
Definition set_permanent (template : GroupTemplateGrantBean) : GroupTemplateGrantBean :=
  mkGroupTemplateGrantBean (system_id template) (template_id template)
    ((fun p => set_expired_at p (PERMANENT_SECONDS env)) <$> policies template).

(** [_gen_grant_lock]; the state is the bean [template], which the method
    mutates. *)
Definition _gen_grant_lock (subject : Subject) (role : Role) (uuid : string)
  : M GroupTemplateGrantBean GroupAuthorizeLock :=
  let! template := gets (fun t => t) in
  lift (check_actions subject template) >>
  catch (lift (check_names template) >> lift (check_scope role template))
        is_CodeException
        (fun e => raise (CodeException VALIDATE_ERROR
                           (MsgTemplateCheck (system_id template) (template_id template)
                              (message_of e)))) >>
  modify set_permanent >>
  let! template := gets (fun t => t) in
  let! group_id := lift (int (subject_id subject)) in
  ret (mkGroupAuthorizeLock (template_id template) group_id (system_id template) uuid
         (policies template)).

(** The loop of [grant] that collects one lock per template; the first
    failure ends it. *)
Fixpoint gen_grant_locks (subject : Subject) (role : Role) (uuid : string)
    (templates : list GroupTemplateGrantBean) : result (list GroupAuthorizeLock) :=
  match templates with
  | [] => Ok []
  | template :: rest =>
      try! lock := fst (_gen_grant_lock subject role uuid template) in
      try! locks := gen_grant_locks subject role uuid rest in
      Ok (lock :: locks)
  end.

Definition next_task_id (tasks : list TaskDetail) : Z :=
  1 + foldr Z.max 0 (task_id <$> tasks).

(** [TaskDetail.create(type, args)]: inserts the task record and returns it. *)
Definition TaskDetail_create (type : TaskType) (args : Subject * string)
  : M World TaskDetail :=
  if fails env OpTaskCreate then raise DatabaseError
  else fun w =>
    let task := mkTaskDetail (next_task_id (task_detail (db w))) type args in
    (Ok task, set_db (set_task_detail (fun tasks => (tasks ++ [task])%list)) w).

(** [TaskFactory().delay(task.id)]: hands the task to the runner. *)
Definition TaskFactory_delay (id : Z) : M World unit :=
  if fails env OpTaskDelay then raise APIError
  else modify (fun w => mkWorld (db w) (celery w ++ [id]) (trace w)).

Definition grant (role : Role) (group : Group) (templates : list GroupTemplateGrantBean)
  : M World unit :=
  _check_before_grant group templates >>
  let subject := mkSubject GROUP (str (group_id group)) in
  let uuid := gen_uuid env in
  let! locks := lift (gen_grant_locks subject role uuid templates) in
  let! task :=
    transaction_atomic
      (statement env OpLockBulkCreate
         (set_group_authorize_lock (fun rows => (rows ++ locks)%list)) >>
       TaskDetail_create GROUP_AUTHORIZATION (subject, uuid)) in
  TaskFactory_delay (task_id task).

(** [PermTemplatePolicyAuthorized.objects.get_by_subject_template]. *)
Definition get_by_subject_template (subject : Subject) (template_id : Z)
  : M World PermTemplatePolicyAuthorized :=
  let! rows := gets (fun w => perm_template_policy_authorized (db w)) in
  match filter (fun a => authorized_subject a = subject
                         /\ authorized_template_id a = template_id) rows with
  | authorized_template :: _ => ret authorized_template
  | [] => raise DoesNotExist
  end.

(** The policies already authorized to the subject, as the first statement
    of [check_update_policies_resource_name] fetches them. *)
Definition authorized_policies (system_id : string) (template_id : Z) (subject : Subject)
  : M World (list PolicyBean) :=
  if bool_decide (template_id = 0) then ret (list_by_subject env system_id subject)
  else
    let! authorized_template := get_by_subject_template subject template_id in
    ret (authorized_actions authorized_template).

Definition check_update_policies_resource_name (system_id : string) (template_id : Z)
    (policies : list PolicyBean) (subject : Subject) : M World unit :=
  let! old_policies := authorized_policies system_id template_id subject in
  let added_policy_list :=
    PolicyBeanList.sub (PolicyBeanList.new system_id policies)
                       (PolicyBeanList.new system_id old_policies) in
  lift (PolicyBeanList.check_resource_name env added_policy_list).

(** Modelled from the spec: the four helpers that [delete] calls next are
    not among the sources; each one removes what the comment at its call
    site says: the relation between grade manager and group, the template
    authorizations of the subject, the attributes of the group, and the
    group itself. *)
Definition delete_group_relation (group_id : Z) : M World unit :=
  statement env OpGroupRelationDelete
    (set_role_related_object
       (filter (fun o => ~ (related_object_type o = GROUP /\ related_object_id o = group_id)))).

Definition delete_template_auth_by_subject (subject : Subject) : M World unit :=
  statement env OpTemplateAuthDelete
    (set_perm_template_policy_authorized
       (filter (fun a => authorized_subject a <> subject))).

Definition batch_delete_attributes (group_ids : list Z) : M World unit :=
  statement env OpGroupAttributeDelete
    (set_group_saas_attribute (filter (fun a => attribute_group_id a ∉ group_ids))).

Definition group_svc_delete (id : Z) : M World unit :=
  statement env OpGroupDelete (set_group (filter (fun g => group_id g <> id))).

Definition delete (group_id : Z) : M World unit :=
  let! authorizing :=
    gets (fun w => bool_decide
            (Exists (fun l => lock_group_id l = group_id) (group_authorize_lock (db w)))) in
  if authorizing then raise (CodeException VALIDATE_ERROR MsgGroupAuthorizing)
  else
    let subject := mkSubject GROUP (str group_id) in
    transaction_atomic
      (delete_group_relation group_id >>
       delete_template_auth_by_subject subject >>
       statement env OpPolicyDelete
         (set_policy (filter (fun kv => ~ (pm_subject_type kv.2 = subject_type subject
                                           /\ pm_subject_id kv.2 = subject_id subject)))) >>
       batch_delete_attributes [group_id] >>
       group_svc_delete group_id).

End Biz.

End GroupBiz.

(** ** Group checks ([GroupCheckBiz]) *)

Module GroupCheckBiz.

Section Biz.

Variable env : Env.

(** The loop of [check_grant_policies_without_update]. *)
Fixpoint policies_not_exists (policy_list : PolicyBeanList.t) (system_id : string)
    (policies : list PolicyBean) : result unit :=
  match policies with
  | [] => Ok tt
  | p :: rest =>
      match PolicyBeanList.get policy_list (action_id p) with
      | Some _ =>
          Raise (CodeException VALIDATE_ERROR
                   (MsgActionExistsNoUpdate system_id (action_id p)))
      | None => policies_not_exists policy_list system_id rest
      end
  end.

(** The second statement of the method binds [policies] again, to the
    stored policies of the subject; the loop below it walks that list. *)
Definition check_grant_policies_without_update (group_id : Z) (system_id : string)
    (policies : list PolicyBean) : result unit :=
  let subject := mkSubject GROUP (str group_id) in
  let policies := list_by_subject env system_id subject in
  let policy_list := PolicyBeanList.new system_id policies in
  policies_not_exists policy_list system_id policies.

End Biz.

End GroupCheckBiz.


(** ** Vocabulary of the properties *)

(** [emits m expected]: from any world, [m] returns, the calls it logs are a
    prefix of [expected], and all of [expected] when it does not raise. *)
Definition emits {A} (m : M World A) (expected : list Event) : Prop :=
  forall w, exists r w1 evs,
    m w = (r, w1) /\ trace w1 = (trace w ++ evs)%list
    /\ evs `prefix_of` expected /\ (is_ok r = true -> evs = expected).


(** The calls a complete [alter] makes inside its transaction. *)
Definition alter_calls (create_policies update_policies : list PolicyBean)
    (delete_policy_ids : list Z) : list Event :=
  ((if truthy create_policies then [EvCreateDbPolicies] else [])
   ++ (if truthy update_policies then [EvUpdateDbPolicies] else [])
   ++ (if truthy delete_policy_ids then [EvDeleteDbPolicies] else [])
   ++ (if truthy create_policies || truthy update_policies || truthy delete_policy_ids
       then [EvAlterBackendPolicies] else []))%list.


(** The block under [transaction.atomic()] in [alter], for the three sets
    as [alter] has defaulted them. *)
Definition alter_transaction (env : Env) (system_id : string) (subject : Subject)
    (create_policies update_policies : list PolicyBean) (delete_policy_ids : list Z)
  : M World unit :=
  transaction_atomic
    (when (truthy create_policies)
       (PolicyOperationService._create_db_policies env system_id subject
          create_policies) >>
     when (truthy update_policies)
       (PolicyOperationService._update_db_policies env system_id subject
          update_policies) >>
     when (truthy delete_policy_ids)
       (PolicyOperationService._delete_db_policies env system_id subject
          delete_policy_ids) >>
     when (truthy create_policies || truthy update_policies || truthy delete_policy_ids)
       (PolicyOperationService._alter_backend_policies env system_id subject
          create_policies update_policies delete_policy_ids)).

(** A stored lock stands in the way of a request when it belongs to the
    group and names a requested template, or is a custom-grant lock
    (template id 0) of a system for which a custom grant is requested. *)
Definition lock_for_request (group : Group)
    (templates : list GroupBiz.GroupTemplateGrantBean) (l : GroupAuthorizeLock) : Prop :=
  lock_group_id l = group_id group
  /\ ((exists t, t ∈ templates /\ GroupBiz.template_id t <> 0
                 /\ lock_template_id l = GroupBiz.template_id t)
      \/ (lock_template_id l = 0
          /\ exists t, t ∈ templates /\ GroupBiz.template_id t = 0
                       /\ lock_system_id l = GroupBiz.system_id t)).

(** A requested template that a template-editing process holds. *)
Definition template_being_updated
    (templates : list GroupBiz.GroupTemplateGrantBean)
    (l : PermTemplatePreUpdateLock) : Prop :=
  exists t, t ∈ templates /\ GroupBiz.template_id t <> 0
            /\ pre_update_template_id l = GroupBiz.template_id t.

(** A template passes validation when [_gen_grant_lock] returns a lock for
    it. *)
Definition template_passes (env : Env) (subject : Subject) (role : Role)
    (uuid : string) (template : GroupBiz.GroupTemplateGrantBean) : Prop :=
  is_ok (GroupBiz._gen_grant_lock env subject role uuid template).1 = true.

(** The resource instances a policy names: the resource type of the
    related resource type and the key of the path. *)
Definition rrt_keys (r : RelatedResourceBean)
  : list (string * string * list (string * string * string)) :=
  (fun p => (rrt_system_id r, rrt_type r, PolicyBeanList.path_key p))
    <$> PolicyBeanList.rrt_paths r.

Definition policy_keys (p : PolicyBean)
  : list (string * string * list (string * string * string)) :=
  r ← related_resource_types p; rrt_keys r.


(** ** Sample data *)

Module Examples.

Definition host (id name : string) : PathNodeBean :=
  mkPathNode "bk_cmdb" "host" id name.

(** A policy of [action] on the hosts [nodes], one path per host. *)
Definition policy_on (action : string) (nodes : list PathNodeBean) : PolicyBean :=
  mkPolicy action
    [mkRelatedResource "bk_cmdb" "host"
       [mkCondition "" [mkInstance "host" "hosts" ((fun n => [n]) <$> nodes)] []]]
    0 1700000000.

(** A policy that names [n] instances of one resource type. *)
Definition host_policy (n : nat) : PolicyBean :=
  policy_on "view" (replicate n (host "1" "h1")).

(** An environment whose backend answers [response] and lists [backend],
    whose statements fail as [failing] says, whose providers know [names]
    and where every subject holds the policies [existing]; the template and
    scope checks pass. *)
Definition environment (response : result unit) (backend : list BackendPolicy)
    (failing : Op -> bool) (names : string * string * string -> option string)
    (existing : list PolicyBean) : Env :=
  mkEnv (fun _ _ _ _ _ _ => response) (fun _ _ => Ok backend) failing names
        (fun _ _ => existing) (fun _ _ _ => Ok tt) (fun _ _ _ => Ok tt)
        "0c7f3e" 4102444800.

Definition no_failure (op : Op) : bool := false.

Definition no_names (key : string * string * string) : option string := None.

Definition quiet : Env := environment (Ok tt) [] no_failure no_names [].

Definition empty_db : DB := mkDB ∅ [] [] [] [] [] [] [].

Definition world (d : DB) : World := mkWorld d [] [].

Definition admin : Subject := mkSubject USER "admin".

Definition group7 : Group := mkGroup 7 "ops".

Definition manager : Role := mkRole 1.

(** Group 7 is being granted template 3. *)
Definition lock_7_3 : GroupAuthorizeLock :=
  mkGroupAuthorizeLock 3 7 "bk_cmdb" "a41b" [].

Definition locked_db : DB := mkDB ∅ [lock_7_3] [] [] [] [] [] [].

Definition template_grant (id : Z) : GroupBiz.GroupTemplateGrantBean :=
  GroupBiz.mkGroupTemplateGrantBean "bk_cmdb" id
    [policy_on "read" [host "1" "h1"]; policy_on "write" [host "1" "h1"]].

(** The providers know host X under a new name. *)
Definition renamed (key : string * string * string) : option string :=
  if bool_decide (key = ("bk_cmdb", "host", "X")) then Some "x-new"
  else if bool_decide (key = ("bk_cmdb", "host", "Y")) then Some "y"
  else None.

End Examples.


(** ** The other operations of the policy operation service *)

Module PolicyOperation.

(** The other two calls the service makes to the IAM backend:
    [iam.delete_policies(system_id, subject_type, subject_id, policy_ids)]
    and [iam.update_policy_expired_at(subject_type, subject_id, policies)],
    the latter with one (policy id, expiration) pair per policy. *)
Record Iam : Type := mkIam {
  delete_policies : string -> string -> string -> list Z -> result unit;
  update_policy_expired_at : string -> string -> list (Z * Z) -> result unit
}.

Section Service.

Variable env : Env.
Variable iam : Iam.

Definition delete_by_ids (system_id : string) (subject : Subject) (policy_ids : list Z)
  : M World unit :=
  transaction_atomic
    (PolicyOperationService._delete_db_policies env system_id subject policy_ids >>
     lift (delete_policies iam system_id (subject_type subject) (subject_id subject)
             policy_ids)).

Definition renew (subject : Subject) (thin_policies : list (Z * Z)) : M World unit :=
  lift (update_policy_expired_at iam (subject_type subject) (subject_id subject)
          thin_policies).

End Service.

End PolicyOperation.


(** ** Documents and the exceptions of the HTTP components *)

(** A float as [json] loads it: NaN, an infinity, or the finite value
    [m * 2^e]. *)
Inductive PyFloat : Type :=
  | FNaN
  | FInf (negative : bool)
  | FFinite (m e : Z).

(** The integer a finite float equals, when it equals one. *)
Definition float_as_integer (f : PyFloat) : option Z :=
  match f with
  | FFinite m e =>
      if bool_decide (0 <= e) then Some (m * 2 ^ e)
      else if bool_decide (m mod 2 ^ (- e) = 0) then Some (m / 2 ^ (- e))
      else None
  | _ => None
  end.

(** A JSON document as [json] loads it, which is also the shape of the
    request bodies. *)
#[warnings="-register-all"]
Inductive Json : Type :=
  | JNull
  | JBool (b : bool)
  | JInt (n : Z)
  | JFloat (f : PyFloat)
  | JStr (s : string)
  | JList (items : list Json)
  | JDict (items : list (string * Json)).

Inductive PyType : Type :=
  | NoneType | BoolType | IntType | FloatType | StrType | ListType | DictType.

#[export] Instance PyType_eq_dec : EqDecision PyType.
Proof. solve_decision. Defined.

(** [type(data)]. *)
Definition type_of (data : Json) : PyType :=
  match data with
  | JNull => NoneType
  | JBool _ => BoolType
  | JInt _ => IntType
  | JFloat _ => FloatType
  | JStr _ => StrType
  | JList _ => ListType
  | JDict _ => DictType
  end.

(** [not data]. *)
Definition falsy (data : Json) : bool :=
  match data with
  | JNull => true
  | JBool b => negb b
  | JInt n => bool_decide (n = 0)
  | JFloat f => bool_decide (float_as_integer f = Some 0)
  | JStr s => bool_decide (s = "")
  | JList items => bool_decide (length items = 0%nat)
  | JDict items => bool_decide (length items = 0%nat)
  end.

(** What a call of a component can raise: one of its error codes [C], or
    the [KeyError] and [TypeError] of an access to a document of another
    shape. *)
Inductive Raised (C : Type) : Type :=
  | CodeError (code : C)
  | KeyError (key : string)
  | TypeError.
Arguments CodeError {C} code.
Arguments KeyError {C} key.
Arguments TypeError {C}.

Inductive outcome (C A : Type) : Type :=
  | Return (a : A)
  | Throw (e : Raised C).
Arguments Return {C A} a.
Arguments Throw {C A} e.

Definition and_then {C A B} (o : outcome C A) (k : A -> outcome C B) : outcome C B :=
  match o with Return a => k a | Throw e => Throw e end.

Notation "'get!' x ':=' o 'in' k" := (and_then o (fun x => k))
  (at level 10, x pattern, o at level 100, k at level 200).

(** A dict with string keys, in insertion order: lookup, [d[key] = value]
    and [d.update(other)]. *)
Fixpoint dict_lookup {V} (key : string) (items : list (string * V)) : option V :=
  match items with
  | [] => None
  | (k, v) :: rest => if bool_decide (k = key) then Some v else dict_lookup key rest
  end.

Fixpoint dict_set {V} (key : string) (value : V) (items : list (string * V))
  : list (string * V) :=
  match items with
  | [] => [(key, value)]
  | (k, v) :: rest =>
      if bool_decide (k = key) then (k, value) :: rest
      else (k, v) :: dict_set key value rest
  end.

Definition dict_update {V} (items other : list (string * V)) : list (string * V) :=
  foldl (fun d kv => dict_set kv.1 kv.2 d) items other.

(** [obj[key]] for a string key. *)
Definition getitem {C} (obj : Json) (key : string) : outcome C Json :=
  match obj with
  | JDict items =>
      match dict_lookup key items with
      | Some v => Return v
      | None => Throw (KeyError key)
      end
  | _ => Throw TypeError
  end.

(** [len(obj)]. *)
Definition py_len {C} (obj : Json) : outcome C Z :=
  match obj with
  | JList items => Return (Z.of_nat (length items))
  | JDict items => Return (Z.of_nat (length items))
  | JStr s => Return (Z.of_nat (String.length s))
  | _ => Throw TypeError
  end.

(** [n > obj] for an integer [n]: the comparison with a number is exact,
    with NaN it is false, and no other type is ordered with an integer. *)
Definition int_gt {C} (n : Z) (obj : Json) : outcome C bool :=
  match obj with
  | JInt c => Return (bool_decide (n > c))
  | JBool b => Return (bool_decide (n > (if b then 1 else 0)))
  | JFloat FNaN => Return false
  | JFloat (FInf negative) => Return negative
  | JFloat (FFinite m e) =>
      Return (if bool_decide (0 <= e) then bool_decide (n > m * 2 ^ e)
              else bool_decide (n * 2 ^ (- e) > m))
  | _ => Throw TypeError
  end.

(** [n] results are within a count: at most the count when it is an
    integer, a boolean or a finite float; a count of plus infinity bounds
    nothing, and NaN is not ordered with any number.  No other value is a
    count. *)
Definition within_count (n : Z) (count : Json) : Prop :=
  match count with
  | JInt c => n <= c
  | JBool b => n <= (if b then 1 else 0)
  | JFloat (FFinite m e) => if bool_decide (0 <= e) then n <= m * 2 ^ e
                            else n * 2 ^ (- e) <= m
  | JFloat (FInf negative) => negative = false
  | JFloat FNaN => True
  | _ => False
  end.

(** [code == 0]. *)
Definition equals_zero (code : Json) : bool :=
  match code with
  | JInt n => bool_decide (n = 0)
  | JBool b => negb b
  | JFloat f => bool_decide (float_as_integer f = Some 0)
  | _ => false
  end.


(** ** Resource provider client ([backend/component/resource_provider.py]) *)

Module ResourceProviderClient.

Inductive ErrorCode : Type :=
  | RESOURCE_PROVIDER_UNAUTHORIZED
  | RESOURCE_PROVIDER_NOT_FOUND
  | RESOURCE_PROVIDER_SEARCH_VALIDATE_ERROR
  | RESOURCE_PROVIDER_DATA_TOO_LARGE
  | RESOURCE_PROVIDER_API_REQUEST_FREQUENCY_EXCEEDED
  | RESOURCE_PROVIDER_INTERNAL_SERVER_ERROR
  | RESOURCE_PROVIDER_ERROR
  | RESOURCE_PROVIDER_JSON_LOAD_ERROR
  | RESOURCE_PROVIDER_DATA_INVALID
  | RESOURCE_PROVIDER_AUTH_INFO_VALID.

(** [ResponseCodeToErrorDict]: the error and its [replace_message] flag. *)
Definition ResponseCodeToErrorDict (code : Z) : option (ErrorCode * bool) :=
  if bool_decide (code = 401) then Some (RESOURCE_PROVIDER_UNAUTHORIZED, false)
  else if bool_decide (code = 404) then Some (RESOURCE_PROVIDER_NOT_FOUND, false)
  else if bool_decide (code = 406) then Some (RESOURCE_PROVIDER_SEARCH_VALIDATE_ERROR, true)
  else if bool_decide (code = 422) then Some (RESOURCE_PROVIDER_DATA_TOO_LARGE, false)
  else if bool_decide (code = 429)
       then Some (RESOURCE_PROVIDER_API_REQUEST_FREQUENCY_EXCEEDED, false)
  else if bool_decide (code = 500) then Some (RESOURCE_PROVIDER_INTERNAL_SERVER_ERROR, false)
  else None.

(** [ResponseCodeToErrorDict.get(code)] for a [code] read from a document:
    a float finds the entry of the integer it equals, and a list or a dict
    cannot be hashed. *)
Definition error_of_code (code : Json) : outcome ErrorCode (option (ErrorCode * bool)) :=
  match code with
  | JInt n => Return (ResponseCodeToErrorDict n)
  | JBool b => Return (ResponseCodeToErrorDict (if b then 1 else 0))
  | JFloat f =>
      Return (match float_as_integer f with
              | Some n => ResponseCodeToErrorDict n
              | None => None
              end)
  | JNull | JStr _ => Return None
  | JList _ | JDict _ => Throw TypeError
  end.

(** What [request_pool.request] comes back with: a
    [requests.exceptions.RequestException], or a response with its status
    code and, when the body is JSON, the document. *)
Inductive Reply : Type :=
  | RequestException
  | HttpResponse (status_code : Z) (json : option Json).

Record t : Type := mk {
  system_id : string;
  resource_type_id : string;
  (** the resource provider behind [self.url] *)
  send : Json -> Reply
}.

(** [_call_api]; [raise_for_status] raises for the status codes 400 to
    599. *)
Definition _call_api (self : t) (data : Json) : outcome ErrorCode Json :=
  get! _ := getitem data "method" in
  match send self data with
  | RequestException => Throw (CodeError RESOURCE_PROVIDER_ERROR)
  | HttpResponse status_code json =>
      if bool_decide (400 <= status_code < 600)
      then Throw (CodeError RESOURCE_PROVIDER_ERROR)
      else
        match json with
        | None => Throw (CodeError RESOURCE_PROVIDER_JSON_LOAD_ERROR)
        | Some resp =>
            get! code := getitem resp "code" in
            if equals_zero code then getitem resp "data"
            else
              get! known := error_of_code code in
              match known with
              | None => Throw (CodeError RESOURCE_PROVIDER_ERROR)
              | Some (error, _) => Throw (CodeError error)
              end
        end
  end.

Definition _handle_empty_data (data default_empty_data : Json)
  : outcome ErrorCode Json :=
  if falsy data then Return default_empty_data
  else if bool_decide (type_of data <> type_of default_empty_data)
       then Throw (CodeError RESOURCE_PROVIDER_DATA_INVALID)
       else Return data.

Definition _handle_data_valid (resp_data : Json) : outcome ErrorCode (Json * Json) :=
  get! count := getitem resp_data "count" in
  get! results := getitem resp_data "results" in
  get! n := py_len results in
  get! too_many := int_gt n count in
  if too_many then Throw (CodeError RESOURCE_PROVIDER_DATA_INVALID)
  else Return (count, results).

(** [{"count": 0, "results": []}]. *)
Definition empty_page : Json := JDict [("count", JInt 0); ("results", JList [])].

Definition list_attr (self : t) : outcome ErrorCode Json :=
  let data := JDict [("type", JStr (resource_type_id self)); ("method", JStr "list_attr")] in
  get! resp := _call_api self data in
  _handle_empty_data resp (JList []).

(** [list_attr_value] writes [attr] into the caller's [filter_condition]
    before it sends it. *)
Definition list_attr_value (self : t) (attr : string)
    (filter_condition : list (string * Json)) (page : Json)
  : outcome ErrorCode (Json * Json) :=
  let filter_condition := dict_set "attr" (JStr attr) filter_condition in
  let data := JDict [("type", JStr (resource_type_id self));
                     ("method", JStr "list_attr_value");
                     ("filter", JDict filter_condition); ("page", page)] in
  get! resp := _call_api self data in
  get! resp_data := _handle_empty_data resp empty_page in
  _handle_data_valid resp_data.

Definition list_instance (self : t) (filter_condition page : Json)
  : outcome ErrorCode (Json * Json) :=
  let data := JDict [("type", JStr (resource_type_id self));
                     ("method", JStr "list_instance");
                     ("filter", filter_condition); ("page", page)] in
  get! resp := _call_api self data in
  get! resp_data := _handle_empty_data resp empty_page in
  _handle_data_valid resp_data.

Definition fetch_instance_info (self : t) (filter_condition : Json)
  : outcome ErrorCode Json :=
  let data := JDict [("type", JStr (resource_type_id self));
                     ("method", JStr "fetch_instance_info");
                     ("filter", filter_condition)] in
  get! resp := _call_api self data in
  _handle_empty_data resp (JList []).

Definition list_instance_by_policy (self : t) (filter_condition page : Json)
  : outcome ErrorCode (Json * Json) :=
  let data := JDict [("type", JStr (resource_type_id self));
                     ("method", JStr "list_instance_by_policy");
                     ("filter", filter_condition); ("page", page)] in
  get! resp := _call_api self data in
  get! resp_data := _handle_empty_data resp empty_page in
  _handle_data_valid resp_data.

(** [AuthTypeEnum], a [LowerStrEnum] whose values are the lower-cased
    names. *)
Definition NONE : string := "none".
Definition BASIC : string := "basic".
Definition DIGEST : string := "digest".

Inductive HttpAuth : Type :=
  | HTTPBasicAuth (username password : string)
  | HTTPDigestAuth (username password : string).

Definition _generate_http_auth (auth_info : list (string * string))
  : outcome ErrorCode (option HttpAuth) :=
  if bool_decide (length auth_info = 0%nat) then Return None
  else
    match dict_lookup "auth" auth_info with
    | None => Throw (KeyError "auth")
    | Some auth_type =>
        let username := "bk_iam" in
        match dict_lookup "token" auth_info with
        | None => Throw (KeyError "token")
        | Some password =>
            if bool_decide (auth_type = NONE) then Return None
            else if bool_decide (auth_type = BASIC)
                 then Return (Some (HTTPBasicAuth username password))
            else if bool_decide (auth_type = DIGEST)
                 then Return (Some (HTTPDigestAuth username password))
            else Throw (CodeError RESOURCE_PROVIDER_AUTH_INFO_VALID)
        end
    end.

End ResourceProviderClient.


(** ** ESB component ([backend/component/esb.py]) *)

Module esb.

Inductive ErrorCode : Type :=
  | REMOTE_REQUEST_ERROR
  | ESB_REQUEST_ERROR.

Section Component.

(** [settings.APP_ID] and [settings.APP_TOKEN]. *)
Variable APP_ID APP_TOKEN : string.

(** [http_get] or [http_post] on the ESB: for a path and the data sent,
    the pair [(ok, data)] it returns. *)
Variable http_func : string -> list (string * Json) -> bool * Json.

Definition common_params : list (string * Json) :=
  [("bk_app_code", JStr APP_ID);
   ("bk_app_secret", JStr APP_TOKEN);
   ("bk_username", JStr "admin");
   ("app_code", JStr APP_ID);
   ("app_secret", JStr APP_TOKEN)].

(** [_call_esb_api]: what it returns or raises, and the caller's [data]
    dict, which [data.update(common_params)] has changed in place. *)
Definition _call_esb_api (url_path : string) (data : list (string * Json))
  : outcome ErrorCode Json * list (string * Json) :=
  let data := dict_update data common_params in
  let (ok, resp) := http_func url_path data in
  (if negb ok then Throw (CodeError REMOTE_REQUEST_ERROR)
   else
     get! code := getitem resp "code" in
     get! message := getitem resp "message" in
     if equals_zero code then getitem resp "data"
     else Throw (CodeError ESB_REQUEST_ERROR),
   data).

Definition get_api_public_key : outcome ErrorCode Json :=
  (_call_esb_api "/api/c/compapi/v2/esb/get_api_public_key/" []).1.

Definition send_mail (username title content body_format : Json)
  : outcome ErrorCode Json :=
  (_call_esb_api "/api/c/compapi/cmsi/send_mail/"
     [("receiver__username", username); ("title", title); ("content", content);
      ("body_format", body_format)]).1.

End Component.

End esb.


(** ** Actions of a system ([backend/biz/action.py]) *)

Module ActionBiz.

(** The tags of [ActionTag] that this file assigns. *)
Inductive ActionTag : Type :=
  | UNCHECKED
  | CHECKED
  | READONLY.

#[export] Instance ActionTag_eq_dec : EqDecision ActionTag.
Proof. solve_decision. Defined.

Record RelatedResourceTypeBean : Type := mkRelatedResourceTypeBean {
  rt_system_id : string;
  rt_id : string;
  rt_name : string;
  rt_name_en : string
}.

Definition need_fill_name (self : RelatedResourceTypeBean) : bool :=
  bool_decide (rt_name self = "") || bool_decide (rt_name_en self = "").

(** An action as [ActionService.list] returns it, with the fields this
    file reads. *)
Record Action : Type := mkAction {
  svc_id : string;
  svc_name : string;
  svc_name_en : string;
  svc_related_resource_types : list RelatedResourceTypeBean
}.

(** [policy.expired_at] of a policy of the subject. *)
Definition policy_expired_at (policy : PolicyBean) : Z := expired_at policy.

Record ActionBean : Type := mkActionBean {
  id : string;
  name : string;
  name_en : string;
  related_resource_types : list RelatedResourceTypeBean;
  expired_at : option Z;
  tag : ActionTag
}.

(** [parse_obj_as(ActionBean, action)]: [expired_at] and [tag] take the
    defaults of the class. *)
Definition parse_obj_as_ActionBean (action : Action) : ActionBean :=
  mkActionBean (svc_id action) (svc_name action) (svc_name_en action)
    (svc_related_resource_types action) None UNCHECKED.

Definition set_related_resource_types (rts : list RelatedResourceTypeBean)
    (action : ActionBean) : ActionBean :=
  mkActionBean (id action) (name action) (name_en action) rts
    (expired_at action) (tag action).

Definition set_tag (t : ActionTag) (action : ActionBean) : ActionBean :=
  mkActionBean (id action) (name action) (name_en action)
    (related_resource_types action) (expired_at action) t.

Definition set_expired_at_and_tag (e : Z) (t : ActionTag) (action : ActionBean)
  : ActionBean :=
  mkActionBean (id action) (name action) (name_en action)
    (related_resource_types action) (Some e) t.

Module ActionBeanList.

Record t : Type := mk {
  actions : list ActionBean;
  _action_dict : gmap string ActionBean
}.

Definition new (actions : list ActionBean) : t :=
  mk actions (dict_of_pairs ((fun action => (id action, action)) <$> actions)).

Definition get (self : t) (action_id : string) : option ActionBean :=
  _action_dict self !! action_id.

(** A change made to every action of the list in place: the index holds
    the same objects and sees it too. *)
Definition for_each (f : ActionBean -> ActionBean) (self : t) : t :=
  mk (f <$> actions self) (f <$> _action_dict self).

Definition _list_related_resource_type_system (self : t) : list string :=
  elements (list_to_set (C := gset string)
              (action ← actions self; rt_system_id <$> related_resource_types action)).

Definition fill_name (name_provider : string -> string -> string * string)
    (rt : RelatedResourceTypeBean) : RelatedResourceTypeBean :=
  if need_fill_name rt
  then
    let (name, name_en) := name_provider (rt_system_id rt) (rt_id rt) in
    mkRelatedResourceTypeBean (rt_system_id rt) (rt_id rt) name name_en
  else rt.

Definition _fill_action_related_resource_type_name
    (name_provider : string -> string -> string * string) (action : ActionBean)
  : ActionBean :=
  set_related_resource_types
    (fill_name name_provider <$> related_resource_types action) action.

(** [get_resource_type_dict] is [ResourceTypeService().get_resource_type_dict];
    what it returns is read through [get_name(system_id, id)]. *)
Definition fill_related_resource_type_name
    (get_resource_type_dict : list string -> string -> string -> string * string)
    (self : t) : t :=
  let system_ids := _list_related_resource_type_system self in
  let name_provider := get_resource_type_dict system_ids in
  for_each (_fill_action_related_resource_type_name name_provider) self.

Definition filter_by_scope_action_ids (ACTION_ALL : string) (self : t)
    (scope_action_ids : list string) : list ActionBean :=
  if bool_decide (ACTION_ALL ∈ scope_action_ids) then actions self
  else filter (fun action => id action ∈ scope_action_ids) (actions self).

Definition fill_expired_at_and_tag (self : t) (action_expired_at : gmap string Z) : t :=
  for_each (fun action =>
              match action_expired_at !! id action with
              | None => action
              | Some e => set_expired_at_and_tag e READONLY action
              end) self.

End ActionBeanList.

Section Biz.

Variable env : Env.

(** [backend.service.constants.ACTION_ALL]. *)
Variable ACTION_ALL : string.

(** [ActionService.list(system_id)]. *)
Variable action_svc_list : string -> list Action.

(** [ResourceTypeService().get_resource_type_dict(system_ids)]. *)
Variable get_resource_type_dict : list string -> string -> string -> string * string.

(** [RoleListQuery(role).list_scope_action_id(system_id)]. *)
Variable list_scope_action_id : Role -> string -> list string.

(** [ActionBiz.list]. *)
Definition list_ (system_id : string) : ActionBeanList.t :=
  let actions := action_svc_list system_id in
  let action_list := ActionBeanList.new (parse_obj_as_ActionBean <$> actions) in
  ActionBeanList.fill_related_resource_type_name get_resource_type_dict action_list.

Definition list_by_role (system_id : string) (role : Role) : list ActionBean :=
  let action_list := list_ system_id in
  let scope_action_ids := list_scope_action_id role system_id in
  ActionBeanList.filter_by_scope_action_ids ACTION_ALL action_list scope_action_ids.

Definition list_checked_action_by_role (system_id : string) (role : Role)
    (checked_action_set : gset string) : list ActionBean :=
  let actions := list_by_role system_id role in
  (fun action =>
     set_tag (if bool_decide (id action ∈ checked_action_set) then CHECKED
              else UNCHECKED) action) <$> actions.

(** [ActionBiz.list_by_subject]. *)
Definition list_by_subject_ (system_id : string) (role : Role) (subject : Subject)
  : list ActionBean :=
  let actions := list_by_role system_id role in
  let action_list := ActionBeanList.new actions in
  let policies := list_by_subject env system_id subject in
  let action_expired_at :=
    dict_of_pairs ((fun policy => (action_id policy, policy_expired_at policy)) <$> policies) in
  ActionBeanList.actions
    (ActionBeanList.fill_expired_at_and_tag action_list action_expired_at).

Definition list_pre_application_actions (system_id : string) (role : Role)
    (user_id : string) (action_ids : list string) : list ActionBean :=
  let actions := list_by_subject_ system_id role (mkSubject USER user_id) in
  let action_set : gset string := list_to_set action_ids in
  (fun action =>
     if bool_decide (id action ∈ action_set) && bool_decide (tag action = UNCHECKED)
     then set_tag CHECKED action
     else action) <$> actions.

End Biz.

End ActionBiz.


(** ** Queries and checks on groups ([backend/biz/group.py]) *)

Module GroupQuery.

Section Biz.

(** Which exceptions are an [APIException]. *)
Variable is_APIException : Exn -> bool.

(** What the [try] block of [list_pre_application_groups] leaves in
    [results], or the exception it raises: for each policy, the ids of the
    subjects the engine reports. *)
Variable query_subjects : PolicyBeanList.t -> result (list (list string)).

(** The loop that intersects the results. *)
Fixpoint intersect_results (subject_id_set : option (gset string))
    (results : list (list string)) : option (gset string) :=
  match results with
  | [] => subject_id_set
  | res :: rest =>
      let ids : gset string := list_to_set res in
      intersect_results
        (Some (match subject_id_set with
               | None => ids
               | Some s => s ∩ ids
               end)) rest
  end.

(** [[int(_id) for _id in ids]]. *)
Fixpoint ints (ids : list string) : result (list Z) :=
  match ids with
  | [] => Ok []
  | _id :: rest =>
      try! n := int _id in
      try! ns := ints rest in
      Ok (n :: ns)
  end.

(** [list_pre_application_groups]; the ids come in the order in which the
    set is iterated. *)
Definition list_pre_application_groups (policy_list : PolicyBeanList.t)
  : result (list Z) :=
  match query_subjects policy_list with
  | Raise e => if is_APIException e then Ok [] else Raise e
  | Ok results =>
      match intersect_results None results with
      | None => Ok []
      | Some subject_id_set =>
          if bool_decide (subject_id_set = ∅) then Ok []
          else ints (elements subject_id_set)
      end
  end.

End Biz.

End GroupQuery.

Module GroupCheck.

(** [list.remove(x)]: drops the first occurrence. *)
Fixpoint list_remove (x : Z) (l : list Z) : list Z :=
  match l with
  | [] => []
  | y :: rest => if bool_decide (y = x) then rest else y :: list_remove x rest
  end.

(** The integer entries of [settings.SUBJECT_AUTHORIZATION_LIMIT]
    ([config/default.py]); the environment maps a variable to the integer
    its text denotes. *)
Definition SUBJECT_AUTHORIZATION_LIMIT (environ : gmap string Z) : gmap string Z :=
  dict_of_pairs
    [("default_subject_group_limit",
      default 100 (environ !! "BKAPP_DEFAULT_SUBJECT_GROUP_LIMIT"));
     ("default_subject_system_template_limit",
      default 10 (environ !! "BKAPP_DEFAULT_SUBJECT_SYSTEM_TEMPLATE_LIMIT"));
     ("group_member_limit", default 500 (environ !! "BKAPP_GROUP_MEMBER_LIMIT"));
     ("group_auth_template_once_limit",
      default 10 (environ !! "BKAPP_GROUP_AUTH_TEMPLATE_ONCE_LIMIT"));
     ("group_auth_system_once_limit",
      default 10 (environ !! "BKAPP_GROUP_AUTH_SYSTEM_ONCE_LIMIT"))].

(** The columns of [Group] that [check_member_count] reads. *)
Record GroupCounters : Type := mkGroupCounters {
  name : string;
  user_count : Z;
  department_count : Z
}.

Section Biz.

(** [RoleRelatedObject.objects.list_role_object_ids(role_id, object_type)]. *)
Variable list_role_object_ids : Z -> string -> list Z.

(** [Group.objects.get(id=group_id)]. *)
Variable group_objects_get : Z -> option GroupCounters.

Definition check_member_count (environ : gmap string Z) (gid new_member_count : Z)
  : result unit :=
  match group_objects_get gid with
  | None => Raise DoesNotExist
  | Some group =>
      let exists_count := user_count group + department_count group in
      let member_limit :=
        default 1000 (SUBJECT_AUTHORIZATION_LIMIT environ !! "group_member_limit") in
      if bool_decide (exists_count + new_member_count > member_limit)
      then Raise (CodeException VALIDATE_ERROR
                    (MsgText ("用户组(" +:+ name group +:+ ")已有" +:+ str exists_count
                              +:+ "个成员，不可再添加" +:+ str new_member_count
                              +:+ "个成员，否则超出用户组最大成员数量"
                              +:+ str member_limit +:+ "的限制")))
      else Ok tt
  end.

Definition check_role_group_name_unique (role_id : Z) (name : string) (gid : Z)
  : M World unit :=
  let role_group_ids := list_role_object_ids role_id GROUP in
  let role_group_ids :=
    if bool_decide (gid ∈ role_group_ids) then list_remove gid role_group_ids
    else role_group_ids in
  let! found :=
    gets (fun w => bool_decide
            (Exists (fun g => group_name g = name /\ group_id g ∈ role_group_ids)
                    (group (db w)))) in
  if found then raise (CodeException CONFLICT_ERROR (MsgText "用户组名称已存在"))
  else ret tt.

Definition batch_check_role_group_names_unique (role_id : Z) (names : list string)
  : M World unit :=
  let role_group_ids := list_role_object_ids role_id GROUP in
  let! found :=
    gets (fun w => bool_decide
            (Exists (fun g => group_name g ∈ names /\ group_id g ∈ role_group_ids)
                    (group (db w)))) in
  if found then raise (CodeException CONFLICT_ERROR (MsgText "用户组名称已存在"))
  else ret tt.

End Biz.

End GroupCheck.


(** ** Sample data for the components, the queries and the checks *)

Module MoreExamples.

(** A provider that answers every request with the status 200 and
    [body]. *)
Definition provider (body : Json) : ResourceProviderClient.t :=
  ResourceProviderClient.mk "bk_cmdb" "host"
    (fun _ => ResourceProviderClient.HttpResponse 200 (Some body)).

Definition answer (code : Z) (data : Json) : Json :=
  JDict [("code", JInt code); ("message", JStr ""); ("data", data)].

Definition instance_of (id display_name : string) : Json :=
  JDict [("id", JStr id); ("display_name", JStr display_name)].

(** Two hosts out of five. *)
Definition two_hosts : Json :=
  JDict [("count", JInt 5);
         ("results", JList [instance_of "1" "h1"; instance_of "2" "h2"])].

Definition first_page : Json := JDict [("limit", JInt 10); ("offset", JInt 0)].

(** An ESB that answers every call with the public key. *)
Definition esb_ok (url_path : string) (data : list (string * Json)) : bool * Json :=
  (true, answer 0 (JStr "key")).

Definition actions_of_cmdb (system_id : string) : list ActionBiz.Action :=
  [ActionBiz.mkAction "view" "View" "View" [];
   ActionBiz.mkAction "edit" "Edit" "Edit" [];
   ActionBiz.mkAction "delete" "Delete" "Delete" []].

Definition every_action (role : Role) (system_id : string) : list string := ["*"].

Definition no_names_of_types (system_ids : list string) (system_id id : string)
  : string * string := ("", "").

(** Every subject holds [view] on host X. *)
Definition holder : Env :=
  Examples.environment (Ok tt) [] Examples.no_failure Examples.no_names
    [Examples.policy_on "view" [Examples.host "X" "x"]].

(** A request for [view] on the hosts X and Y until a later date, and the
    application it leads to for a holder of [view] on X. *)
Definition request_view_x_y : PolicyBeanList.t :=
  PolicyBeanList.new "bk_cmdb"
    [set_expired_at
       (Examples.policy_on "view" [Examples.host "X" "x"; Examples.host "Y" "y"])
       1800000000].

Definition apply_view_y : PolicyBeanList.t :=
  PolicyBeanList.new "bk_cmdb" [Examples.policy_on "view" [Examples.host "Y" "y"]].

(** The engine reports the groups 3 and 7 for one policy and the group 7
    for the other. *)
Definition groups_3_7_and_7 (policy_list : PolicyBeanList.t)
  : result (list (list string)) :=
  Ok ((fun res : list Z => str <$> res) <$> [[3; 7]; [7]]).

Definition api_exceptions (e : Exn) : bool :=
  match e with APIError => true | _ => false end.

(** The role of the groups 7 ([ops]) and 8 ([dev]). *)
Definition groups_7_8 (role_id : Z) (object_type : string) : list Z := [7; 8].

Definition db_7_8 : DB :=
  mkDB ∅ [] [] [] [] [] [] [mkGroup 7 "ops"; mkGroup 8 "dev"].

(** A group of 495 members. *)
Definition crowded (group_id : Z) : option GroupCheck.GroupCounters :=
  Some (GroupCheck.mkGroupCounters "ops" 490 5).

(** A mirror row of [admin] that waits for its backend identifier. *)
Definition waiting_db : DB :=
  mkDB {[ 1 := mkPolicyModel "user" "admin" "bk_cmdb" "view" 0 [] ]}
       [] [] [] [] [] [] [].

Definition backend_42 : Env :=
  Examples.environment (Ok tt) [mkBackendPolicy 42 "view"] Examples.no_failure
    Examples.no_names [].

(** A mirror row of [admin] for [view] that the backend knows as policy
    5, still without resources, and the update of that policy to host 1. *)
Definition stale_db : DB :=
  mkDB {[ 1 := mkPolicyModel "user" "admin" "bk_cmdb" "view" 5 [] ]}
       [] [] [] [] [] [] [].

Definition view_5 : PolicyBean :=
  mkPolicy "view" (related_resource_types (Examples.host_policy 1)) 5 1700000000.

Definition cmdb_hosts : ResourceIDNameCache.t := ResourceIDNameCache.mk "bk_cmdb" "host".

Definition empty_redis : ResourceIDNameCache.Redis := ResourceIDNameCache.mkRedis ∅ true.

End MoreExamples.


(* ================================================================= *)
(** * Properties *)
(* ================================================================= *)

(** ** The monad *)

Lemma bind_ok {S A B} (m : M S A) (k : A -> M S B) s a s' :
  m s = (Ok a, s') -> bind m k s = k a s'.
Proof. intros Hm. unfold bind. rewrite Hm. reflexivity. Qed.

Lemma bind_raise {S A B} (m : M S A) (k : A -> M S B) s e s' :
  m s = (Raise e, s') -> bind m k s = (Raise e, s').
Proof. intros Hm. unfold bind. rewrite Hm. reflexivity. Qed.

Lemma dict_of_pairs_snoc {K V} `{Countable K} (pairs : list (K * V)) k v :
  dict_of_pairs (pairs ++ [(k, v)]) = <[k := v]> (dict_of_pairs pairs).
Proof. unfold dict_of_pairs. rewrite foldl_app. reflexivity. Qed.

(** A dict built from pairs that all carry the same value maps exactly the
    keys of the pairs, each to that value. *)
Lemma dict_of_pairs_const {K V} `{Countable K} (pairs : list (K * V)) (v : V) k :
  Forall (fun kv => kv.2 = v) pairs ->
  dict_of_pairs pairs !! k = if bool_decide (k ∈ pairs.*1) then Some v else None.
Proof.
  induction pairs as [| [k' v'] pairs IH] using rev_ind; intros Hall.
  - cbn. rewrite lookup_empty.
    rewrite bool_decide_eq_false_2; [done | apply not_elem_of_nil].
  - apply Forall_app in Hall as [Hall Hlast].
    apply Forall_inv in Hlast. cbn in Hlast. subst v'.
    rewrite dict_of_pairs_snoc, fmap_app. cbn.
    destruct (decide (k' = k)) as [-> | Hne].
    + rewrite lookup_insert_eq. rewrite bool_decide_eq_true_2; [done |].
      apply elem_of_app. right. by apply list_elem_of_singleton.
    + rewrite lookup_insert_ne by done. rewrite IH by done.
      apply (f_equal (fun b : bool => if b then Some v else None)).
      apply bool_decide_ext. rewrite elem_of_app, list_elem_of_singleton.
      intuition congruence.
Qed.

Lemma dict_of_pairs_lookup_in {K V} `{Countable K} (pairs : list (K * V)) k :
  k ∈ pairs.*1 -> is_Some (dict_of_pairs pairs !! k).
Proof.
  induction pairs as [| [k' v'] pairs IH] using rev_ind; intros Hin.
  - by apply elem_of_nil in Hin.
  - rewrite dict_of_pairs_snoc. rewrite fmap_app in Hin. cbn in *.
    destruct (decide (k' = k)) as [-> | Hne].
    + rewrite lookup_insert_eq. by eexists.
    + rewrite lookup_insert_ne by done. apply IH.
      apply elem_of_app in Hin as [Hin | Hin]; [done |].
      apply list_elem_of_singleton in Hin. congruence.
Qed.

Lemma dict_of_pairs_lookup_notin {K V} `{Countable K} (pairs : list (K * V)) k :
  k ∉ pairs.*1 -> dict_of_pairs pairs !! k = None.
Proof.
  induction pairs as [| [k' v'] pairs IH] using rev_ind; intros Hnotin.
  - apply lookup_empty.
  - rewrite dict_of_pairs_snoc. rewrite fmap_app in Hnotin. cbn in *.
    apply not_elem_of_app in Hnotin as [Hnotin Hlast].
    rewrite lookup_insert_ne; [by apply IH |].
    intros ->. apply Hlast. by apply list_elem_of_singleton.
Qed.

Lemma dict_of_pairs_lookup_Some {K V} `{Countable K} (pairs : list (K * V)) k v :
  dict_of_pairs pairs !! k = Some v -> (k, v) ∈ pairs.
Proof.
  induction pairs as [| [k' v'] pairs IH] using rev_ind; intros Hlookup.
  - cbn in Hlookup. by rewrite lookup_empty in Hlookup.
  - rewrite dict_of_pairs_snoc in Hlookup. cbn in Hlookup. apply elem_of_app.
    destruct (decide (k' = k)) as [-> | Hne].
    + rewrite lookup_insert_eq in Hlookup. injection Hlookup as ->.
      right. by apply list_elem_of_singleton.
    + rewrite lookup_insert_ne in Hlookup by done. left. by apply IH.
Qed.

(** ** Instance count ceiling of an application *)

Section InstanceCountLimit.
Import ApplicationDataTrans.

Variable limit : Z.

Lemma check_related_resource_types_ok a rrts :
  Forall (fun rrt => count_instance rrt <= limit) rrts ->
  check_related_resource_types limit a rrts = Ok tt.
Proof.
  induction 1 as [| rrt rrts Hle _ IH]; cbn; [done |].
  rewrite bool_decide_eq_false_2 by lia. exact IH.
Qed.

Lemma check_related_resource_types_raise a rrts :
  Exists (fun rrt => count_instance rrt > limit) rrts ->
  exists rrt, rrt ∈ rrts /\ count_instance rrt > limit /\
    check_related_resource_types limit a rrts
    = Raise (instance_limit_error a (rrt_type rrt) limit).
Proof.
  induction rrts as [| rrt rrts IH]; intros Hex; [by apply Exists_nil in Hex |].
  cbn. case_bool_decide as Hgt.
  - exists rrt. split; [left | done].
  - apply Exists_cons in Hex as [? | Hex]; [lia |].
    destruct (IH Hex) as (r & Hin & Hr & Heq).
    exists r. split; [by right | done].
Qed.

Lemma check_policies_ok policies :
  Forall (fun p => Forall (fun rrt => count_instance rrt <= limit)
                     (related_resource_types p)) policies ->
  _check_application_policy_instance_count_limit limit policies = Ok tt.
Proof.
  induction 1 as [| p policies Hp _ IH]; cbn; [done |].
  rewrite check_related_resource_types_ok by done. exact IH.
Qed.

Lemma check_policies_raise policies :
  Exists (fun p => Exists (fun rrt => count_instance rrt > limit)
                     (related_resource_types p)) policies ->
  exists p rrt, p ∈ policies /\ rrt ∈ related_resource_types p /\
    count_instance rrt > limit /\
    _check_application_policy_instance_count_limit limit policies
    = Raise (instance_limit_error (action_id p) (rrt_type rrt) limit).
Proof.
  induction policies as [| p policies IH]; intros Hex; [by apply Exists_nil in Hex |].
  cbn.
  destruct (decide (Exists (fun rrt => count_instance rrt > limit)
                      (related_resource_types p))) as [Hp | Hp].
  - destruct (check_related_resource_types_raise (action_id p) _ Hp)
      as (rrt & Hin & Hgt & Heq).
    exists p, rrt. rewrite Heq. cbn. split; [left | done].
  - apply Exists_cons in Hex as [? | Hex]; [done |].
    rewrite check_related_resource_types_ok; cbn.
    + destruct (IH Hex) as (q & rrt & Hq & Hin & Hgt & Heq).
      exists q, rrt. split; [by right | done].
    + apply not_Exists_Forall in Hp; [| intros x; apply _].
      eapply Forall_impl; [exact Hp |]. cbn. intros x Hx. lia.
Qed.

End InstanceCountLimit.

(** C8. [_check_application_policy_instance_count_limit]: when some related
    resource type of some policy of the application counts more instances
    than [APPLY_POLICY_ADD_INSTANCES_LIMIT], the check raises a validation
    error that names the action and the resource type of such an offender;
    when every count is at most the ceiling (equality included) the check
    passes; and the ceiling is 20 when the environment does not set it. *)
Theorem application_instance_count_limit (environ : gmap string Z)
    (policies : list PolicyBean) :
  let limit := settings.APPLY_POLICY_ADD_INSTANCES_LIMIT environ in
  (Exists (fun p => Exists (fun rrt => count_instance rrt > limit)
                      (related_resource_types p)) policies ->
   exists p rrt, p ∈ policies /\ rrt ∈ related_resource_types p /\
     count_instance rrt > limit /\
     ApplicationDataTrans._check_application_policy_instance_count_limit limit policies
     = Raise (CodeException VALIDATE_ERROR
                (MsgInstanceLimit (action_id p) (rrt_type rrt) limit)))
  /\ (Forall (fun p => Forall (fun rrt => count_instance rrt <= limit)
                         (related_resource_types p)) policies ->
      ApplicationDataTrans._check_application_policy_instance_count_limit limit policies
      = Ok tt)
  /\ (environ !! "BKAPP_APPLY_POLICY_ADD_INSTANCES_LIMIT" = None -> limit = 20).
Proof.
  intros limit. split; [| split].
  - apply check_policies_raise.
  - apply check_policies_ok.
  - intros Hnone. unfold limit, settings.APPLY_POLICY_ADD_INSTANCES_LIMIT.
    rewrite Hnone. reflexivity.
Qed.

Lemma application_instance_count_limit_witness :
  ApplicationDataTrans._check_application_policy_instance_count_limit
    (settings.APPLY_POLICY_ADD_INSTANCES_LIMIT ∅) [Examples.host_policy 20] = Ok tt
  /\ (exists p rrt,
        ApplicationDataTrans._check_application_policy_instance_count_limit
          (settings.APPLY_POLICY_ADD_INSTANCES_LIMIT ∅) [Examples.host_policy 21]
        = Raise (CodeException VALIDATE_ERROR
                   (MsgInstanceLimit (action_id p) (rrt_type rrt) 20)))
  /\ settings.APPLY_POLICY_ADD_INSTANCES_LIMIT ∅ = 20.
Proof.
  split; [| split].
  - apply (application_instance_count_limit ∅ [Examples.host_policy 20]).
    repeat constructor. vm_compute. discriminate.
  - destruct (application_instance_count_limit ∅ [Examples.host_policy 21])
      as [Hraise _].
    destruct Hraise as (p & rrt & _ & _ & _ & Heq).
    + repeat constructor.
    + exists p, rrt. exact Heq.
  - apply (application_instance_count_limit ∅ []). reflexivity.
Defined.

(** ** The id/name cache degrades to a miss *)

Section CacheFailure.
Import ResourceIDNameCache.

Lemma execute_unavailable cs r :
  available r = false -> execute cs r = (Raise RedisError, r).
Proof. intros Hdown. unfold execute. rewrite Hdown. reflexivity. Qed.

Lemma zip_replicate_fst {A B} (l : list A) (b : B) :
  (zip l (replicate (length l) b)).*1 = l.
Proof. induction l as [| a l IH]; cbn; [done | by rewrite IH]. Qed.

Lemma zip_replicate_snd {A B} (l : list A) (b : B) :
  Forall (fun kv => kv.2 = b) (zip l (replicate (length l) b)).
Proof. induction l as [| a l IH]; cbn; constructor; done. Qed.

End CacheFailure.

(** C9. When the Redis server fails, [ResourceIDNameCache.set] returns
    normally and stores nothing, and [ResourceIDNameCache.get] returns
    normally a dict whose keys are exactly the requested ids, each mapped to
    [None]: the failure never reaches the caller. *)
Theorem cache_failure_is_a_miss (self : ResourceIDNameCache.t)
    (r : ResourceIDNameCache.Redis)
    (id_name_map : list (string * ResourceIDNameCache.PyValue))
    (ids : list string) :
  ResourceIDNameCache.available r = false ->
  ResourceIDNameCache.set self id_name_map r = (Ok tt, r)
  /\ exists d : gmap string (option string),
       ResourceIDNameCache.get self ids r = (Ok d, r)
       /\ (forall i, i ∈ ids -> d !! i = Some None)
       /\ (forall i, i ∉ ids -> d !! i = None).
Proof.
  intros Hdown. split.
  - unfold ResourceIDNameCache.set, catch.
    erewrite bind_raise by (apply execute_unavailable; exact Hdown).
    reflexivity.
  - eexists. split.
    + unfold ResourceIDNameCache.get, bind, catch.
      rewrite execute_unavailable by exact Hdown. cbn. reflexivity.
    + split; intros i Hi.
      * rewrite (dict_of_pairs_const _ None) by apply zip_replicate_snd.
        rewrite zip_replicate_fst. by rewrite bool_decide_eq_true_2.
      * rewrite (dict_of_pairs_const _ None) by apply zip_replicate_snd.
        rewrite zip_replicate_fst. by rewrite bool_decide_eq_false_2.
Qed.

Lemma cache_failure_is_a_miss_witness :
  let self := ResourceIDNameCache.mk "bk_cmdb" "host" in
  let r := ResourceIDNameCache.mkRedis ∅ false in
  ResourceIDNameCache.set self [("1", ResourceIDNameCache.PyStr "h1")] r = (Ok tt, r)
  /\ exists d : gmap string (option string),
       ResourceIDNameCache.get self ["1"; "2"] r = (Ok d, r)
       /\ (forall i, i ∈ ["1"; "2"] -> d !! i = Some None)
       /\ (forall i, i ∉ ["1"; "2"] -> d !! i = None).
Proof.
  intros self r.
  apply (cache_failure_is_a_miss self r
           [("1", ResourceIDNameCache.PyStr "h1")] ["1"; "2"]).
  reflexivity.
Defined.

(** ** Logged calls of a computation *)

Lemma emits_ret {A} (a : A) : emits (ret a) [].
Proof.
  intros w. exists (Ok a), w, []. rewrite app_nil_r. done.
Qed.

Lemma emits_lift {A} (r : result A) : emits (lift r) [].
Proof.
  intros w. exists r, w, []. rewrite app_nil_r. done.
Qed.

Lemma emits_gets {A} (f : World -> A) : emits (gets f) [].
Proof.
  intros w. exists (Ok (f w)), w, []. rewrite app_nil_r. done.
Qed.

Lemma emits_log ev : emits (log ev) [ev].
Proof.
  intros w. exists (Ok tt), (add_event ev w), [ev]. done.
Qed.

Lemma emits_statement env op f : emits (statement env op f) [].
Proof.
  intros w. unfold statement. destruct (fails env op).
  - exists (Raise DatabaseError), w, []. rewrite app_nil_r. done.
  - exists (Ok tt), (set_db f w), []. cbn. rewrite app_nil_r. done.
Qed.

Lemma emits_bind {A B} (m : M World A) (k : A -> M World B) e1 e2 :
  emits m e1 -> (forall a, emits (k a) e2) -> emits (bind m k) (e1 ++ e2).
Proof.
  intros Hm Hk w.
  destruct (Hm w) as (r & w1 & evs1 & Hrun & Htr & Hpre & Hok).
  unfold bind. rewrite Hrun. destruct r as [a | e].
  - destruct (Hk a w1) as (r2 & w2 & evs2 & Hrun2 & Htr2 & Hpre2 & Hok2).
    rewrite Hrun2. exists r2, w2, (evs1 ++ evs2).
    rewrite (Hok eq_refl) in *. split; [done |]. split.
    + rewrite Htr2, Htr. by rewrite app_assoc.
    + split; [by apply prefix_app |]. intros Hr. by rewrite (Hok2 Hr).
  - exists (Raise e), w1, evs1. split; [done |]. split; [done |].
    split; [by apply prefix_app_r | done].
Qed.

Lemma emits_when (b : bool) (m : M World unit) e :
  emits m e -> emits (when b m) (if b then e else []).
Proof. intros Hm. destruct b; cbn; [done | apply emits_ret]. Qed.

Lemma emits_eq {A} (m : M World A) e1 e2 : e1 = e2 -> emits m e1 -> emits m e2.
Proof. by intros ->. Qed.




(** An element that differs from every member of an explicit list. *)
Ltac solve_not_elem :=
  let Hin := fresh "Hin" in
  intros Hin;
  repeat (apply elem_of_cons in Hin as [Hin | Hin]; [discriminate |]);
  by apply elem_of_nil in Hin.

(** A transaction logs its boundary around the calls of its body, and
    leaves the store as it found it when the body raises. *)
Lemma transaction_atomic_emits {A} (body : M World A) expected w :
  emits body expected ->
  exists r w' evs,
    transaction_atomic body w = (r, w')
    /\ trace w' = (trace w ++ [EvBegin] ++ evs
                   ++ [if is_ok r then EvCommit else EvRollback])%list
    /\ evs `prefix_of` expected
    /\ (is_ok r = true -> evs = expected)
    /\ (is_ok r = false -> db w' = db w).
Proof.
  intros Hbody.
  destruct (Hbody (add_event EvBegin w)) as (r & w1 & evs & Hrun & Htr & Hpre & Hok).
  unfold transaction_atomic. rewrite Hrun. destruct r as [a | e].
  - exists (Ok a), (add_event EvCommit w1), evs. cbn.
    rewrite Htr. cbn. rewrite <- !app_assoc. done.
  - exists (Raise e), (add_event EvRollback (mkWorld (db w) (celery w1) (trace w1))), evs.
    cbn. rewrite Htr. cbn. rewrite <- !app_assoc. done.
Qed.


(** ** Policy operation service *)

Section PolicyOperation.
Import PolicyOperationService.

Variable env : Env.

Lemma create_db_policies_emits system_id subject policies :
  emits (_create_db_policies env system_id subject policies) [EvCreateDbPolicies].
Proof.
  unfold _create_db_policies.
  apply (emits_bind _ _ [EvCreateDbPolicies] []); [apply emits_log |].
  intros _. apply emits_statement.
Qed.

Lemma update_each_emits policy_list db_policies :
  emits (update_each env policy_list db_policies) [].
Proof.
  induction db_policies as [| [id p] rest IH]; cbn; [apply emits_ret |].
  destruct (PolicyList_get policy_list (pm_action_id p)); [| done].
  apply (emits_bind _ _ [] []); [apply emits_statement | done].
Qed.

Lemma update_db_policies_emits system_id subject policies :
  emits (_update_db_policies env system_id subject policies) [EvUpdateDbPolicies].
Proof.
  unfold _update_db_policies.
  apply (emits_bind _ _ [EvUpdateDbPolicies] []); [apply emits_log |]. intros _.
  apply (emits_bind _ _ [] []); [apply emits_gets |]. intros rows.
  apply update_each_emits.
Qed.

Lemma delete_db_policies_emits system_id subject policy_ids :
  emits (_delete_db_policies env system_id subject policy_ids) [EvDeleteDbPolicies].
Proof.
  unfold _delete_db_policies.
  apply (emits_bind _ _ [EvDeleteDbPolicies] []); [apply emits_log |].
  intros _. apply emits_statement.
Qed.

Lemma alter_backend_policies_emits system_id subject c u d :
  emits (_alter_backend_policies env system_id subject c u d) [EvAlterBackendPolicies].
Proof.
  unfold _alter_backend_policies.
  apply (emits_bind _ _ [EvAlterBackendPolicies] []); [apply emits_log |].
  intros _. apply emits_lift.
Qed.


(** The block under [transaction.atomic()] in [alter]. *)
Lemma alter_body_emits system_id subject c u d :
  emits
    (when (truthy c) (_create_db_policies env system_id subject c) >>
     when (truthy u) (_update_db_policies env system_id subject u) >>
     when (truthy d) (_delete_db_policies env system_id subject d) >>
     when (truthy c || truthy u || truthy d)
       (_alter_backend_policies env system_id subject c u d))
    (alter_calls c u d).
Proof.
  unfold alter_calls.
  apply emits_bind; [apply emits_when, create_db_policies_emits |]. intros _.
  apply emits_bind; [apply emits_when, update_db_policies_emits |]. intros _.
  apply emits_bind; [apply emits_when, delete_db_policies_emits |]. intros _.
  apply emits_when, alter_backend_policies_emits.
Qed.



End PolicyOperation.


(** ** Synchronisation of the policy identifiers *)

Section SyncPolicyId.
Import PolicyOperationService.

Lemma bulk_update_policy_id_notin objs (table : gmap Z PolicyModel) pk :
  pk ∉ objs.*1 -> bulk_update_policy_id objs table !! pk = table !! pk.
Proof.
  revert table. induction objs as [| [k o] objs IH]; intros table Hnotin; [done |].
  cbn in *. apply not_elem_of_cons in Hnotin as [Hne Hnotin].
  unfold bulk_update_policy_id in *. cbn. rewrite IH by done.
  by apply lookup_alter_ne.
Qed.

Lemma bulk_update_policy_id_in objs (table : gmap Z PolicyModel) pk obj :
  NoDup objs.*1 -> (pk, obj) ∈ objs ->
  bulk_update_policy_id objs table !! pk
  = set_policy_id (pm_policy_id obj) <$> table !! pk.
Proof.
  revert table. induction objs as [| [k o] objs IH]; intros table Hnodup Hin.
  - by apply elem_of_nil in Hin.
  - cbn in Hnodup. apply NoDup_cons in Hnodup as [Hk Hnodup].
    apply elem_of_cons in Hin as [Heq | Hin].
    + injection Heq as <- <-.
      change (bulk_update_policy_id objs
                (base.alter (set_policy_id (pm_policy_id obj)) pk table) !! pk
              = set_policy_id (pm_policy_id obj) <$> table !! pk).
      rewrite bulk_update_policy_id_notin by done. apply lookup_alter_eq.
    + assert (k <> pk) as Hne.
      { intros ->. apply Hk. apply list_elem_of_fmap. by exists (pk, obj). }
      change (bulk_update_policy_id objs
                (base.alter (set_policy_id (pm_policy_id o)) k table) !! pk
              = set_policy_id (pm_policy_id obj) <$> table !! pk).
      rewrite IH by done. by rewrite lookup_alter_ne.
Qed.

Lemma set_policy_id_assign backend_policy_list row :
  set_policy_id (pm_policy_id (assign_policy_id backend_policy_list row)) row
  = assign_policy_id backend_policy_list row.
Proof.
  unfold assign_policy_id.
  destruct (BackendPolicyList_get _ _); [done | by destruct row].
Qed.

Variable env : Env.

(** What a returning [_sync_db_policy_id] has done to each mirror row. *)
Lemma sync_db_policy_id_rows system_id subject w1 w' :
  _sync_db_policy_id env system_id subject w1 = (Ok tt, w') ->
  trace w' = trace w1 ++ [EvSyncDbPolicyId]
  /\ (forall pk, policy (db w1) !! pk = None -> policy (db w') !! pk = None)
  /\ forall pk row, policy (db w1) !! pk = Some row ->
       (of_subject system_id subject row /\ pm_policy_id row = 0 ->
        exists backend_policy_list,
          backend_policy_list_by_subject env system_id subject = Ok backend_policy_list
          /\ policy (db w') !! pk
             = Some (match BackendPolicyList_get backend_policy_list (pm_action_id row) with
                     | Some backend_policy => set_policy_id (backend_id backend_policy) row
                     | None => row
                     end))
       /\ (~ (of_subject system_id subject row /\ pm_policy_id row = 0) ->
           policy (db w') !! pk = Some row).
Proof.
  unfold _sync_db_policy_id, bind, log, modify, gets, lift, statement, ret.
  set (selected := filter _ _).
  case_bool_decide as Hlen.
  - intros [= <-]. split; [done |]. split; [done |].
    intros pk row Hrow. split; [| done].
    intros Hsel. exfalso.
    apply length_zero_iff_nil, map_to_list_empty_iff in Hlen.
    assert (selected !! pk = Some row) as Hin.
    { apply map_lookup_filter_Some. done. }
    rewrite Hlen in Hin. by rewrite lookup_empty in Hin.
  - destruct (backend_policy_list_by_subject env system_id subject)
      as [backend_policy_list | e]; [| discriminate].
    destruct (fails env OpPolicyBulkUpdate); [discriminate |].
    intros [= <-]. split; [done |]. cbn.
    set (objs := (fun obj => (obj.1, assign_policy_id backend_policy_list obj.2))
                   <$> map_to_list selected).
    assert (objs.*1 = (map_to_list selected).*1) as Hkeys.
    { unfold objs. rewrite <- list_fmap_compose. done. }
    assert (forall pk, selected !! pk = None -> pk ∉ objs.*1) as Hout.
    { intros pk Hnone. rewrite Hkeys. intros Hin.
      apply list_elem_of_fmap in Hin as ([k row] & -> & Hin).
      apply elem_of_map_to_list in Hin. cbn in Hnone. congruence. }
    split.
    { intros pk Hnone. rewrite bulk_update_policy_id_notin; [done |].
      apply Hout. apply map_lookup_filter_None. by left. }
    intros pk row Hrow. split.
    + intros Hsel. exists backend_policy_list. split; [done |].
      rewrite (bulk_update_policy_id_in _ _ pk (assign_policy_id backend_policy_list row)).
      * rewrite Hrow. cbn. rewrite set_policy_id_assign. done.
      * rewrite Hkeys. apply NoDup_fst_map_to_list.
      * unfold objs. apply list_elem_of_fmap. exists (pk, row). split; [done |].
        apply elem_of_map_to_list, map_lookup_filter_Some. done.
    + intros Hnsel. rewrite bulk_update_policy_id_notin; [done |].
      apply Hout. apply map_lookup_filter_None. right. intros row' Hrow'.
      cbn in *. rewrite Hrow in Hrow'. injection Hrow' as <-. exact Hnsel.
Qed.

(** The backend policy the index of a backend list holds for an action is
    one of the list with that action; it holds none only when the list has
    none. *)
Lemma BackendPolicyList_get_Some backend_policy_list a bp :
  BackendPolicyList_get backend_policy_list a = Some bp ->
  bp ∈ backend_policy_list /\ backend_action_id bp = a.
Proof.
  unfold BackendPolicyList_get. intros Hget.
  apply dict_of_pairs_lookup_Some in Hget.
  apply list_elem_of_fmap in Hget as (q & [= -> ->] & Hq). done.
Qed.

Lemma BackendPolicyList_get_None backend_policy_list a bp :
  BackendPolicyList_get backend_policy_list a = None ->
  bp ∈ backend_policy_list -> backend_action_id bp <> a.
Proof.
  unfold BackendPolicyList_get. intros Hget Hin Haction.
  destruct (dict_of_pairs_lookup_in
              ((fun p => (backend_action_id p, p)) <$> backend_policy_list) a)
    as [q Hq]; [| congruence].
  rewrite <- list_fmap_compose. apply list_elem_of_fmap. by exists bp.
Qed.

(** [_sync_db_policy_id] touches the policy table only. *)
Lemma sync_db_policy_id_frame system_id subject w1 r w' :
  _sync_db_policy_id env system_id subject w1 = (r, w') ->
  celery w' = celery w1 /\ db w' = set_policy (fun _ => policy (db w')) (db w1).
Proof.
  unfold _sync_db_policy_id, bind, log, modify, gets, lift, statement, ret, raise.
  case_bool_decide as Hlen.
  - intros [= <- <-]. cbn. by destruct (db w1).
  - destruct (backend_policy_list_by_subject env system_id subject)
      as [backend_policy_list | e].
    + destruct (fails env OpPolicyBulkUpdate); intros [= <- <-]; cbn;
        by destruct (db w1).
    + intros [= <- <-]. cbn. by destruct (db w1).
Qed.

(** The rows after a returning [_sync_db_policy_id], field by field. *)
Lemma sync_db_policy_id_rows_explicit system_id subject w1 w' :
  _sync_db_policy_id env system_id subject w1 = (Ok tt, w') ->
  forall pk row, policy (db w1) !! pk = Some row ->
    (of_subject system_id subject row /\ pm_policy_id row = 0 ->
     exists backend_policy_list,
       backend_policy_list_by_subject env system_id subject = Ok backend_policy_list
       /\ ((exists bp, bp ∈ backend_policy_list
                       /\ backend_action_id bp = pm_action_id row) ->
           exists bp,
             bp ∈ backend_policy_list /\ backend_action_id bp = pm_action_id row
             /\ policy (db w') !! pk
                = Some (mkPolicyModel (pm_subject_type row) (pm_subject_id row)
                          (pm_system_id row) (pm_action_id row) (backend_id bp)
                          (_resources row)))
       /\ ((forall bp, bp ∈ backend_policy_list ->
                       backend_action_id bp <> pm_action_id row) ->
           policy (db w') !! pk = Some row))
    /\ (~ (of_subject system_id subject row /\ pm_policy_id row = 0) ->
        policy (db w') !! pk = Some row).
Proof.
  intros Hrun pk row Hrow.
  destruct (sync_db_policy_id_rows _ _ _ _ Hrun) as (_ & _ & Hrows).
  destruct (Hrows pk row Hrow) as [Hsel Hnsel]. split; [| exact Hnsel].
  intros Hselected. destruct (Hsel Hselected) as (backend_policy_list & Hlist & Hnew).
  exists backend_policy_list. split; [exact Hlist |].
  destruct (BackendPolicyList_get backend_policy_list (pm_action_id row))
    as [bp |] eqn:Hget.
  - apply BackendPolicyList_get_Some in Hget as [Hin Haction]. split.
    + intros _. exists bp. by repeat split.
    + intros Hnone. by destruct (Hnone bp Hin).
  - split; [| done]. intros (bp & Hin & Haction).
    by destruct (BackendPolicyList_get_None _ _ _ Hget Hin).
Qed.

(** [alter] is its transaction followed, when it committed, by the
    synchronisation guarded by the create set. *)
Lemma alter_decompose system_id subject create update delete w :
  let c := default [] create in
  let u := default [] update in
  let d := default [] delete in
  exists (r1 : result unit) w1 evs1,
    alter_transaction env system_id subject c u d w = (r1, w1)
    /\ trace w1 = trace w ++ [EvBegin] ++ evs1
                  ++ [if is_ok r1 then EvCommit else EvRollback]
    /\ (is_ok r1 = true -> evs1 = alter_calls c u d)
    /\ alter env system_id subject create update delete w
       = match r1 with
         | Ok _ => when (truthy c) (_sync_db_policy_id env system_id subject) w1
         | Raise e => (Raise e, w1)
         end.
Proof.
  intros c u d.
  pose proof (alter_body_emits env system_id subject c u d) as Hbody.
  destruct (transaction_atomic_emits _ _ w Hbody)
    as (r1 & w1 & evs1 & Hrun & Htr & Hpre & Hok & Hroll).
  exists r1, w1, evs1. split; [exact Hrun |]. split; [done |]. split; [done |].
  unfold alter. cbv zeta. fold c u d.
  destruct r1 as [[] | e1].
  - by erewrite bind_ok by exact Hrun.
  - by erewrite bind_raise by exact Hrun.
Qed.

End SyncPolicyId.

(** C6. When [alter] returns, its transaction has committed, and when the
    create set is not empty the synchronisation step has then run on the
    mirror the transaction committed: every row of the (system, subject)
    that carried the placeholder 0 and whose action the backend lists now
    carries the identifier of a backend policy of that action, with its
    other columns as they were, and every other row and table is as the
    transaction left it.  When the create set is empty the step is not
    called: the world is the one the transaction committed. *)
Theorem alter_syncs_policy_id (env : Env) (system_id : string) (subject : Subject)
    (create_policies update_policies : option (list PolicyBean))
    (delete_policy_ids : option (list Z)) (w w' : World) :
  PolicyOperationService.alter env system_id subject create_policies
    update_policies delete_policy_ids w = (Ok tt, w') ->
  let c := default [] create_policies in
  let u := default [] update_policies in
  let d := default [] delete_policy_ids in
  exists w1,
    alter_transaction env system_id subject c u d w = (Ok tt, w1)
    /\ trace w1 = trace w ++ [EvBegin] ++ alter_calls c u d ++ [EvCommit]
    /\ (c <> [] ->
        trace w' = trace w1 ++ [EvSyncDbPolicyId]
        /\ celery w' = celery w1
        /\ db w' = set_policy (fun _ => policy (db w')) (db w1)
        /\ (forall pk, policy (db w1) !! pk = None -> policy (db w') !! pk = None)
        /\ forall pk row, policy (db w1) !! pk = Some row ->
             (PolicyOperationService.of_subject system_id subject row
              /\ pm_policy_id row = 0 ->
              exists backend_policy_list,
                backend_policy_list_by_subject env system_id subject
                = Ok backend_policy_list
                /\ ((exists bp, bp ∈ backend_policy_list
                                /\ backend_action_id bp = pm_action_id row) ->
                    exists bp,
                      bp ∈ backend_policy_list
                      /\ backend_action_id bp = pm_action_id row
                      /\ policy (db w') !! pk
                         = Some (mkPolicyModel (pm_subject_type row)
                                   (pm_subject_id row) (pm_system_id row)
                                   (pm_action_id row) (backend_id bp)
                                   (_resources row)))
                /\ ((forall bp, bp ∈ backend_policy_list ->
                                backend_action_id bp <> pm_action_id row) ->
                    policy (db w') !! pk = Some row))
             /\ (~ (PolicyOperationService.of_subject system_id subject row
                    /\ pm_policy_id row = 0) ->
                 policy (db w') !! pk = Some row))
    /\ (c = [] -> w' = w1 /\ EvSyncDbPolicyId ∉ [EvBegin] ++ alter_calls c u d ++ [EvCommit]).
Proof.
  intros Halter c u d.
  destruct (alter_decompose env system_id subject create_policies update_policies
              delete_policy_ids w) as (r1 & w1 & evs1 & Htx & Htr & Hok & Hrun).
  fold c u d in Htx, Hok, Hrun. rewrite Halter in Hrun.
  destruct r1 as [[] | e1]; [| discriminate].
  rewrite (Hok eq_refl) in Htr. cbn in Htr.
  exists w1. split; [exact Htx |]. split; [done |]. split.
  - intros Hc. destruct c as [| p c']; [done |]. cbn in Hrun.
    symmetry in Hrun.
    destruct (sync_db_policy_id_rows env _ _ _ _ Hrun) as (Htrace & Hnone & _).
    destruct (sync_db_policy_id_frame env _ _ _ _ _ Hrun) as (Hcelery & Hdb).
    split; [exact Htrace |]. split; [exact Hcelery |]. split; [exact Hdb |].
    split; [exact Hnone |].
    exact (sync_db_policy_id_rows_explicit env _ _ _ _ Hrun).
  - intros Hc. rewrite Hc in *. cbn in Hrun. injection Hrun as ->.
    split; [done |]. unfold alter_calls. cbn.
    destruct (truthy u), (truthy d); cbn; solve_not_elem.
Qed.

(** ** Group authorization *)

Lemma int_str (n : Z) : int (str n) = Ok n.
Proof.
  unfold int, str. rewrite NilZero.isi.
  - by rewrite DecimalZ.of_to.
  - destruct n; cbn; try discriminate.
    intros [= Hnil]. by apply DecimalPos.Unsigned.to_uint_nonnil in Hnil.
  - destruct n; cbn; try discriminate.
    intros [= Hnil]. by apply DecimalPos.Unsigned.to_uint_nonnil in Hnil.
Qed.

Section GroupGrant.
Import GroupBiz.

Variable env : Env.

Lemma elem_of_requested_template_ids templates id :
  id ∈ requested_template_ids templates
  <-> exists t, t ∈ templates /\ template_id t <> 0 /\ id = template_id t.
Proof.
  unfold requested_template_ids. rewrite list_elem_of_fmap. split.
  - intros (t & -> & Hin). apply list_elem_of_filter in Hin as [Hne Hin]. eauto.
  - intros (t & Hin & Hne & ->). exists t. split; [done |].
    by apply list_elem_of_filter.
Qed.

Lemma elem_of_requested_custom_system_ids templates s :
  s ∈ requested_custom_system_ids templates
  <-> exists t, t ∈ templates /\ template_id t = 0 /\ s = system_id t.
Proof.
  unfold requested_custom_system_ids. rewrite list_elem_of_fmap. split.
  - intros (t & -> & Hin). apply list_elem_of_filter in Hin as [Hne Hin]. eauto.
  - intros (t & Hin & Hne & ->). exists t. split; [done |].
    by apply list_elem_of_filter.
Qed.

(** The query of [_check_before_grant] selects the locks that stand in the
    way of the request. *)
Lemma lock_conflicts_iff group templates l :
  lock_conflicts (group_id group) (requested_template_ids templates)
    (requested_custom_system_ids templates) l
  <-> lock_for_request group templates l.
Proof.
  unfold lock_conflicts, lock_for_request.
  rewrite elem_of_requested_template_ids, elem_of_requested_custom_system_ids.
  done.
Qed.

Lemma check_before_grant_conflict group templates w :
  Exists (lock_for_request group templates) (group_authorize_lock (db w)) ->
  exists message,
    _check_before_grant group templates w
    = (Raise (CodeException VALIDATE_ERROR message), w).
Proof.
  intros Hex. unfold _check_before_grant, bind, gets, raise.
  case_bool_decide; [by eexists |].
  rewrite bool_decide_eq_true_2; [by eexists |].
  eapply Exists_impl; [exact Hex |]. intros l. apply lock_conflicts_iff.
Qed.

Lemma check_before_grant_pass group templates w :
  Forall (fun l => ~ lock_for_request group templates l) (group_authorize_lock (db w)) ->
  Forall (fun l => ~ template_being_updated templates l)
    (perm_template_pre_update_lock (db w)) ->
  _check_before_grant group templates w = (Ok tt, w).
Proof.
  intros Hlocks Hupd. unfold _check_before_grant, bind, gets, raise, ret.
  rewrite bool_decide_eq_false_2.
  - rewrite bool_decide_eq_false_2; [done |].
    apply Forall_Exists_neg. eapply Forall_impl; [exact Hlocks |].
    intros l Hl Hc. by apply Hl, lock_conflicts_iff.
  - apply Forall_Exists_neg. eapply Forall_impl; [exact Hupd |].
    intros l Hl Hin. apply Hl. by apply elem_of_requested_template_ids in Hin.
Qed.

(** [_check_before_grant] only reads. *)
Lemma check_before_grant_reads group templates w :
  (_check_before_grant group templates w).2 = w.
Proof.
  unfold _check_before_grant, bind, gets, raise, ret.
  repeat case_bool_decide; done.
Qed.

Lemma grant_check_raises role group templates w e :
  _check_before_grant group templates w = (Raise e, w) ->
  grant env role group templates w = (Raise e, w).
Proof. intros Hcheck. unfold grant. by erewrite bind_raise. Qed.

End GroupGrant.

(** C1. A grant for a group fails, with the world exactly as it was (no
    lock row, no task record, nothing handed to the task runner), whenever
    a stored [GroupAuthorizeLock] of the group names a requested template or
    is the custom-grant lock of a requested system.  When every stored lock
    is for another group, another template or another system, and no
    requested template is held by a template update, the pre-check
    passes. *)
Theorem grant_lock_mutual_exclusion (env : Env) (role : Role) (group : Group)
    (templates : list GroupBiz.GroupTemplateGrantBean) (w : World) :
  (Exists (lock_for_request group templates) (group_authorize_lock (db w)) ->
   exists message,
     GroupBiz.grant env role group templates w
     = (Raise (CodeException VALIDATE_ERROR message), w))
  /\ (Forall (fun l => ~ lock_for_request group templates l)
        (group_authorize_lock (db w)) ->
      Forall (fun l => ~ template_being_updated templates l)
        (perm_template_pre_update_lock (db w)) ->
      GroupBiz._check_before_grant group templates w = (Ok tt, w)).
Proof.
  split.
  - intros Hex.
    destruct (check_before_grant_conflict group templates w Hex) as (message & Hcheck).
    exists message. by apply grant_check_raises.
  - apply check_before_grant_pass.
Qed.

Section GrantLock.
Import GroupBiz.

Variable env : Env.

(** The lock [_gen_grant_lock] builds once the checks have passed. *)
Lemma gen_grant_lock_ok subject role uuid template group_id :
  check_actions env subject template = Ok tt ->
  check_names env template = Ok tt ->
  check_scope env role template = Ok tt ->
  int (subject_id subject) = Ok group_id ->
  _gen_grant_lock env subject role uuid template
  = (Ok (mkGroupAuthorizeLock (template_id template) group_id (system_id template) uuid
           ((fun p => set_expired_at p (PERMANENT_SECONDS env)) <$> policies template)),
     set_permanent env template).
Proof.
  intros Hactions Hnames Hscope Hint.
  unfold _gen_grant_lock, bind, gets, lift, catch, modify, ret.
  by rewrite Hactions, Hnames, Hscope, Hint.
Qed.

(** A failed check ends [_gen_grant_lock] before the expirations are
    touched. *)
Lemma gen_grant_lock_raise subject role uuid template :
  check_actions env subject template <> Ok tt
  \/ check_names env template <> Ok tt
  \/ check_scope env role template <> Ok tt ->
  exists e, _gen_grant_lock env subject role uuid template = (Raise e, template).
Proof.
  intros Hfail.
  unfold _gen_grant_lock, bind, gets, lift, catch, modify, ret, raise.
  destruct (check_actions env subject template) as [[] | e1]; [| by eexists].
  destruct (check_names env template) as [[] | e2].
  - destruct (check_scope env role template) as [[] | e3];
      [by destruct Hfail as [? | [? | ?]] |].
    destruct (is_CodeException e3); by eexists.
  - destruct (is_CodeException e2); by eexists.
Qed.

Lemma gen_grant_lock_inv subject role uuid template lock template' :
  _gen_grant_lock env subject role uuid template = (Ok lock, template') ->
  check_actions env subject template = Ok tt
  /\ check_names env template = Ok tt
  /\ check_scope env role template = Ok tt
  /\ template' = set_permanent env template
  /\ lock_data lock = (fun p => set_expired_at p (PERMANENT_SECONDS env)) <$> policies template
  /\ lock_key lock = uuid
  /\ lock_template_id lock = template_id template
  /\ lock_system_id lock = system_id template.
Proof.
  unfold _gen_grant_lock, bind, gets, lift, catch, modify, ret, raise.
  destruct (check_actions env subject template) as [[] | e1]; [| discriminate].
  destruct (check_names env template) as [[] | e2];
    [| destruct (is_CodeException e2); discriminate].
  destruct (check_scope env role template) as [[] | e3];
    [| destruct (is_CodeException e3); discriminate].
  destruct (int (subject_id subject)) as [group_id | e4]; [| discriminate].
  intros [= <- <-]. done.
Qed.

End GrantLock.

(** C7. When [_gen_grant_lock] returns a lock, the action check (template
    consistency or add-only), the resource name check and the role scope
    check have all passed, and every policy of the lock's snapshot is a
    requested policy with its expiration set to [PERMANENT_SECONDS].  When
    one of the checks fails the method raises and the policies still carry
    the expirations they came with. *)
Theorem gen_grant_lock_permanent (env : Env) (subject : Subject) (role : Role)
    (uuid : string) (template : GroupBiz.GroupTemplateGrantBean) :
  (forall lock template',
     GroupBiz._gen_grant_lock env subject role uuid template = (Ok lock, template') ->
     GroupBiz.check_actions env subject template = Ok tt
     /\ GroupBiz.check_names env template = Ok tt
     /\ GroupBiz.check_scope env role template = Ok tt
     /\ Forall (fun p => expired_at p = PERMANENT_SECONDS env) (lock_data lock)
     /\ action_id <$> lock_data lock = action_id <$> GroupBiz.policies template
     /\ related_resource_types <$> lock_data lock
        = related_resource_types <$> GroupBiz.policies template
     /\ GroupBiz.policies template' = lock_data lock)
  /\ (GroupBiz.check_actions env subject template <> Ok tt
      \/ GroupBiz.check_names env template <> Ok tt
      \/ GroupBiz.check_scope env role template <> Ok tt ->
      exists e,
        GroupBiz._gen_grant_lock env subject role uuid template = (Raise e, template))
  /\ (forall group_id,
        GroupBiz.check_actions env subject template = Ok tt ->
        GroupBiz.check_names env template = Ok tt ->
        GroupBiz.check_scope env role template = Ok tt ->
        int (subject_id subject) = Ok group_id ->
        exists lock template',
          GroupBiz._gen_grant_lock env subject role uuid template = (Ok lock, template')).
Proof.
  split; [| split].
  - intros lock template' Hrun.
    apply gen_grant_lock_inv in Hrun
      as (Hactions & Hnames & Hscope & -> & Hdata & _).
    rewrite Hdata. repeat split; try done.
    + apply Forall_fmap, Forall_true. done.
    + by rewrite <- list_fmap_compose.
    + by rewrite <- list_fmap_compose.
  - apply gen_grant_lock_raise.
  - intros group_id Hactions Hnames Hscope Hint. eexists _, _.
    by apply gen_grant_lock_ok.
Qed.

Section GrantCommit.
Import GroupBiz.

Variable env : Env.

Lemma gen_grant_locks_cons subject role uuid t templates :
  gen_grant_locks env subject role uuid (t :: templates)
  = try! lock := (_gen_grant_lock env subject role uuid t).1 in
    try! locks := gen_grant_locks env subject role uuid templates in
    Ok (lock :: locks).
Proof. reflexivity. Qed.

Lemma gen_grant_locks_raise subject role uuid templates :
  Exists (fun t => ~ template_passes env subject role uuid t) templates ->
  exists e, gen_grant_locks env subject role uuid templates = Raise e.
Proof.
  unfold template_passes.
  induction templates as [| t templates IH]; intros Hex; [by apply Exists_nil in Hex |].
  rewrite gen_grant_locks_cons.
  destruct (_gen_grant_lock env subject role uuid t) as [[lock | e] t'] eqn:Hrun;
    cbn [fst result_bind]; [| by eexists].
  apply Exists_cons in Hex as [Hbad | Hex]; [by rewrite Hrun in Hbad |].
  destruct (IH Hex) as (e & ->). by eexists.
Qed.

Lemma gen_grant_locks_ok subject role uuid templates :
  Forall (template_passes env subject role uuid) templates ->
  exists locks,
    gen_grant_locks env subject role uuid templates = Ok locks
    /\ Forall (fun l => lock_key l = uuid) locks
    /\ Forall2 (fun t l => lock_template_id l = template_id t
                           /\ lock_system_id l = system_id t) templates locks.
Proof.
  unfold template_passes.
  induction 1 as [| t templates Hpass _ (locks & Hlocks & Hkeys & Hall)]; [by exists [] |].
  rewrite gen_grant_locks_cons.
  destruct (_gen_grant_lock env subject role uuid t) as [[lock | e] t'] eqn:Hrun;
    [| done].
  apply gen_grant_lock_inv in Hrun as (_ & _ & _ & _ & _ & Hkey & Htid & Hsid).
  rewrite Hlocks. cbn [fst result_bind]. exists (lock :: locks). split; [done |]. split.
  - by constructor.
  - by constructor.
Qed.

(** The transaction of [grant]: both rows, or none. *)
Lemma grant_commit subject uuid locks w :
  exists r w',
    transaction_atomic
      (statement env OpLockBulkCreate
         (set_group_authorize_lock (fun rows => rows ++ locks)) >>
       TaskDetail_create env GROUP_AUTHORIZATION (subject, uuid)) w = (r, w')
    /\ celery w' = celery w
    /\ ((fails env OpLockBulkCreate = false /\ fails env OpTaskCreate = false
         /\ exists task,
              r = Ok task
              /\ task_type task = GROUP_AUTHORIZATION
              /\ task_args task = (subject, uuid)
              /\ db w' = set_task_detail (fun tasks => tasks ++ [task])
                           (set_group_authorize_lock (fun rows => rows ++ locks) (db w)))
        \/ ((fails env OpLockBulkCreate = true \/ fails env OpTaskCreate = true)
            /\ (exists e, r = Raise e) /\ db w' = db w)).
Proof.
  unfold transaction_atomic, bind, statement, TaskDetail_create, raise, modify.
  destruct (fails env OpLockBulkCreate) eqn:Hlock.
  - eexists _, _. split; [done |]. split; [done |]. right. eauto.
  - destruct (fails env OpTaskCreate) eqn:Htask.
    + eexists _, _. split; [done |]. split; [done |]. right. eauto.
    + eexists _, _. split; [done |]. split; [done |]. left.
      split; [done |]. split; [done |]. eexists. done.
Qed.

End GrantCommit.

(** C2. When the pre-check or the validation of some template fails,
    [grant] raises and the world is exactly as it was: no lock row and no
    task record.  When all of them pass, the locks of the batch, one per
    template and all carrying the one uuid of the call, and the single task
    record keyed by that uuid are written in one transaction: either the
    store holds all of them on top of what it held, or, when the lock insert
    or the task insert fails, [grant] raises and the store is as it was. *)
Theorem grant_is_atomic (env : Env) (role : Role) (group : Group)
    (templates : list GroupBiz.GroupTemplateGrantBean) (w : World) :
  let subject := mkSubject GROUP (str (group_id group)) in
  let uuid := gen_uuid env in
  ((is_ok (GroupBiz._check_before_grant group templates w).1 = false
    \/ Exists (fun t => ~ template_passes env subject role uuid t) templates) ->
   exists e, GroupBiz.grant env role group templates w = (Raise e, w))
  /\ (is_ok (GroupBiz._check_before_grant group templates w).1 = true ->
      Forall (template_passes env subject role uuid) templates ->
      exists locks r w',
        GroupBiz.gen_grant_locks env subject role uuid templates = Ok locks
        /\ Forall (fun l => lock_key l = uuid) locks
        /\ Forall2 (fun t l => lock_template_id l = GroupBiz.template_id t
                               /\ lock_system_id l = GroupBiz.system_id t)
             templates locks
        /\ GroupBiz.grant env role group templates w = (r, w')
        /\ ((fails env OpLockBulkCreate = false /\ fails env OpTaskCreate = false
             /\ group_authorize_lock (db w') = group_authorize_lock (db w) ++ locks
             /\ exists task,
                  task_detail (db w') = task_detail (db w) ++ [task]
                  /\ task_type task = GROUP_AUTHORIZATION
                  /\ task_args task = (subject, uuid))
            \/ ((fails env OpLockBulkCreate = true \/ fails env OpTaskCreate = true)
                /\ (exists e, r = Raise e)
                /\ db w' = db w /\ celery w' = celery w))).
Proof.
  intros subject uuid.
  pose proof (check_before_grant_reads group templates w) as Hreads.
  destruct (GroupBiz._check_before_grant group templates w) as [rc wc] eqn:Hcheck.
  cbn in Hreads. subst wc. split.
  - intros [Hpre | Hex].
    + destruct rc as [[] | e]; [done |]. exists e. by apply grant_check_raises.
    + destruct rc as [[] | e]; [| exists e; by apply grant_check_raises].
      destruct (gen_grant_locks_raise env subject role uuid templates Hex) as (e & Hlocks).
      exists e. unfold GroupBiz.grant. erewrite bind_ok by exact Hcheck.
      cbv zeta. fold subject uuid. unfold bind, lift. by rewrite Hlocks.
  - intros Hpre Hall. destruct rc as [[] | e]; [| done].
    destruct (gen_grant_locks_ok env subject role uuid templates Hall)
      as (locks & Hlocks & Hkeys & Hshape).
    destruct (grant_commit env subject uuid locks w)
      as (rt & wt & Hrun & Hcelery & Hcases).
    unfold GroupBiz.grant. erewrite bind_ok by exact Hcheck.
    cbv zeta. fold subject uuid. unfold bind at 1. unfold lift. rewrite Hlocks.
    destruct Hcases as [(Hf1 & Hf2 & task & -> & Htype & Hargs & Hdb)
                       | (Hf & (e & ->) & Hdb)].
    + erewrite bind_ok by exact Hrun.
      exists locks. unfold GroupBiz.TaskFactory_delay, raise, modify.
      destruct (fails env OpTaskDelay); eexists _, _; (split; [done |]);
        (split; [done |]); (split; [done |]); (split; [done |]); left;
        cbn; rewrite Hdb; cbn; eauto 10.
    + erewrite bind_raise by exact Hrun.
      exists locks, (Raise e), wt. repeat (split; [done |]). right. eauto.
Qed.


(** ** Add-only custom grants *)



Lemma policy_list_get_in system_id policies a :
  a ∈ action_id <$> policies ->
  is_Some (PolicyBeanList.get (PolicyBeanList.new system_id policies) a).
Proof.
  intros Hin. unfold PolicyBeanList.get, PolicyBeanList.new. cbn.
  apply dict_of_pairs_lookup_in. by rewrite <- list_fmap_compose.
Qed.

Lemma policy_list_get_notin system_id policies a :
  a ∉ action_id <$> policies ->
  PolicyBeanList.get (PolicyBeanList.new system_id policies) a = None.
Proof.
  intros Hnotin. unfold PolicyBeanList.get, PolicyBeanList.new. cbn.
  apply dict_of_pairs_lookup_notin. by rewrite <- list_fmap_compose.
Qed.

(** A policy found in the index of a list bears the action id it was
    looked up by. *)
Lemma policy_list_get_action system_id policies a p :
  PolicyBeanList.get (PolicyBeanList.new system_id policies) a = Some p ->
  action_id p = a /\ p ∈ policies.
Proof.
  unfold PolicyBeanList.get, PolicyBeanList.new. cbn. intros Hget.
  apply dict_of_pairs_lookup_Some in Hget.
  apply list_elem_of_fmap in Hget as (q & [= -> ->] & Hq). done.
Qed.

Section AddOnly.

Variable env : Env.

(** [_valid_grant_actions_not_exists] passes when no submitted action is
    among the stored ones. *)
Lemma valid_grant_actions_not_exists_pass subject system_id action_ids :
  Forall (fun a => a ∉ action_id <$> list_by_subject env system_id subject) action_ids ->
  GroupBiz._valid_grant_actions_not_exists env subject system_id action_ids = Ok tt.
Proof.
  unfold GroupBiz._valid_grant_actions_not_exists.
  induction 1 as [| a action_ids Ha _ IH]; cbn; [done |].
  by rewrite policy_list_get_notin.
Qed.

(** It fails, naming a submitted action that is stored, when there is
    one. *)
Lemma valid_grant_actions_not_exists_fail subject system_id action_ids :
  Exists (fun a => a ∈ action_id <$> list_by_subject env system_id subject) action_ids ->
  exists a,
    a ∈ action_ids /\ a ∈ action_id <$> list_by_subject env system_id subject
    /\ GroupBiz._valid_grant_actions_not_exists env subject system_id action_ids
       = Raise (CodeException VALIDATE_ERROR (MsgActionExists system_id a)).
Proof.
  unfold GroupBiz._valid_grant_actions_not_exists.
  induction action_ids as [| a action_ids IH]; intros Hex;
    [by apply Exists_nil in Hex |].
  cbn.
  destruct (decide (a ∈ action_id <$> list_by_subject env system_id subject))
    as [Hin | Hnotin].
  - destruct (policy_list_get_in system_id _ a Hin) as [p ->].
    exists a. split; [left | done].
  - rewrite policy_list_get_notin by done.
    apply Exists_cons in Hex as [? | Hex]; [done |].
    destruct (IH Hex) as (b & Hb & Hstored & Hrun).
    exists b. split; [by right | done].
Qed.

(** [check_grant_policies_without_update] never looks at the submitted
    policies: it fails as soon as the subject holds any policy in the
    system, naming the first one. *)
Lemma check_grant_policies_without_update_run group_id system_id submitted :
  GroupCheckBiz.check_grant_policies_without_update env group_id system_id submitted
  = match list_by_subject env system_id (mkSubject GROUP (str group_id)) with
    | [] => Ok tt
    | p :: _ =>
        Raise (CodeException VALIDATE_ERROR
                 (MsgActionExistsNoUpdate system_id (action_id p)))
    end.
Proof.
  unfold GroupCheckBiz.check_grant_policies_without_update.
  destruct (list_by_subject env system_id (mkSubject GROUP (str group_id)))
    as [| p stored] eqn:Hstored; [done |].
  cbn [GroupCheckBiz.policies_not_exists].
  destruct (policy_list_get_in system_id (p :: stored) (action_id p)) as [q ->];
    [left | done].
Qed.

End AddOnly.

(** C4, at the input where the code departs from it: group 7 holds a policy
    for [edit] and the grant submits [view] only.  The check of the grant
    workflow passes, as the claim says; [check_grant_policies_without_update]
    rejects the grant, naming the stored action. *)
Theorem check_grant_policies_without_update_rejects_new_action :
  let env := Examples.environment (Ok tt) [] Examples.no_failure Examples.no_names
               [Examples.policy_on "edit" [Examples.host "1" "h1"]] in
  let submitted := [Examples.policy_on "view" [Examples.host "2" "h2"]] in
  GroupBiz._valid_grant_actions_not_exists env (mkSubject GROUP (str 7)) "bk_cmdb"
    (action_id <$> submitted) = Ok tt
  /\ GroupCheckBiz.check_grant_policies_without_update env 7 "bk_cmdb" submitted
     = Raise (CodeException VALIDATE_ERROR (MsgActionExistsNoUpdate "bk_cmdb" "edit")).
Proof.
  intros env submitted. split.
  - apply valid_grant_actions_not_exists_pass. repeat constructor.
    cbn. intros Hin. apply list_elem_of_singleton in Hin. discriminate.
  - by rewrite check_grant_policies_without_update_run.
Qed.

(** ** The name check of an update runs on the added policies *)

Section Added.
Import PolicyBeanList.

(** What is left of a related resource type after [rrt_sub] was there
    before and is not held by any related resource type of the other
    policy. *)
Lemma rrt_sub_keys old r k :
  k ∈ rrt_keys (rrt_sub old r) ->
  k ∈ rrt_keys r /\ forall o, o ∈ old -> k ∉ rrt_keys o.
Proof.
  unfold rrt_keys. intros Hk.
  apply list_elem_of_fmap in Hk as (pth & -> & Hpth). cbn [rrt_system_id rrt_type].
  unfold rrt_paths in Hpth. cbn [condition rrt_sub] in Hpth.
  apply list_elem_of_bind in Hpth as (c' & Hpth & Hc').
  apply list_elem_of_filter in Hc' as [_ Hc'].
  apply list_elem_of_fmap in Hc' as (c & -> & Hc).
  apply list_elem_of_bind in Hpth as (i' & Hpth & Hi').
  cbn [instances condition_sub] in Hi'.
  apply list_elem_of_filter in Hi' as [_ Hi'].
  apply list_elem_of_fmap in Hi' as (i & -> & Hi).
  cbn [path instance_sub] in Hpth.
  apply list_elem_of_filter in Hpth as [Hfresh Hpth].
  split.
  - apply list_elem_of_fmap. exists pth. split; [done |].
    unfold rrt_paths. apply list_elem_of_bind. exists c. split; [| done].
    apply list_elem_of_bind. by exists i.
  - intros o Ho Hin.
    apply list_elem_of_fmap in Hin as (pth' & [= Hsys Htype Hkey] & Hpth').
    apply Hfresh. unfold old_path_keys.
    apply list_elem_of_bind. exists o. split.
    + rewrite Hkey. by apply list_elem_of_fmap_2.
    + apply list_elem_of_filter. split; [| done]. by split.
Qed.

Lemma policy_sub_keys q o p k :
  policy_sub q o = Some p -> k ∈ policy_keys p ->
  action_id p = action_id q /\ k ∈ policy_keys q /\ k ∉ policy_keys o.
Proof.
  unfold policy_sub. case_bool_decide; [done |]. intros [= <-].
  unfold policy_keys. cbn [related_resource_types action_id]. intros Hk.
  apply list_elem_of_bind in Hk as (r' & Hk & Hr').
  apply list_elem_of_fmap in Hr' as (r & -> & Hr).
  apply rrt_sub_keys in Hk as [Hk Hold].
  split; [done |]. split.
  - apply list_elem_of_bind. by exists r.
  - intros Hin. apply list_elem_of_bind in Hin as (ro & Hin & Hro).
    by apply (Hold ro).
Qed.

(** Every instance of a policy of [sub self other] is an instance of the
    policy of [self] for that action, and none is held by the policy of
    [other] for that action. *)
Lemma sub_keys self other p k :
  p ∈ policies (sub self other) -> k ∈ policy_keys p ->
  (exists q, q ∈ policies self /\ action_id q = action_id p /\ k ∈ policy_keys q)
  /\ (forall o, get other (action_id p) = Some o -> k ∉ policy_keys o).
Proof.
  unfold sub. cbn [policies new]. intros Hp Hk.
  apply list_elem_of_omap in Hp as (q & Hq & Hsub).
  destruct (get other (action_id q)) as [o |] eqn:Hget.
  - destruct (policy_sub_keys q o p k Hsub Hk) as (Hact & Hkq & Hko).
    split; [by exists q |].
    intros o' Hget'. rewrite Hact, Hget in Hget'. by injection Hget' as <-.
  - injection Hsub as <-. split; [by exists q |].
    intros o' Hget'. congruence.
Qed.

End Added.

Section UpdateNameCheck.
Import GroupBiz.

Variable env : Env.

Lemma authorized_policies_inv system_id template_id subject w old_policies w' :
  authorized_policies env system_id template_id subject w = (Ok old_policies, w') ->
  w' = w
  /\ (template_id = 0 -> old_policies = list_by_subject env system_id subject)
  /\ (template_id <> 0 ->
      exists a, a ∈ perm_template_policy_authorized (db w)
                /\ authorized_subject a = subject
                /\ authorized_template_id a = template_id
                /\ old_policies = authorized_actions a).
Proof.
  unfold authorized_policies. case_bool_decide as Htid.
  - intros [= <- <-]. done.
  - unfold get_by_subject_template, bind, gets, ret, raise.
    destruct (filter _ (perm_template_policy_authorized (db w)))
      as [| a rest] eqn:Hrows; [discriminate |].
    intros [= <- <-]. split; [done |]. split; [done |]. intros _.
    assert (a ∈ filter (fun a => authorized_subject a = subject
                                 /\ authorized_template_id a = template_id)
                  (perm_template_policy_authorized (db w))) as Hin.
    { rewrite Hrows. left. }
    apply list_elem_of_filter in Hin as [[Hsubject Htemplate] Hin].
    by exists a.
Qed.

End UpdateNameCheck.

(** C5. [check_update_policies_resource_name] fetches the policies already
    authorized to the subject (the custom policies of the system when the
    template id is 0, the actions of the template authorization otherwise),
    subtracts them from the requested policies and runs the name check on
    that difference only: the nodes it validates are the nodes of the
    difference.  Every instance of the difference is a requested instance
    of the same action, and none of them is an instance the subject already
    holds for that action. *)
Theorem resource_name_check_runs_on_added (env : Env) (system_id : string)
    (template_id : Z) (policies : list PolicyBean) (subject : Subject)
    (w : World) (old_policies : list PolicyBean) :
  GroupBiz.authorized_policies env system_id template_id subject w
  = (Ok old_policies, w) ->
  let requested := PolicyBeanList.new system_id policies in
  let granted := PolicyBeanList.new system_id old_policies in
  let added := PolicyBeanList.sub requested granted in
  GroupBiz.check_update_policies_resource_name env system_id template_id policies
    subject w
  = (PolicyBeanList.check_nodes env (PolicyBeanList.list_path_nodes added), w)
  /\ (template_id = 0 -> old_policies = list_by_subject env system_id subject)
  /\ (template_id <> 0 ->
      exists a, a ∈ perm_template_policy_authorized (db w)
                /\ authorized_subject a = subject
                /\ authorized_template_id a = template_id
                /\ old_policies = authorized_actions a)
  /\ (forall p k,
        p ∈ PolicyBeanList.policies added -> k ∈ policy_keys p ->
        (exists q, q ∈ policies /\ action_id q = action_id p /\ k ∈ policy_keys q)
        /\ (forall o, PolicyBeanList.get granted (action_id p) = Some o ->
                      k ∉ policy_keys o)).
Proof.
  intros Hold requested granted added.
  destruct (authorized_policies_inv env _ _ _ _ _ _ Hold) as (_ & Hcustom & Htemplate).
  split; [| split; [done | split; [done |]]].
  - unfold GroupBiz.check_update_policies_resource_name.
    erewrite bind_ok by exact Hold. done.
  - intros p k Hp Hk. by apply (sub_keys requested granted).
Qed.

(** ** The properties at sample inputs *)

Section Samples.
Import Examples.

Lemma grant_lock_mutual_exclusion_witness :
  (exists message,
     GroupBiz.grant quiet manager group7 [template_grant 3] (world locked_db)
     = (Raise (CodeException VALIDATE_ERROR message), world locked_db))
  /\ GroupBiz._check_before_grant group7 [template_grant 9] (world locked_db)
     = (Ok tt, world locked_db).
Proof.
  split.
  - apply (grant_lock_mutual_exclusion quiet manager group7 [template_grant 3]
             (world locked_db)).
    apply Exists_cons_hd. split; [reflexivity |].
    left. exists (template_grant 3). split; [left |]. split; [discriminate | reflexivity].
  - apply (grant_lock_mutual_exclusion quiet manager group7 [template_grant 9]
             (world locked_db)).
    + apply Forall_cons. split; [| apply Forall_nil; exact I].
      intros [_ [(t & Ht & _ & Heq) | (Hzero & _)]]; [| discriminate].
      apply list_elem_of_singleton in Ht. subst t. discriminate.
    + apply Forall_nil. exact I.
Defined.

Lemma grant_is_atomic_witness :
  exists r w',
    GroupBiz.grant quiet manager group7 [template_grant 9] (world empty_db) = (r, w')
    /\ length (group_authorize_lock (db w')) = 1%nat
    /\ length (task_detail (db w')) = 1%nat.
Proof.
  destruct (grant_is_atomic quiet manager group7 [template_grant 9] (world empty_db))
    as [_ Hpass].
  destruct Hpass as (locks & r & w' & _ & _ & Hshape & Hrun & Hcases).
  - reflexivity.
  - apply Forall_cons. split; [reflexivity | apply Forall_nil; exact I].
  - exists r, w'. split; [exact Hrun |].
    destruct Hcases as [(_ & _ & Hlocks & task & Htasks & _) | (Hfails & _)].
    + rewrite Hlocks, Htasks. apply Forall2_length in Hshape.
      cbn in *. by rewrite <- Hshape.
    + destruct Hfails; discriminate.
Defined.


Lemma alter_syncs_policy_id_witness :
  let env := environment (Ok tt) [mkBackendPolicy 42 "view"] no_failure no_names [] in
  let w' := (PolicyOperationService.alter env "bk_cmdb" admin (Some [host_policy 1])
               None None (world empty_db)).2 in
  exists w1 row,
    alter_transaction env "bk_cmdb" admin [host_policy 1] [] [] (world empty_db)
    = (Ok tt, w1)
    /\ policy (db w1) !! 0 = Some row
    /\ pm_policy_id row = 0
    /\ policy (db w') !! 0
       = Some (mkPolicyModel "user" "admin" "bk_cmdb" "view" 42
                 (related_resource_types (host_policy 1)))
    /\ trace w'
       = [EvBegin; EvCreateDbPolicies; EvAlterBackendPolicies; EvCommit;
          EvSyncDbPolicyId].
Proof.
  intros env w'.
  destruct (alter_syncs_policy_id env "bk_cmdb" admin (Some [host_policy 1]) None None
              (world empty_db) w')
    as (w1 & Htx & Htrace & Hcreate & _).
  - vm_compute. reflexivity.
  - destruct Hcreate as (Htrace' & _ & _ & _ & Hrows); [discriminate |].
    set (row := mkPolicyModel "user" "admin" "bk_cmdb" "view" 0
                  (related_resource_types (host_policy 1))).
    assert (policy (db w1) !! 0 = Some row) as Hrow.
    { vm_compute in Htx. injection Htx as <-. vm_compute. reflexivity. }
    exists w1, row. split; [exact Htx |]. split; [exact Hrow |].
    split; [reflexivity |]. split.
    + destruct (Hrows 0 row Hrow) as [Hselected _].
      destruct Hselected as (backend_policy_list & Hlist & Hmatch & _);
        [split; [split; [reflexivity | split; reflexivity] | reflexivity] |].
      injection Hlist as <-.
      destruct Hmatch as (bp & Hin & _ & Hnew);
        [exists (mkBackendPolicy 42 "view"); split; [left | reflexivity] |].
      apply list_elem_of_singleton in Hin. subst bp. exact Hnew.
    + rewrite Htrace', Htrace. reflexivity.
Defined.

Lemma gen_grant_lock_permanent_witness :
  exists lock template',
    GroupBiz._gen_grant_lock quiet (mkSubject GROUP (str 7)) manager "0c7f3e"
      (template_grant 9) = (Ok lock, template')
    /\ Forall (fun p => expired_at p = 4102444800) (lock_data lock).
Proof.
  destruct (gen_grant_lock_permanent quiet (mkSubject GROUP (str 7)) manager "0c7f3e"
              (template_grant 9)) as (Hinv & _ & Hreturns).
  destruct (Hreturns 7) as (lock & template' & Hrun);
    [reflexivity | reflexivity | reflexivity | reflexivity |].
  exists lock, template'. split; [exact Hrun |].
  apply (Hinv lock template' Hrun).
Defined.

Lemma resource_name_check_runs_on_added_witness :
  let old := [policy_on "view" [host "X" "x"]] in
  let env := environment (Ok tt) [] no_failure renamed old in
  let requested := [policy_on "view" [host "X" "x"; host "Y" "y"]] in
  GroupBiz.check_update_policies_resource_name env "bk_cmdb" 0 requested
    (mkSubject GROUP (str 7)) (world empty_db) = (Ok tt, world empty_db)
  /\ PolicyBeanList.check_resource_name env (PolicyBeanList.new "bk_cmdb" requested)
     = Raise (CodeException VALIDATE_ERROR (MsgResourceName "host" "X" "x")).
Proof.
  intros old env requested.
  destruct (resource_name_check_runs_on_added env "bk_cmdb" 0 requested
              (mkSubject GROUP (str 7)) (world empty_db) old) as (Hrun & _).
  - reflexivity.
  - split; [| vm_compute; reflexivity].
    rewrite Hrun. vm_compute. reflexivity.
Defined.


End Samples.

(** ** The application path checks the added policies too *)

(** [_gen_need_apply_policy_list] validates names on the difference between
    the requested policies and those the applicant holds, before it builds
    the application. *)
Lemma gen_need_apply_policy_list_checks_added (env : Env) (now : Z)
    (applicant system_id : string) (policy_list : PolicyBeanList.t) :
  let old_policy_list :=
    PolicyBeanList.new system_id
      (list_by_subject env system_id (mkSubject USER applicant)) in
  let diff_policy_list := PolicyBeanList.sub policy_list old_policy_list in
  (forall e,
     PolicyBeanList.check_resource_name env diff_policy_list = Raise e ->
     ApplicationDataTrans._gen_need_apply_policy_list env now applicant system_id
       policy_list = Raise e)
  /\ (forall application,
        ApplicationDataTrans._gen_need_apply_policy_list env now applicant system_id
          policy_list = Ok application ->
        PolicyBeanList.check_resource_name env diff_policy_list = Ok tt).
Proof.
  intros old_policy_list diff_policy_list.
  unfold ApplicationDataTrans._gen_need_apply_policy_list.
  fold old_policy_list diff_policy_list.
  destruct (PolicyBeanList.check_resource_name env diff_policy_list) as [[] | e'];
    cbn; split; congruence.
Qed.

(** ** Scenarios *)

Section Scenarios.
Import Examples.

(** With a lock of group 7 on template 3 in place, a grant of template 9 to
    group 7 goes through: one more lock with the policies made permanent,
    one task, and the task handed to the runner. *)
Example grant_of_another_template :
  GroupBiz.grant quiet manager group7 [template_grant 9] (world locked_db)
  = (Ok tt,
     mkWorld
       (mkDB ∅
          [lock_7_3;
           mkGroupAuthorizeLock 9 7 "bk_cmdb" "0c7f3e"
             [set_expired_at (policy_on "read" [host "1" "h1"]) 4102444800;
              set_expired_at (policy_on "write" [host "1" "h1"]) 4102444800]]
          [mkTaskDetail 1 GROUP_AUTHORIZATION (mkSubject GROUP "7", "0c7f3e")]
          [] [] [] [] [])
       [1] [EvBegin; EvCommit]).
Proof. vm_compute. reflexivity. Qed.

(** A task insert that fails takes the lock insert back with it. *)
Example grant_rolls_back :
  let env := environment (Ok tt) [] (fun op => bool_decide (op = OpTaskCreate))
               no_names [] in
  GroupBiz.grant env manager group7 [template_grant 9] (world locked_db)
  = (Raise DatabaseError, mkWorld locked_db [] [EvBegin; EvRollback]).
Proof. vm_compute. reflexivity. Qed.

(** A created policy gets the identifier the backend assigned to its
    action. *)
Example alter_assigns_backend_id :
  let env := environment (Ok tt) [mkBackendPolicy 42 "view"] no_failure no_names [] in
  let w' := (PolicyOperationService.alter env "bk_cmdb" admin
               (Some [policy_on "view" [host "1" "h1"]]) None None (world empty_db)).2 in
  pm_policy_id <$> (map_to_list (policy (db w'))).*2 = [42].
Proof. vm_compute. reflexivity. Qed.

(** The difference of view on {X, Y} and view on {X} is view on {Y}. *)
Example sub_keeps_the_new_instance :
  PolicyBeanList.policies
    (PolicyBeanList.sub
       (PolicyBeanList.new "bk_cmdb" [policy_on "view" [host "X" "x"; host "Y" "y"]])
       (PolicyBeanList.new "bk_cmdb" [policy_on "view" [host "X" "x"]]))
  = [policy_on "view" [host "Y" "y"]].
Proof. vm_compute. reflexivity. Qed.

End Scenarios.

(** * Further properties of the policy operation service *)

Section MirrorWrites.
Import PolicyOperationService.




Variable env : Env.

(** The loop of [_update_db_policies] leaves every row it does not visit
    alone. *)
Lemma update_each_notin policy_list rows w r w' pk :
  update_each env policy_list rows w = (r, w') ->
  pk ∉ rows.*1 ->
  policy (db w') !! pk = policy (db w) !! pk.
Proof.
  revert w. induction rows as [| [k p] rows IH]; intros w Hrun Hnotin.
  - by injection Hrun as <- <-.
  - cbn in Hnotin. apply not_elem_of_cons in Hnotin as [Hne Hnotin].
    cbn in Hrun. destruct (PolicyList_get policy_list (pm_action_id p)) as [u |].
    + unfold bind, statement, raise, modify in Hrun.
      destruct (fails env OpPolicyUpdate); [by injection Hrun as <- <- |].
      apply IH in Hrun; [| done]. rewrite Hrun. cbn. by apply lookup_alter_ne.
    + by apply IH in Hrun.
Qed.

(** A visited row gets the resource types of the policy to update that has
    its action, when there is one. *)
Lemma update_each_in policy_list rows w w' pk p :
  fails env OpPolicyUpdate = false ->
  update_each env policy_list rows w = (Ok tt, w') ->
  NoDup rows.*1 -> (pk, p) ∈ rows ->
  policy (db w') !! pk
  = match PolicyList_get policy_list (pm_action_id p) with
    | Some u => set_resources (related_resource_types u) <$> policy (db w) !! pk
    | None => policy (db w) !! pk
    end.
Proof.
  intros Hfails. revert w.
  induction rows as [| [k q] rows IH]; intros w Hrun Hnodup Hin.
  - by apply elem_of_nil in Hin.
  - cbn in Hnodup. apply NoDup_cons in Hnodup as [Hk Hnodup].
    cbn in Hrun. apply elem_of_cons in Hin as [Heq | Hin].
    + injection Heq as <- <-.
      destruct (PolicyList_get policy_list (pm_action_id p)) as [u |].
      * unfold bind, statement, raise, modify in Hrun. rewrite Hfails in Hrun.
        apply update_each_notin with (pk := pk) in Hrun; [| done].
        rewrite Hrun. cbn. apply lookup_alter_eq.
      * by apply update_each_notin with (pk := pk) in Hrun.
    + assert (k <> pk) as Hne.
      { intros ->. apply Hk. apply list_elem_of_fmap. by exists (pk, p). }
      destruct (PolicyList_get policy_list (pm_action_id q)) as [u |].
      * unfold bind, statement, raise, modify in Hrun. rewrite Hfails in Hrun.
        rewrite (IH _ Hrun Hnodup Hin). cbn. by rewrite lookup_alter_ne.
      * by apply (IH _ Hrun Hnodup Hin).
Qed.

Lemma update_each_returns policy_list rows w :
  fails env OpPolicyUpdate = false ->
  exists w', update_each env policy_list rows w = (Ok tt, w').
Proof.
  intros Hfails. revert w. induction rows as [| [k q] rows IH]; intros w.
  - by eexists.
  - cbn. destruct (PolicyList_get policy_list (pm_action_id q)) as [u |]; [| done].
    unfold bind, statement, raise, modify. rewrite Hfails. apply IH.
Qed.

(** When the update statement fails the loop stops at the first row it
    would write, with the table as it was. *)
Lemma update_each_fails policy_list rows w r w' :
  fails env OpPolicyUpdate = true ->
  update_each env policy_list rows w = (r, w') -> w' = w.
Proof.
  intros Hfails. revert w. induction rows as [| [k q] rows IH]; intros w Hrun.
  - by injection Hrun as <- <-.
  - cbn in Hrun. destruct (PolicyList_get policy_list (pm_action_id q)) as [u |].
    + unfold bind, statement, raise, modify in Hrun. rewrite Hfails in Hrun.
      by injection Hrun as <- <-.
    + by apply IH.
Qed.

Lemma set_resources_same row : set_resources (_resources row) row = row.
Proof. by destruct row. Qed.

End MirrorWrites.

(** X1. [alter] with nothing to create, update or delete (each set absent
    or empty) opens and commits an empty transaction: it returns normally,
    writes nothing and does not call the backend, whatever the backend or
    the store would have answered. *)
Theorem alter_nothing_to_do (env : Env) (system_id : string) (subject : Subject)
    (create_policies update_policies : option (list PolicyBean))
    (delete_policy_ids : option (list Z)) (w : World) :
  default [] create_policies = [] ->
  default [] update_policies = [] ->
  default [] delete_policy_ids = [] ->
  PolicyOperationService.alter env system_id subject create_policies update_policies
    delete_policy_ids w
  = (Ok tt, mkWorld (db w) (celery w) (trace w ++ [EvBegin; EvCommit])).
Proof.
  intros Hc Hu Hd. unfold PolicyOperationService.alter. cbv zeta.
  rewrite Hc, Hu, Hd. cbn. unfold add_event. cbn. by rewrite <- app_assoc.
Qed.


(** X3. [_update_db_policies] adds and removes no row and changes nothing
    but the resource types of a row: every row keeps its subject, system,
    action and backend identifier, and its resource types are the ones it
    had or those of a policy to update with its action.  Rows outside the
    selection (another system or subject, or a backend identifier not among
    those of the policies to update) stay as they are.  When the update
    statement does not fail, the method returns, every selected row whose
    action is the action of a policy to update carries the resource types
    of such a policy, and a selected row with no such policy is as it
    was. *)
Theorem update_db_policies_frame (env : Env) (system_id : string) (subject : Subject)
    (policies : list PolicyBean) (w : World) :
  let selected row :=
    PolicyOperationService.of_subject system_id subject row
    /\ pm_policy_id row ∈ policy_id <$> policies in
  exists r w',
    PolicyOperationService._update_db_policies env system_id subject policies w = (r, w')
    /\ (forall pk, policy (db w) !! pk = None -> policy (db w') !! pk = None)
    /\ (forall pk row, policy (db w) !! pk = Some row ->
          exists row',
            policy (db w') !! pk = Some row'
            /\ pm_subject_type row' = pm_subject_type row
            /\ pm_subject_id row' = pm_subject_id row
            /\ pm_system_id row' = pm_system_id row
            /\ pm_action_id row' = pm_action_id row
            /\ pm_policy_id row' = pm_policy_id row
            /\ (_resources row' = _resources row
                \/ exists u, u ∈ policies /\ action_id u = pm_action_id row
                             /\ _resources row' = related_resource_types u))
    /\ (forall pk row, policy (db w) !! pk = Some row -> ~ selected row ->
          policy (db w') !! pk = Some row)
    /\ (fails env OpPolicyUpdate = false ->
        r = Ok tt
        /\ forall pk row,
             policy (db w) !! pk = Some row -> selected row ->
             ((exists u, u ∈ policies /\ action_id u = pm_action_id row) ->
              exists u,
                u ∈ policies /\ action_id u = pm_action_id row
                /\ policy (db w') !! pk
                   = Some (mkPolicyModel (pm_subject_type row) (pm_subject_id row)
                             (pm_system_id row) (pm_action_id row) (pm_policy_id row)
                             (related_resource_types u)))
             /\ ((forall u, u ∈ policies -> action_id u <> pm_action_id row) ->
                 policy (db w') !! pk = Some row)).
Proof.
  intros selected.
  unfold PolicyOperationService._update_db_policies, bind, log, modify, gets.
  set (w0 := add_event EvUpdateDbPolicies w).
  set (table := filter _ (policy (db w0))).
  destruct (PolicyOperationService.update_each env policies (map_to_list table) w0)
    as [r w'] eqn:Hrun.
  exists r, w'. split; [done |].
  assert (forall pk, table !! pk = None -> policy (db w') !! pk = policy (db w) !! pk)
    as Hout.
  { intros pk Hnone.
    rewrite (update_each_notin env _ _ _ _ _ pk Hrun); [done |].
    intros Hin. apply list_elem_of_fmap in Hin as ([k row] & -> & Hin).
    apply elem_of_map_to_list in Hin. cbn in Hnone. congruence. }
  assert (forall pk row, policy (db w) !! pk = Some row -> ~ selected row ->
                         table !! pk = None) as Hunselected.
  { intros pk row Hrow Hnsel. apply map_lookup_filter_None. right.
    intros row' Hrow'. cbn in Hrow'. rewrite Hrow in Hrow'. by injection Hrow' as <-. }
  assert (forall pk row, policy (db w) !! pk = Some row -> selected row ->
                         (pk, row) ∈ map_to_list table) as Hselected.
  { intros pk row Hrow Hsel. apply elem_of_map_to_list, map_lookup_filter_Some. done. }
  assert (forall a u, PolicyOperationService.PolicyList_get policies a = Some u ->
                      u ∈ policies /\ action_id u = a) as Hget_some.
  { intros a u Hu. by apply policy_list_get_action in Hu as [? ?]. }
  assert (forall a u, PolicyOperationService.PolicyList_get policies a = None ->
                      u ∈ policies -> action_id u <> a) as Hget_none.
  { intros a u Hnone Hin Haction.
    destruct (policy_list_get_in "" policies a) as [q Hq]; [| unfold
      PolicyOperationService.PolicyList_get in Hnone; congruence].
    apply list_elem_of_fmap. by exists u. }
  assert (forall pk row, policy (db w') !! pk = Some row ->
            exists row', policy (db w') !! pk = Some row'
              /\ pm_subject_type row' = pm_subject_type row
              /\ pm_subject_id row' = pm_subject_id row
              /\ pm_system_id row' = pm_system_id row
              /\ pm_action_id row' = pm_action_id row
              /\ pm_policy_id row' = pm_policy_id row
              /\ (_resources row' = _resources row
                  \/ exists u, u ∈ policies /\ action_id u = pm_action_id row
                               /\ _resources row' = related_resource_types u)) as Hsame.
  { intros pk row Hrow'. exists row. repeat split; [done |]. by left. }
  split; [| split; [| split; [| ]]].
  - intros pk Hnone. rewrite Hout; [done |].
    apply map_lookup_filter_None. by left.
  - intros pk row Hrow.
    destruct (decide (selected row)) as [Hsel | Hnsel].
    + destruct (fails env OpPolicyUpdate) eqn:Hfails.
      * apply (update_each_fails env) in Hrun; [| done]. subst w'.
        by apply Hsame.
      * destruct r as [[] | e].
        2:{ destruct (update_each_returns env policies (map_to_list table) w0 Hfails)
              as (w'' & Hrun'). congruence. }
        pose proof (update_each_in env _ _ _ _ pk row Hfails Hrun
                      (NoDup_fst_map_to_list _) (Hselected pk row Hrow Hsel)) as Hnew.
        destruct (PolicyOperationService.PolicyList_get policies (pm_action_id row))
          as [u |] eqn:Hu.
        -- apply Hget_some in Hu as [Hin Haction].
           exists (PolicyOperationService.set_resources (related_resource_types u) row).
           split; [rewrite Hnew; cbn; by rewrite Hrow |].
           repeat split. right. by exists u.
        -- apply Hsame. rewrite Hnew. exact Hrow.
    + apply Hsame. rewrite Hout; [done |]. by apply (Hunselected pk row).
  - intros pk row Hrow Hnsel. rewrite Hout; [done |]. by apply (Hunselected pk row).
  - intros Hfails.
    destruct (update_each_returns env policies (map_to_list table) w0 Hfails)
      as (w'' & Hrun').
    rewrite Hrun' in Hrun. injection Hrun as <- <-. split; [done |].
    intros pk row Hrow Hsel.
    pose proof (update_each_in env _ _ _ _ pk row Hfails Hrun'
                  (NoDup_fst_map_to_list _) (Hselected pk row Hrow Hsel)) as Hnew.
    destruct (PolicyOperationService.PolicyList_get policies (pm_action_id row))
      as [u |] eqn:Hu.
    + apply Hget_some in Hu as [Hin Haction]. split.
      * intros _. exists u. split; [done |]. split; [done |].
        rewrite Hnew. cbn. by rewrite Hrow.
      * intros Hnone. by destruct (Hnone u Hin).
    + split.
      * intros (u & Hin & Haction). by destruct (Hget_none _ u Hu Hin).
      * intros _. rewrite Hnew. exact Hrow.
Qed.

(** X4. [delete_by_ids] is all or nothing.  When the delete statement and
    the backend call both succeed it returns with exactly the mirror rows
    of the (system, subject) whose backend identifier is among the given
    ones removed and every other row and table untouched; when either fails
    it raises and the store is as it was. *)
Theorem delete_by_ids_all_or_nothing (env : Env) (iam : PolicyOperation.Iam)
    (system_id : string) (subject : Subject) (policy_ids : list Z) (w : World) :
  exists r w',
    PolicyOperation.delete_by_ids env iam system_id subject policy_ids w = (r, w')
    /\ ((r = Ok tt
         /\ fails env OpPolicyDelete = false
         /\ PolicyOperation.delete_policies iam system_id (subject_type subject)
              (subject_id subject) policy_ids = Ok tt
         /\ (forall pk row,
               policy (db w') !! pk = Some row
               <-> policy (db w) !! pk = Some row
                   /\ ~ (PolicyOperationService.of_subject system_id subject row
                         /\ pm_policy_id row ∈ policy_ids))
         /\ db w' = set_policy (fun _ => policy (db w')) (db w))
        \/ ((exists e, r = Raise e)
            /\ (fails env OpPolicyDelete = true
                \/ exists e, PolicyOperation.delete_policies iam system_id
                               (subject_type subject) (subject_id subject) policy_ids
                             = Raise e)
            /\ db w' = db w)).
Proof.
  unfold PolicyOperation.delete_by_ids, transaction_atomic,
    PolicyOperationService._delete_db_policies, bind, log, statement, raise, modify, lift.
  destruct (fails env OpPolicyDelete) eqn:Hfails.
  - eexists _, _. split; [reflexivity |]. right.
    split; [by eexists |]. split; [by left | done].
  - destruct (PolicyOperation.delete_policies iam system_id (subject_type subject)
                (subject_id subject) policy_ids) as [[] | e] eqn:Hiam.
    + eexists _, _. split; [reflexivity |]. left.
      split; [done |]. split; [done |]. split; [done |]. cbn. split; [| done].
      intros pk row. rewrite map_lookup_filter_Some. cbn. tauto.
    + eexists _, _. split; [reflexivity |]. right.
      split; [by eexists |]. split; [right; by eexists | done].
Qed.

Section SyncAgain.
Import PolicyOperationService.

Variable env : Env.

Lemma sync_db_policy_id_nothing_to_do system_id subject w :
  (forall pk row, policy (db w) !! pk = Some row ->
                  of_subject system_id subject row -> pm_policy_id row <> 0) ->
  _sync_db_policy_id env system_id subject w = (Ok tt, add_event EvSyncDbPolicyId w).
Proof.
  intros Hnone. unfold _sync_db_policy_id, bind, log, modify, gets, ret.
  rewrite bool_decide_eq_true_2; [done |].
  apply length_zero_iff_nil, map_to_list_empty_iff, map_empty.
  intros pk. apply map_lookup_filter_None. right. intros row Hrow [Hsubject Hzero].
  by apply (Hnone pk row).
Qed.

(** A synchronisation that returned can be run again. *)
Lemma sync_db_policy_id_again system_id subject w1 w2 :
  _sync_db_policy_id env system_id subject w1 = (Ok tt, w2) ->
  exists w3, _sync_db_policy_id env system_id subject w2 = (Ok tt, w3).
Proof.
  unfold _sync_db_policy_id, bind, log, modify, gets, lift, statement, ret, raise.
  case_bool_decide as Hlen.
  - intros [= <-]. cbn in *. rewrite bool_decide_eq_true_2 by done. by eexists.
  - destruct (backend_policy_list_by_subject env system_id subject)
      as [backend_policy_list | e]; [| discriminate].
    destruct (fails env OpPolicyBulkUpdate); [discriminate |].
    intros _. case_bool_decide; by eexists.
Qed.

End SyncAgain.

(** X5. When no mirror row of the (system, subject) carries the
    placeholder 0, [_sync_db_policy_id] returns at once: the backend is not
    asked (so a backend that would fail does no harm) and nothing is
    written. *)
Theorem sync_db_policy_id_skips_backend (env : Env) (system_id : string)
    (subject : Subject) (w : World) :
  (forall pk row, policy (db w) !! pk = Some row ->
                  PolicyOperationService.of_subject system_id subject row ->
                  pm_policy_id row <> 0) ->
  PolicyOperationService._sync_db_policy_id env system_id subject w
  = (Ok tt, mkWorld (db w) (celery w) (trace w ++ [EvSyncDbPolicyId])).
Proof. apply sync_db_policy_id_nothing_to_do. Qed.

(** X6. [_sync_db_policy_id] is idempotent: after a run that returned, a
    second run returns too and leaves every mirror row as the first run
    left it. *)
Theorem sync_db_policy_id_idempotent (env : Env) (system_id : string)
    (subject : Subject) (w1 w2 : World) :
  PolicyOperationService._sync_db_policy_id env system_id subject w1 = (Ok tt, w2) ->
  exists w3,
    PolicyOperationService._sync_db_policy_id env system_id subject w2 = (Ok tt, w3)
    /\ policy (db w3) = policy (db w2).
Proof.
  intros Hfirst.
  destruct (sync_db_policy_id_again env _ _ _ _ Hfirst) as (w3 & Hsecond).
  exists w3. split; [done |].
  destruct (sync_db_policy_id_rows env _ _ _ _ Hfirst) as (_ & Hnone1 & Hrows1).
  destruct (sync_db_policy_id_rows env _ _ _ _ Hsecond) as (_ & Hnone2 & Hrows2).
  apply map_eq. intros pk.
  destruct (policy (db w2) !! pk) as [row2 |] eqn:Hrow2; [| by apply Hnone2].
  destruct (Hrows2 pk row2 Hrow2) as [Hsel2 Hkeep2].
  destruct (decide (PolicyOperationService.of_subject system_id subject row2
                    /\ pm_policy_id row2 = 0)) as [Hsel | Hnsel]; [| by apply Hkeep2].
  destruct (Hsel2 Hsel) as (backend_policy_list & Hbackend & ->). f_equal.
  destruct (PolicyOperationService.BackendPolicyList_get backend_policy_list
              (pm_action_id row2)) as [backend_policy |] eqn:Hget; [| done].
  destruct (policy (db w1) !! pk) as [row1 |] eqn:Hrow1;
    [| rewrite (Hnone1 pk Hrow1) in Hrow2; discriminate].
  destruct (Hrows1 pk row1 Hrow1) as [Hsel1 Hkeep1].
  destruct (decide (PolicyOperationService.of_subject system_id subject row1
                    /\ pm_policy_id row1 = 0)) as [Hs1 | Hns1].
  - destruct (Hsel1 Hs1) as (backend_policy_list' & Hbackend' & Hrow2').
    rewrite Hbackend in Hbackend'. injection Hbackend' as <-.
    rewrite Hrow2 in Hrow2'. injection Hrow2' as Hrow2'.
    destruct (PolicyOperationService.BackendPolicyList_get backend_policy_list
                (pm_action_id row1)) as [backend_policy' |] eqn:Hget'.
    + subst row2. unfold PolicyOperationService.set_policy_id in Hget.
      cbn [pm_action_id] in Hget. rewrite Hget' in Hget. by injection Hget as <-.
    + subst row2. congruence.
  - rewrite (Hkeep1 Hns1) in Hrow2. injection Hrow2 as <-. done.
Qed.

(** * Further properties of the id/name cache *)

Lemma append_cancel (s a b : string) : s +:+ a = s +:+ b -> a = b.
Proof. apply String.app_inj. Qed.

Section CacheRoundTrip.
Import ResourceIDNameCache.

Variable self : t.

Lemma generate_id_cache_key_inj a b :
  _generate_id_cache_key self a = _generate_id_cache_key self b -> a = b.
Proof.
  unfold _generate_id_cache_key. intros Heq.
  do 6 apply append_cancel in Heq. exact Heq.
Qed.

(** The command [set] buffers for one item of the dict. *)
Let command_of (item : string * PyValue) : option Command :=
  match item.2 with
  | PyStr name => Some (SET (_generate_id_cache_key self item.1) name (5 * 60))
  | _ => None
  end.

Lemma run_commands_cons st c cs :
  (run_commands st (c :: cs)).1 = (run_commands (run_command st c).1 cs).1.
Proof.
  cbn. destruct (run_command st c) as [st1 reply]. cbn [fst].
  by destruct (run_commands st1 cs).
Qed.

(** The SETs buffered for a dict, run item by item. *)
Lemma run_sets_cons i v m st :
  (run_commands st (omap command_of ((i, v) :: m))).1
  = (run_commands
       (match v with
        | PyStr name => <[_generate_id_cache_key self i := (name, 300)]> st
        | _ => st
        end) (omap command_of m)).1.
Proof.
  destruct v as [name | | n]; [| done | done].
  change (omap command_of ((i, PyStr name) :: m))
    with (SET (_generate_id_cache_key self i) name (5 * 60) :: omap command_of m).
  by rewrite run_commands_cons.
Qed.

(** After the buffered SETs every key either is as it was or holds a
    [str] name of the dict under the key of its id, with the five minutes
    to live. *)
Lemma run_sets_lookup id_name_map st k :
  (run_commands st (omap command_of id_name_map)).1 !! k = st !! k
  \/ exists id name,
       (id, PyStr name) ∈ id_name_map /\ k = _generate_id_cache_key self id
       /\ (run_commands st (omap command_of id_name_map)).1 !! k = Some (name, 300).
Proof.
  revert st. induction id_name_map as [| [id v] m IH]; intros st; [by left |].
  rewrite run_sets_cons.
  destruct (IH (match v with
                | PyStr name => <[_generate_id_cache_key self id := (name, 300)]> st
                | _ => st
                end)) as [Hsame | (id' & name' & Hin & -> & Hval)].
  - rewrite Hsame. destruct v as [name | | n]; [| by left | by left].
    destruct (decide (_generate_id_cache_key self id = k)) as [<- | Hne].
    + right. exists id, name. rewrite lookup_insert_eq. split; [left | done].
    + left. by rewrite lookup_insert_ne.
  - right. exists id', name'. split; [by right | done].
Qed.

Lemma run_sets_lookup_notin id_name_map st k :
  (forall id name, (id, PyStr name) ∈ id_name_map ->
                   _generate_id_cache_key self id <> k) ->
  (run_commands st (omap command_of id_name_map)).1 !! k = st !! k.
Proof.
  intros Hother.
  destruct (run_sets_lookup id_name_map st k)
    as [Hsame | (id & name & Hin & -> & _)]; [done |].
  by destruct (Hother id name Hin).
Qed.

(** With one item per id, the name stored for an id is the one the dict
    gives it. *)
Lemma run_sets_lookup_in id_name_map st id name :
  NoDup id_name_map.*1 -> (id, PyStr name) ∈ id_name_map ->
  (run_commands st (omap command_of id_name_map)).1 !! _generate_id_cache_key self id
  = Some (name, 300).
Proof.
  revert st. induction id_name_map as [| [i v] m IH]; intros st Hnodup Hin;
    [by apply elem_of_nil in Hin |].
  cbn in Hnodup. apply NoDup_cons in Hnodup as [Hi Hnodup].
  rewrite run_sets_cons.
  apply elem_of_cons in Hin as [Heq | Hin]; [| by apply IH].
  injection Heq as <- <-.
  rewrite run_sets_lookup_notin; [apply lookup_insert_eq |].
  intros id' name' Hin' Hkey. apply generate_id_cache_key_inj in Hkey. subst id'.
  apply Hi. apply list_elem_of_fmap. by exists (id, PyStr name').
Qed.

Lemma run_gets st (ids : list string) :
  run_commands st ((fun id => GET (_generate_id_cache_key self id)) <$> ids)
  = (st, (fun id => fst <$> st !! _generate_id_cache_key self id) <$> ids).
Proof.
  induction ids as [| id ids IH]; [done |].
  cbn. cbn in IH. by rewrite IH.
Qed.

Lemma set_run id_name_map r :
  available r = true ->
  set self id_name_map r
  = (Ok tt, mkRedis (run_commands (store r) (omap command_of id_name_map)).1 true).
Proof.
  intros Hup. unfold set, catch, bind, execute, ret. rewrite Hup.
  fold command_of.
  by destruct (run_commands (store r) (omap command_of id_name_map)).
Qed.

Lemma get_run ids r :
  available r = true ->
  get self ids r
  = (Ok (dict_of_pairs
           (zip ids ((fun id => fst <$> store r !! _generate_id_cache_key self id)
                       <$> ids))), r).
Proof.
  intros Hup. unfold get, catch, bind, execute, ret. rewrite Hup.
  rewrite run_gets. destruct r as [st up]. cbn in *. by subst up.
Qed.

End CacheRoundTrip.

Lemma dict_of_pairs_zip_fmap {K V} `{Countable K} (f : K -> V) (ids : list K) k :
  dict_of_pairs (zip ids (f <$> ids)) !! k
  = if bool_decide (k ∈ ids) then Some (f k) else None.
Proof.
  induction ids as [| i ids IH] using rev_ind.
  - cbn. rewrite lookup_empty. by rewrite bool_decide_eq_false_2 by apply not_elem_of_nil.
  - rewrite fmap_app. cbn [fmap list_fmap].
    rewrite zip_with_app by (by rewrite length_fmap).
    cbn [zip_with]. rewrite dict_of_pairs_snoc.
    destruct (decide (i = k)) as [-> | Hne].
    + rewrite lookup_insert_eq. rewrite bool_decide_eq_true_2; [done |].
      apply elem_of_app. right. by apply list_elem_of_singleton.
    + rewrite lookup_insert_ne by done. rewrite IH.
      apply (f_equal (fun b : bool => if b then Some (f k) else None)).
      apply bool_decide_ext. rewrite elem_of_app, list_elem_of_singleton.
      intuition congruence.
Qed.

(** X7. Round trip through the cache.  On a Redis that answers, after
    [set] of a dict (one item per id) every [get] returns, for a requested
    id that the dict maps to a [str], that name; for a requested id that the
    dict does not map to a [str], whatever the cache held for it before. *)
Theorem cache_set_then_get (self : ResourceIDNameCache.t)
    (id_name_map : list (string * ResourceIDNameCache.PyValue))
    (r : ResourceIDNameCache.Redis) (ids : list string) :
  ResourceIDNameCache.available r = true ->
  NoDup id_name_map.*1 ->
  exists r1 d,
    ResourceIDNameCache.set self id_name_map r = (Ok tt, r1)
    /\ ResourceIDNameCache.get self ids r1 = (Ok d, r1)
    /\ forall id, id ∈ ids ->
         (forall name, (id, ResourceIDNameCache.PyStr name) ∈ id_name_map ->
                       d !! id = Some (Some name))
         /\ ((forall name, (id, ResourceIDNameCache.PyStr name) ∉ id_name_map) ->
             d !! id
             = Some (fst <$> ResourceIDNameCache.store r
                               !! ResourceIDNameCache._generate_id_cache_key self id)).
Proof.
  intros Hup Hnodup. eexists _, _.
  split; [by apply set_run |]. split; [by apply get_run |].
  intros id Hid. cbn [ResourceIDNameCache.store].
  rewrite (dict_of_pairs_zip_fmap
             (fun id => fst <$> _ !! ResourceIDNameCache._generate_id_cache_key self id)).
  rewrite bool_decide_eq_true_2 by done. split.
  - intros name Hin. by rewrite (run_sets_lookup_in self _ _ id name).
  - intros Hnone. rewrite run_sets_lookup_notin; [done |].
    intros id' name' Hin Hkey. apply generate_id_cache_key_inj in Hkey. subst id'.
    by apply (Hnone name').
Qed.

(** X8. On a Redis that answers, [set] writes nothing but the names that
    are [str]: every key of the store either is as it was, or is the cache
    key of an id that the dict maps to a [str] and now holds that name with
    300 seconds to live.  A name that is not a [str] is never stored. *)
Theorem cache_set_writes_str_names_only (self : ResourceIDNameCache.t)
    (id_name_map : list (string * ResourceIDNameCache.PyValue))
    (r : ResourceIDNameCache.Redis) :
  ResourceIDNameCache.available r = true ->
  exists r1,
    ResourceIDNameCache.set self id_name_map r = (Ok tt, r1)
    /\ forall k,
         ResourceIDNameCache.store r1 !! k = ResourceIDNameCache.store r !! k
         \/ exists id name,
              (id, ResourceIDNameCache.PyStr name) ∈ id_name_map
              /\ k = ResourceIDNameCache._generate_id_cache_key self id
              /\ ResourceIDNameCache.store r1 !! k = Some (name, 300).
Proof.
  intros Hup. eexists. split; [by apply set_run |].
  intros k. cbn [ResourceIDNameCache.store]. apply run_sets_lookup.
Qed.

(** X9. Two resource ids never share a cache entry: the cache key of one
    cache determines the id. *)
Theorem cache_key_determines_id (self : ResourceIDNameCache.t) (a b : string) :
  ResourceIDNameCache._generate_id_cache_key self a
  = ResourceIDNameCache._generate_id_cache_key self b ->
  a = b.
Proof. apply generate_id_cache_key_inj. Qed.

(* ------------------------------------------------------------------ *)
(** ** Resource provider client *)

Lemma and_then_return {C A B} (o : outcome C A) (k : A -> outcome C B) (b : B) :
  and_then o k = Return b -> exists a, o = Return a /\ k a = Return b.
Proof. destruct o as [a|e]; cbn; [eauto | discriminate]. Qed.

Section ProviderClient.

Import ResourceProviderClient.

Lemma handle_empty_data_return (data default_empty_data v : Json) :
  _handle_empty_data data default_empty_data = Return v ->
  (falsy data = true /\ v = default_empty_data) \/
  (falsy data = false /\ v = data /\ type_of data = type_of default_empty_data).
Proof.
  unfold _handle_empty_data. destruct (falsy data) eqn:Hf.
  - intros [= <-]. by left.
  - case_bool_decide as Ht; [discriminate|]. intros [= <-]. right.
    repeat split. by destruct (decide (type_of data = type_of default_empty_data)).
Qed.

Lemma handle_data_valid_return (resp_data count results : Json) :
  _handle_data_valid resp_data = Return (count, results) ->
  getitem (C := ErrorCode) resp_data "count" = Return count /\
  getitem (C := ErrorCode) resp_data "results" = Return results /\
  exists n, py_len (C := ErrorCode) results = Return n /\ within_count n count.
Proof.
  unfold _handle_data_valid. intros H.
  apply and_then_return in H as (count' & Hc & H).
  apply and_then_return in H as (results' & Hr & H).
  apply and_then_return in H as (n & Hn & H).
  apply and_then_return in H as (too_many & Hgt & H).
  destruct too_many; [discriminate |]. injection H as -> ->.
  repeat split; [done.. |]. exists n. split; [done |].
  unfold int_gt in Hgt. unfold within_count.
  destruct count as [| b | c | [| negative | m e] | | |]; try discriminate;
    apply (f_equal (fun o : outcome ErrorCode bool =>
                      match o with Return b => b | Throw _ => true end)) in Hgt;
    cbn in Hgt.
  - apply bool_decide_eq_false in Hgt. destruct b; lia.
  - apply bool_decide_eq_false in Hgt. lia.
  - done.
  - done.
  - case_bool_decide; apply bool_decide_eq_false in Hgt; lia.
Qed.

Lemma call_api_return (self : t) (data d : Json) :
  _call_api self data = Return d ->
  exists status_code resp code,
    send self data = HttpResponse status_code (Some resp) /\
    ~ (400 <= status_code < 600) /\
    getitem (C := ErrorCode) resp "code" = Return code /\ equals_zero code = true /\
    getitem (C := ErrorCode) resp "data" = Return d.
Proof.
  unfold _call_api. intros H. apply and_then_return in H as (m & _ & H).
  destruct (send self data) as [|status_code [resp|]]; [discriminate| |].
  - case_bool_decide as Hs; [discriminate|].
    apply and_then_return in H as (code & Hcode & H).
    destruct (equals_zero code) eqn:Hz.
    + by exists status_code, resp, code.
    + destruct (error_of_code code) as [[[error flag]|]|e]; discriminate.
  - case_bool_decide; discriminate.
Qed.

(** The three paged calls end in the same two steps. *)
Lemma paged_return (self : t) (data count results : Json) :
  (get! resp := _call_api self data in
   get! resp_data := _handle_empty_data resp empty_page in
   _handle_data_valid resp_data) = Return (count, results) ->
  exists n, py_len (C := ErrorCode) results = Return n /\ within_count n count.
Proof.
  intros H.
  apply and_then_return in H as (resp & _ & H).
  apply and_then_return in H as (resp_data & _ & H).
  by apply handle_data_valid_return in H as (_ & _ & H).
Qed.

End ProviderClient.

(** X10. [_handle_empty_data] returns either the default, for data that
    is empty in Python's sense (None, False, 0, an empty string, list or
    dict), or the data itself, which then has the default's type; so what
    it returns always has the type of the default. *)
Theorem handle_empty_data_has_default_type (data default_empty_data v : Json) :
  ResourceProviderClient._handle_empty_data data default_empty_data = Return v ->
  type_of v = type_of default_empty_data /\
  (v = default_empty_data \/ (v = data /\ falsy data = false)).
Proof.
  intros H. apply handle_empty_data_return in H as [[_ ->]|(Hf & -> & Ht)];
    split; auto.
Qed.

(** X11. What the paged calls [list_instance], [list_instance_by_policy]
    and [list_attr_value] return is a count that is a number with results
    that have a length, and the results are never more than a count that
    is an integer, a boolean or a finite float.  The guard compares with
    [>], so the counts NaN and plus infinity pass it and bound nothing. *)
Theorem paged_results_within_count (self : ResourceProviderClient.t)
  (attr : string) (filter_items : list (string * Json))
  (filter_condition page count results : Json) :
  ResourceProviderClient.list_instance self filter_condition page
    = Return (count, results) \/
  ResourceProviderClient.list_instance_by_policy self filter_condition page
    = Return (count, results) \/
  ResourceProviderClient.list_attr_value self attr filter_items page
    = Return (count, results) ->
  exists n,
    py_len (C := ResourceProviderClient.ErrorCode) results = Return n /\
    match count with
    | JInt c => n <= c
    | JBool b => n <= (if b then 1 else 0)
    | JFloat (FFinite m e) =>
        (0 <= e -> n <= m * 2 ^ e) /\ (e < 0 -> n * 2 ^ (- e) <= m)
    | JFloat (FInf negative) => negative = false
    | JFloat FNaN => True
    | JNull | JStr _ | JList _ | JDict _ => False
    end.
Proof.
  intros H.
  assert (exists n, py_len (C := ResourceProviderClient.ErrorCode) results = Return n
                    /\ within_count n count) as (n & Hlen & Hcount).
  { destruct H as [H | [H | H]]; exact (paged_return _ _ _ _ H). }
  exists n. split; [exact Hlen |]. unfold within_count in Hcount.
  destruct count as [| b | c | [| negative | m e] | | |]; try done.
  case_bool_decide; split; intros; first [done | lia].
Qed.

(** X12. When the provider answers [list_instance] with code 0 and empty
    data, whatever its type (None, an empty list, an empty dict, an empty
    string, 0 or False), the call returns the count 0 and no results. *)
Theorem list_instance_of_empty_data (self : ResourceProviderClient.t)
  (filter_condition page resp code data : Json) (status_code : Z) :
  ResourceProviderClient.send self
    (JDict [("type", JStr (ResourceProviderClient.resource_type_id self));
            ("method", JStr "list_instance");
            ("filter", filter_condition); ("page", page)])
    = ResourceProviderClient.HttpResponse status_code (Some resp) ->
  ~ (400 <= status_code < 600) ->
  getitem (C := ResourceProviderClient.ErrorCode) resp "code" = Return code ->
  equals_zero code = true ->
  getitem (C := ResourceProviderClient.ErrorCode) resp "data" = Return data ->
  falsy data = true ->
  ResourceProviderClient.list_instance self filter_condition page
    = Return (JInt 0, JList []).
Proof.
  intros Hsend Hstatus Hcode Hzero Hdata Hfalsy.
  unfold ResourceProviderClient.list_instance, ResourceProviderClient._call_api.
  cbn [getitem dict_lookup].
  rewrite !bool_decide_eq_false_2 by done.
  rewrite bool_decide_eq_true_2 by done.
  cbn [and_then]. rewrite Hsend.
  rewrite bool_decide_eq_false_2 by done. rewrite Hcode.
  cbn [and_then]. rewrite Hzero, Hdata.
  cbn [and_then].
  unfold ResourceProviderClient._handle_empty_data. rewrite Hfalsy.
  reflexivity.
Qed.

(** X13. [_call_api] returns data only from a reply whose status code is
    outside 400..599, whose body is JSON, and whose [code] equals 0; what
    it returns is the [data] entry of that body. *)
Theorem call_api_returns_data_of_code_zero (self : ResourceProviderClient.t)
  (data d : Json) :
  ResourceProviderClient._call_api self data = Return d ->
  exists status_code resp code,
    ResourceProviderClient.send self data
      = ResourceProviderClient.HttpResponse status_code (Some resp) /\
    ~ (400 <= status_code < 600) /\
    getitem (C := ResourceProviderClient.ErrorCode) resp "code" = Return code /\
    equals_zero code = true /\
    getitem (C := ResourceProviderClient.ErrorCode) resp "data" = Return d.
Proof. apply call_api_return. Qed.

(** X14. For a request that carries a [method], a reply whose JSON body
    has an integer [code] other than 0 makes [_call_api] raise, whatever
    else the body holds.  With a status code in 400..599 it raises
    RESOURCE_PROVIDER_ERROR whatever the [code]; with any other status it
    raises the error of [ResponseCodeToErrorDict] for 401, 404, 406, 422,
    429 and 500, and RESOURCE_PROVIDER_ERROR for every other code. *)
Theorem call_api_raises_on_nonzero_code (self : ResourceProviderClient.t)
  (data method resp : Json) (status_code n : Z) :
  getitem (C := ResourceProviderClient.ErrorCode) data "method" = Return method ->
  ResourceProviderClient.send self data
    = ResourceProviderClient.HttpResponse status_code (Some resp) ->
  getitem (C := ResourceProviderClient.ErrorCode) resp "code" = Return (JInt n) ->
  n <> 0 ->
  exists error,
    ResourceProviderClient._call_api self data = Throw (CodeError error) /\
    (400 <= status_code < 600 ->
     error = ResourceProviderClient.RESOURCE_PROVIDER_ERROR) /\
    (~ (400 <= status_code < 600) ->
     (n = 401 -> error = ResourceProviderClient.RESOURCE_PROVIDER_UNAUTHORIZED) /\
     (n = 404 -> error = ResourceProviderClient.RESOURCE_PROVIDER_NOT_FOUND) /\
     (n = 406 ->
      error = ResourceProviderClient.RESOURCE_PROVIDER_SEARCH_VALIDATE_ERROR) /\
     (n = 422 -> error = ResourceProviderClient.RESOURCE_PROVIDER_DATA_TOO_LARGE) /\
     (n = 429 ->
      error = ResourceProviderClient.RESOURCE_PROVIDER_API_REQUEST_FREQUENCY_EXCEEDED) /\
     (n = 500 ->
      error = ResourceProviderClient.RESOURCE_PROVIDER_INTERNAL_SERVER_ERROR) /\
     (~ In n [401; 404; 406; 422; 429; 500] ->
      error = ResourceProviderClient.RESOURCE_PROVIDER_ERROR)).
Proof.
  intros Hm Hsend Hcode Hn.
  unfold ResourceProviderClient._call_api. rewrite Hm.
  cbn [and_then]. rewrite Hsend.
  case_bool_decide as Hstatus.
  { eexists. split; [reflexivity |]. split; [done |]. by intros []. }
  rewrite Hcode.
  cbn [and_then equals_zero ResourceProviderClient.error_of_code].
  rewrite bool_decide_eq_false_2 by done.
  unfold ResourceProviderClient.ResponseCodeToErrorDict.
  repeat case_bool_decide; subst; eexists; (split; [reflexivity |]);
    (split; [done |]); intros _;
    cbn [In]; repeat split; intros; first [done | lia | tauto].
Qed.

(** X15. Whatever [_generate_http_auth] builds logs in as [bk_iam] with
    the token of the auth info as its password, basic for the type
    [basic] and digest for [digest]; it returns no authentication only for
    an empty auth info or the type [none]. *)
Theorem generate_http_auth_uses_token (auth_info : list (string * string))
  (r : option ResourceProviderClient.HttpAuth) :
  ResourceProviderClient._generate_http_auth auth_info = Return r ->
  match r with
  | None => auth_info = [] \/ dict_lookup "auth" auth_info = Some "none"
  | Some (ResourceProviderClient.HTTPBasicAuth username password) =>
      username = "bk_iam" /\
      dict_lookup "auth" auth_info = Some "basic" /\
      dict_lookup "token" auth_info = Some password
  | Some (ResourceProviderClient.HTTPDigestAuth username password) =>
      username = "bk_iam" /\
      dict_lookup "auth" auth_info = Some "digest" /\
      dict_lookup "token" auth_info = Some password
  end.
Proof.
  unfold ResourceProviderClient._generate_http_auth.
  case_bool_decide as Hlen.
  { intros [= <-]. left. by destruct auth_info. }
  destruct (dict_lookup "auth" auth_info) as [auth_type|] eqn:Hauth; [|discriminate].
  destruct (dict_lookup "token" auth_info) as [password|] eqn:Htoken; [|discriminate].
  repeat case_bool_decide; subst; intros [= <-]; auto.
Qed.

(* ------------------------------------------------------------------ *)
(** ** ESB component *)

Lemma dict_lookup_dict_set {V} (key k : string) (v : V) (items : list (string * V)) :
  dict_lookup key (dict_set k v items)
  = if bool_decide (k = key) then Some v else dict_lookup key items.
Proof.
  induction items as [| [k' v'] items IH]; cbn.
  - by case_bool_decide.
  - destruct (decide (k' = k)) as [-> | Hne].
    + rewrite bool_decide_eq_true_2 by done. cbn. by case_bool_decide.
    + rewrite (bool_decide_eq_false_2 (k' = k)) by done. cbn. rewrite IH.
      repeat case_bool_decide; congruence.
Qed.

Lemma dict_lookup_notin {V} (key : string) (items : list (string * V)) :
  key ∉ items.*1 -> dict_lookup key items = None.
Proof.
  induction items as [| [k v] items IH]; cbn; [done |]. intros Hnotin.
  apply not_elem_of_cons in Hnotin as [Hne Hnotin].
  rewrite bool_decide_eq_false_2 by congruence. by apply IH.
Qed.

(** [d.update(other)] for an [other] without repeated keys: the entries of
    [other] win, the other entries of [d] stay. *)
Lemma dict_lookup_dict_update {V} (key : string) (items other : list (string * V)) :
  NoDup other.*1 ->
  dict_lookup key (dict_update items other)
  = match dict_lookup key other with
    | Some v => Some v
    | None => dict_lookup key items
    end.
Proof.
  revert items. induction other as [| [k v] other IH]; intros items Hnodup; [done |].
  cbn in Hnodup. apply NoDup_cons in Hnodup as [Hnotin Hnodup].
  unfold dict_update in *. cbn [foldl fst snd dict_lookup]. rewrite IH by done.
  rewrite dict_lookup_dict_set. case_bool_decide as Hk; [| done].
  subst k. by rewrite dict_lookup_notin.
Qed.

(** X16. [_call_esb_api] returns data only when the HTTP helper reports
    success and the body carries a [code] equal to 0 and a [message]; what
    it returns is the [data] entry of the body.  A body with code 0 and no
    [message] raises instead. *)
Theorem call_esb_api_returns_data_of_code_zero (APP_ID APP_TOKEN : string)
  (http_func : string -> list (string * Json) -> bool * Json)
  (url_path : string) (data : list (string * Json)) (d : Json) :
  (esb._call_esb_api APP_ID APP_TOKEN http_func url_path data).1 = Return d ->
  exists resp code message,
    http_func url_path (dict_update data (esb.common_params APP_ID APP_TOKEN))
      = (true, resp) /\
    getitem (C := esb.ErrorCode) resp "code" = Return code /\
    equals_zero code = true /\
    getitem (C := esb.ErrorCode) resp "message" = Return message /\
    getitem (C := esb.ErrorCode) resp "data" = Return d.
Proof.
  unfold esb._call_esb_api.
  destruct (http_func url_path (dict_update data (esb.common_params APP_ID APP_TOKEN)))
    as [ok resp] eqn:Hcall.
  cbn [fst]. destruct ok; cbn [negb]; [| discriminate]. intros H.
  apply and_then_return in H as (code & Hcode & H).
  apply and_then_return in H as (message & Hmessage & H).
  destruct (equals_zero code) eqn:Hzero; [| discriminate].
  by exists resp, code, message.
Qed.

(** X17. The data [_call_esb_api] sends, which is also what it leaves in
    the caller's dict, carries the credentials of the application and the
    user name [admin] under the five common keys, whatever the caller had
    put under them, and the caller's entries under every other key. *)
Theorem call_esb_api_sends_credentials (APP_ID APP_TOKEN : string)
  (http_func : string -> list (string * Json) -> bool * Json)
  (url_path : string) (data : list (string * Json)) (key : string) :
  let sent := (esb._call_esb_api APP_ID APP_TOKEN http_func url_path data).2 in
  sent = dict_update data (esb.common_params APP_ID APP_TOKEN) /\
  dict_lookup key sent
  = if bool_decide (key = "bk_app_code" \/ key = "app_code") then Some (JStr APP_ID)
    else if bool_decide (key = "bk_app_secret" \/ key = "app_secret")
         then Some (JStr APP_TOKEN)
    else if bool_decide (key = "bk_username") then Some (JStr "admin")
    else dict_lookup key data.
Proof.
  cbv zeta. unfold esb._call_esb_api.
  destruct (http_func url_path (dict_update data (esb.common_params APP_ID APP_TOKEN)))
    as [ok resp].
  cbn [snd]. split; [done |].
  rewrite dict_lookup_dict_update.
  2:{ cbn. repeat (apply NoDup_cons; split; [solve_not_elem |]). apply NoDup_nil_2. }
  unfold esb.common_params. cbn [dict_lookup].
  repeat case_bool_decide; subst; try done; exfalso; intuition congruence.
Qed.

(* ------------------------------------------------------------------ *)
(** ** Actions of a system *)


Section Actions.

Import ActionBiz.

Variable env : Env.
Variable ACTION_ALL : string.
Variable action_svc_list : string -> list Action.
Variable get_resource_type_dict : list string -> string -> string -> string * string.
Variable list_scope_action_id : Role -> string -> list string.

(** The actions [list_by_role] returns are fresh: unchecked and without
    an expiration. *)
Lemma list_by_role_fresh system_id role b :
  b ∈ list_by_role ACTION_ALL action_svc_list get_resource_type_dict
        list_scope_action_id system_id role ->
  tag b = UNCHECKED /\ expired_at b = None.
Proof.
  unfold list_by_role, ActionBeanList.filter_by_scope_action_ids. intros Hin.
  assert (b ∈ ActionBeanList.actions
                (list_ action_svc_list get_resource_type_dict system_id)) as Hb.
  { case_bool_decide; [done |]. by apply list_elem_of_filter in Hin as [_ Hin]. }
  unfold list_, ActionBeanList.fill_related_resource_type_name,
    ActionBeanList.for_each in Hb. cbn in Hb.
  apply list_elem_of_fmap in Hb as (c & -> & Hc).
  apply list_elem_of_fmap in Hc as (x & -> & _). done.
Qed.

End Actions.

(** X18. Every action [list_pre_application_actions] returns is tagged by
    what the user holds first and by the request second: an action the
    user has a policy for is [READONLY] and carries the expiration of one
    of those policies, also when it is requested; any other action has no
    expiration and is [CHECKED] when requested, [UNCHECKED] when not. *)
Theorem pre_application_actions_tags (env : Env) (ACTION_ALL : string)
  (action_svc_list : string -> list ActionBiz.Action)
  (get_resource_type_dict : list string -> string -> string -> string * string)
  (list_scope_action_id : Role -> string -> list string)
  (system_id : string) (role : Role) (user_id : string) (action_ids : list string)
  (a : ActionBiz.ActionBean) :
  a ∈ ActionBiz.list_pre_application_actions env ACTION_ALL action_svc_list
        get_resource_type_dict list_scope_action_id system_id role user_id action_ids ->
  let policies := list_by_subject env system_id (mkSubject USER user_id) in
  (ActionBiz.id a ∈ action_id <$> policies ->
   ActionBiz.tag a = ActionBiz.READONLY
   /\ exists p, p ∈ policies /\ action_id p = ActionBiz.id a
                /\ ActionBiz.expired_at a = Some (expired_at p))
  /\ (ActionBiz.id a ∉ action_id <$> policies ->
      ActionBiz.expired_at a = None
      /\ ActionBiz.tag a = if bool_decide (ActionBiz.id a ∈ action_ids)
                           then ActionBiz.CHECKED else ActionBiz.UNCHECKED).
Proof.
  intros Hin policies.
  unfold ActionBiz.list_pre_application_actions, ActionBiz.list_by_subject_,
    ActionBiz.ActionBeanList.fill_expired_at_and_tag,
    ActionBiz.ActionBeanList.for_each in Hin.
  cbn [ActionBiz.ActionBeanList.actions ActionBiz.ActionBeanList.new] in Hin.
  fold policies in Hin.
  apply list_elem_of_fmap in Hin as (c & -> & Hc).
  apply list_elem_of_fmap in Hc as (b & -> & Hb).
  apply list_by_role_fresh in Hb as [Htag Hexp].
  set (pairs := (fun policy => (action_id policy, ActionBiz.policy_expired_at policy))
                  <$> policies).
  assert (pairs.*1 = action_id <$> policies) as Hkeys.
  { unfold pairs. by rewrite <- list_fmap_compose. }
  destruct (dict_of_pairs pairs !! ActionBiz.id b) as [e |] eqn:He.
  - cbn [ActionBiz.tag ActionBiz.set_expired_at_and_tag].
    rewrite (bool_decide_eq_false_2 (ActionBiz.READONLY = ActionBiz.UNCHECKED)) by done.
    rewrite andb_false_r. cbn.
    apply dict_of_pairs_lookup_Some in He.
    apply list_elem_of_fmap in He as (p & [= Hid ->] & Hp).
    split; [eauto |]. intros Hnot. exfalso. apply Hnot.
    rewrite Hid. apply list_elem_of_fmap. eauto.
  - rewrite Htag. rewrite (bool_decide_eq_true_2 (ActionBiz.UNCHECKED = _)) by done.
    rewrite andb_true_r.
    rewrite (bool_decide_ext _ (ActionBiz.id b ∈ action_ids))
      by apply elem_of_list_to_set.
    assert (ActionBiz.id b ∉ action_id <$> policies) as Hnotin.
    { intros Hheld. rewrite <- Hkeys in Hheld.
      apply dict_of_pairs_lookup_in in Hheld as [e' He']. congruence. }
    destruct (bool_decide (ActionBiz.id b ∈ action_ids)) eqn:Hreq; cbn;
      (split; [intros Hheld; by destruct Hnotin |]); intros _;
      by rewrite ?Hreq, ?Hexp, ?Htag.
Qed.

(* ------------------------------------------------------------------ *)
(** ** Groups suggested for an application *)

Lemma str_inj (a b : Z) : str a = str b -> a = b.
Proof.
  intros Heq. pose proof (int_str a) as Ha. rewrite Heq, int_str in Ha. congruence.
Qed.

Section PreApplicationGroups.

Import GroupQuery.

Lemma ints_of_decimal (ids : list string) :
  Forall (fun x => exists n, x = str n) ids ->
  exists l, ints ids = Ok l /\ str <$> l = ids.
Proof.
  induction 1 as [| x ids (n & ->) _ (l & Hl & Hids)]; [by exists [] |].
  exists (n :: l). cbn. rewrite int_str, Hl. cbn. by rewrite Hids.
Qed.

(** What the loop over the results leaves in [subject_id_set]. *)
Lemma intersect_results_spec (acc : option (gset string)) (results : list (list string))
    (x : string) :
  match intersect_results acc results with
  | None => acc = None /\ results = []
  | Some s =>
      x ∈ s <-> match acc with
                | None => results <> []
                | Some a => x ∈ a
                end /\ Forall (fun res => x ∈ res) results
  end.
Proof.
  revert acc. induction results as [| res rest IH]; intros acc.
  - cbn. destruct acc as [a |]; [| done]. split; [by intros ? | by intros [? _]].
  - cbn [intersect_results].
    specialize (IH (Some (match acc with
                          | None => list_to_set res
                          | Some s => s ∩ list_to_set res
                          end))).
    destruct (intersect_results _ rest) as [s |]; [| by destruct IH].
    rewrite IH, Forall_cons. destruct acc as [a |].
    + rewrite elem_of_intersection, elem_of_list_to_set. tauto.
    + rewrite elem_of_list_to_set. split; [| tauto]. by intros [? ?].
Qed.

End PreApplicationGroups.

(** X19. [list_pre_application_groups] returns no group when the query of
    the engine raises an [APIException].  When the engine reports the
    subjects of each policy by the decimal of their id, it returns, without
    repetition, exactly the groups that appear in the result of every
    policy, and none when there is no policy. *)
Theorem pre_application_groups_in_every_result (is_APIException : Exn -> bool)
  (query_subjects : PolicyBeanList.t -> result (list (list string)))
  (policy_list : PolicyBeanList.t) :
  (forall e,
     query_subjects policy_list = Raise e -> is_APIException e = true ->
     GroupQuery.list_pre_application_groups is_APIException query_subjects policy_list
     = Ok [])
  /\ (forall results : list (list Z),
        query_subjects policy_list = Ok ((fun res : list Z => str <$> res) <$> results) ->
        exists ids,
          GroupQuery.list_pre_application_groups is_APIException query_subjects
            policy_list = Ok ids
          /\ NoDup ids
          /\ forall g, g ∈ ids <-> results <> [] /\ Forall (fun res => g ∈ res) results).
Proof.
  split.
  { intros e Hq Hapi. unfold GroupQuery.list_pre_application_groups.
    by rewrite Hq, Hapi. }
  intros results Hq. unfold GroupQuery.list_pre_application_groups. rewrite Hq.
  assert (forall g, Forall (fun res => str g ∈ res) ((fun res : list Z => str <$> res) <$> results)
                    <-> Forall (fun res => g ∈ res) results) as Hall.
  { intros g. rewrite Forall_fmap. apply Forall_iff. intros res. cbn.
    rewrite list_elem_of_fmap. split.
    - intros (n & Heq & Hin). by rewrite (str_inj _ _ Heq).
    - intros Hin. by exists g. }
  pose proof (fun x => intersect_results_spec None ((fun res : list Z => str <$> res) <$> results) x) as Hspec.
  destruct (GroupQuery.intersect_results None
              ((fun res : list Z => str <$> res) <$> results)) as [s |] eqn:Hloop.
  - assert (results <> []) as Hne.
    { intros ->. discriminate Hloop. }
    assert (forall g, str g ∈ s <-> Forall (fun res => g ∈ res) results) as Hs.
    { intros g. rewrite Hspec, Hall. split; [tauto |]. intros ?. split; [| done].
      by destruct results. }
    case_bool_decide as Hempty.
    + exists []. split; [done |]. split; [apply NoDup_nil_2 |].
      intros g. split; [by intros ?%elem_of_nil |].
      intros [_ Hg]. apply Hs in Hg. rewrite Hempty in Hg. by apply elem_of_empty in Hg.
    + destruct (ints_of_decimal (elements s)) as (l & Hl & Hstr).
      { apply Forall_forall. intros x Hx. apply elem_of_elements in Hx.
        apply Hspec in Hx as [_ Hx]. destruct results as [| res rest]; [done |].
        cbn in Hx. apply Forall_cons in Hx as [Hx _].
        apply list_elem_of_fmap in Hx as (n & -> & _). by exists n. }
      exists l. split; [done |]. split.
      * apply (NoDup_fmap_1 str). rewrite Hstr. apply NoDup_elements.
      * intros g. rewrite <- Hs, <- elem_of_elements, <- Hstr, list_elem_of_fmap.
        split.
        -- intros Hg. split; [done |]. by exists g.
        -- intros [_ (n & Heq & Hn)]. by rewrite (str_inj _ _ Heq).
  - destruct (Hspec "") as [_ Hnil].
    assert (results = []) as -> by (by destruct results).
    exists []. split; [done |]. split; [apply NoDup_nil_2 |].
    intros g. split; [by intros ?%elem_of_nil | by intros [? _]].
Qed.

(* ------------------------------------------------------------------ *)
(** ** Checks on groups *)

Lemma elem_of_list_remove (x y : Z) (l : list Z) :
  NoDup l -> y ∈ GroupCheck.list_remove x l <-> y <> x /\ y ∈ l.
Proof.
  induction 1 as [| z l Hnotin Hnodup IH]; cbn.
  - split; [by intros ?%elem_of_nil | by intros [_ ?%elem_of_nil]].
  - case_bool_decide as Hz.
    + subst z. rewrite elem_of_cons. split.
      * intros Hy. split; [by intros -> | by right].
      * intros [Hne [-> | Hy]]; done.
    + rewrite !elem_of_cons, IH. split.
      * intros [-> | [Hne Hy]]; [split; [done | by left] | split; [done | by right]].
      * intros [Hne [-> | Hy]]; [by left | by right].
Qed.

Lemma group_member_limit (environ : gmap string Z) :
  GroupCheck.SUBJECT_AUTHORIZATION_LIMIT environ !! "group_member_limit"
  = Some (default 500 (environ !! "BKAPP_GROUP_MEMBER_LIMIT")).
Proof.
  unfold GroupCheck.SUBJECT_AUTHORIZATION_LIMIT, dict_of_pairs. cbn [foldl fst snd].
  rewrite !lookup_insert_ne by done. by rewrite lookup_insert_eq.
Qed.

(** X20. [check_role_group_name_unique] leaves the group itself out of
    the comparison: with the groups of the role listed once each, it raises
    the conflict exactly when another group of the role bears the name, and
    it changes nothing. *)
Theorem role_group_name_unique_excludes_own (list_role_object_ids : Z -> string -> list Z)
  (role_id : Z) (name : string) (gid : Z) (w : World) :
  NoDup (list_role_object_ids role_id GROUP) ->
  GroupCheck.check_role_group_name_unique list_role_object_ids role_id name gid w
  = (if bool_decide
          (Exists (fun g => group_name g = name /\ group_id g <> gid
                            /\ group_id g ∈ list_role_object_ids role_id GROUP)
                  (group (db w)))
     then Raise (CodeException CONFLICT_ERROR (MsgText "用户组名称已存在"))
     else Ok tt, w).
Proof.
  intros Hnodup.
  unfold GroupCheck.check_role_group_name_unique, bind, gets, raise, ret.
  set (ids := list_role_object_ids role_id GROUP) in *.
  rewrite (bool_decide_ext _
             (Exists (fun g => group_name g = name /\ group_id g <> gid
                               /\ group_id g ∈ ids) (group (db w)))).
  { by case_bool_decide. }
  assert (forall g,
            group_name g = name
            /\ group_id g ∈ (if bool_decide (gid ∈ ids)
                             then GroupCheck.list_remove gid ids else ids)
            <-> group_name g = name /\ group_id g <> gid /\ group_id g ∈ ids) as Hiff.
  { intros g. case_bool_decide as Hown.
    - rewrite elem_of_list_remove by done. tauto.
    - split; [| tauto]. intros [Hname Hin]. repeat split; [done | | done].
      by intros <-. }
  split; intros Hex; (eapply Exists_impl; [exact Hex |]); intros g Hg; by apply Hiff.
Qed.

(** X21. [check_member_count] lets a group of [user_count +
    department_count] members take [new_member_count] more exactly when the
    total stays within [BKAPP_GROUP_MEMBER_LIMIT], 500 when that variable
    is not set: the settings always define the entry, so the 1000 the
    method falls back on is never the limit. *)
Theorem member_count_limit_is_the_setting
  (group_objects_get : Z -> option GroupCheck.GroupCounters)
  (environ : gmap string Z) (gid new_member_count : Z)
  (group : GroupCheck.GroupCounters) :
  group_objects_get gid = Some group ->
  GroupCheck.check_member_count group_objects_get environ gid new_member_count = Ok tt
  <-> GroupCheck.user_count group + GroupCheck.department_count group
      + new_member_count
      <= default 500 (environ !! "BKAPP_GROUP_MEMBER_LIMIT").
Proof.
  intros Hget. unfold GroupCheck.check_member_count.
  rewrite Hget, group_member_limit. cbn [default].
  case_bool_decide; split; intros; first [done | lia].
Qed.

(* ------------------------------------------------------------------ *)
(** ** What an application asks for *)

Lemma omap_sublist_fmap {A B} (f : A -> option A) (g : A -> B) (l : list A) :
  (forall x y, f x = Some y -> g y = g x) ->
  g <$> omap f l `sublist_of` g <$> l.
Proof.
  intros Hkeep. induction l as [| x l IH]; cbn; [done |].
  destruct (f x) as [y |] eqn:Hfx; cbn.
  - rewrite (Hkeep _ _ Hfx). by apply sublist_skip.
  - by apply sublist_cons.
Qed.


Section Application.

Import ApplicationDataTrans.

Variable env : Env.
Variable now : Z.
Variable applicant system_id : string.
Variable policy_list : PolicyBeanList.t.

Let old_policy_list : PolicyBeanList.t :=
  PolicyBeanList.new system_id
    (list_by_subject env system_id (mkSubject USER applicant)).

Let diff_policy_list : PolicyBeanList.t :=
  PolicyBeanList.sub policy_list old_policy_list.

Lemma application_policy_action p p' :
  application_policy now old_policy_list diff_policy_list p = Some p' ->
  action_id p' = action_id p.
Proof.
  unfold application_policy.
  destruct (PolicyBeanList.get old_policy_list (action_id p)) as [old |];
    [| by intros [= <-]].
  destruct (is_expired old now); [by intros [= <-] |].
  destruct (PolicyBeanList.get diff_policy_list (action_id p)) as [diff |] eqn:Hdiff;
    [| discriminate].
  intros [= <-]. cbn.
  unfold diff_policy_list, PolicyBeanList.sub in Hdiff.
  by apply policy_list_get_action in Hdiff as [? _].
Qed.

Lemma gen_need_apply_policy_list_ok application :
  _gen_need_apply_policy_list env now applicant system_id policy_list = Ok application ->
  application
  = PolicyBeanList.new system_id
      (omap (application_policy now old_policy_list diff_policy_list)
            (PolicyBeanList.policies policy_list))
  /\ omap (application_policy now old_policy_list diff_policy_list)
          (PolicyBeanList.policies policy_list) <> [].
Proof.
  unfold _gen_need_apply_policy_list. fold old_policy_list diff_policy_list.
  destruct (PolicyBeanList.check_resource_name env diff_policy_list) as [[] | e];
    [| discriminate].
  cbn. case_bool_decide as Hlen; [discriminate |]. intros [= <-]. split; [done |].
  intros Hnil. by rewrite Hnil in Hlen.
Qed.

End Application.

(** X22. An application that [_gen_need_apply_policy_list] returns is
    never empty, is for the system of the request, and lists actions of
    the request only, in the order of the request. *)
Theorem application_is_part_of_the_request (env : Env) (now : Z)
  (applicant system_id : string) (policy_list application : PolicyBeanList.t) :
  ApplicationDataTrans._gen_need_apply_policy_list env now applicant system_id
    policy_list = Ok application ->
  PolicyBeanList.policies application <> []
  /\ PolicyBeanList.system_id application = system_id
  /\ action_id <$> PolicyBeanList.policies application
     `sublist_of` action_id <$> PolicyBeanList.policies policy_list.
Proof.
  intros Hrun. apply gen_need_apply_policy_list_ok in Hrun as [-> Hne].
  cbn. repeat split; [done |].
  apply omap_sublist_fmap. apply application_policy_action.
Qed.

(** X23. In an application, a policy for an action of which the applicant
    holds an unexpired policy is the difference to the held policy and
    carries the expiration of the held policy, not the requested one.  A
    policy for an action the applicant does not hold, or holds expired, is
    the requested policy as it came. *)
Theorem application_keeps_held_expiration (env : Env) (now : Z)
  (applicant system_id : string) (policy_list application : PolicyBeanList.t)
  (p : PolicyBean) :
  ApplicationDataTrans._gen_need_apply_policy_list env now applicant system_id
    policy_list = Ok application ->
  p ∈ PolicyBeanList.policies application ->
  let old_policy_list :=
    PolicyBeanList.new system_id
      (list_by_subject env system_id (mkSubject USER applicant)) in
  match PolicyBeanList.get old_policy_list (action_id p) with
  | None => p ∈ PolicyBeanList.policies policy_list
  | Some old_policy =>
      if ApplicationDataTrans.is_expired old_policy now
      then p ∈ PolicyBeanList.policies policy_list
      else expired_at p = expired_at old_policy
           /\ exists diff_policy,
                PolicyBeanList.get (PolicyBeanList.sub policy_list old_policy_list)
                  (action_id p) = Some diff_policy
                /\ related_resource_types p = related_resource_types diff_policy
  end.
Proof.
  intros Hrun Hin old_policy_list.
  apply gen_need_apply_policy_list_ok in Hrun as [-> _]. cbn in Hin.
  apply list_elem_of_omap in Hin as (q & Hq & Hp).
  pose proof (application_policy_action _ _ _ _ _ _ _ Hp) as Haction.
  fold old_policy_list in Hp. rewrite Haction.
  unfold ApplicationDataTrans.application_policy in Hp.
  destruct (PolicyBeanList.get old_policy_list (action_id q)) as [old |];
    [| by injection Hp as <-].
  destruct (ApplicationDataTrans.is_expired old now); [by injection Hp as <- |].
  destruct (PolicyBeanList.get (PolicyBeanList.sub policy_list old_policy_list)
              (action_id q)) as [diff |] eqn:Hdiff; [| discriminate].
  injection Hp as <-. cbn. split; [done |]. by exists diff.
Qed.

(* ------------------------------------------------------------------ *)
(** ** A grant under way blocks the next one *)

Section GrantAgain.

Import GroupBiz.

Variable env : Env.




End GrantAgain.


(* ------------------------------------------------------------------ *)
(** ** The further properties at sample inputs *)

Section MoreSamples.
Import Examples MoreExamples.

Lemma alter_nothing_to_do_witness :
  PolicyOperationService.alter quiet "bk_cmdb" admin None (Some []) None (world empty_db)
  = (Ok tt, mkWorld empty_db [] [EvBegin; EvCommit]).
Proof.
  exact (alter_nothing_to_do quiet "bk_cmdb" admin None (Some []) None (world empty_db)
           eq_refl eq_refl eq_refl).
Defined.


Lemma update_db_policies_frame_witness :
  exists w',
    PolicyOperationService._update_db_policies quiet "bk_cmdb" admin [view_5]
      (world stale_db) = (Ok tt, w')
    /\ policy (db w') !! 1
       = Some (mkPolicyModel "user" "admin" "bk_cmdb" "view" 5
                 (related_resource_types (host_policy 1))).
Proof.
  destruct (update_db_policies_frame quiet "bk_cmdb" admin [view_5] (world stale_db))
    as (r & w' & Hrun & _ & _ & _ & Hreturns).
  destruct (Hreturns eq_refl) as [-> Hrows].
  exists w'. split; [exact Hrun |].
  destruct (Hrows 1 (mkPolicyModel "user" "admin" "bk_cmdb" "view" 5 [])) as [Hnew _].
  - vm_compute. reflexivity.
  - split; [split; [reflexivity | split; reflexivity] | left].
  - destruct Hnew as (u & Hin & _ & Hrow); [exists view_5; split; [left | reflexivity] |].
    apply list_elem_of_singleton in Hin. subst u. exact Hrow.
Defined.

Lemma sync_db_policy_id_skips_backend_witness :
  PolicyOperationService._sync_db_policy_id quiet "bk_cmdb" admin (world empty_db)
  = (Ok tt, mkWorld empty_db [] [EvSyncDbPolicyId]).
Proof.
  apply (sync_db_policy_id_skips_backend quiet "bk_cmdb" admin (world empty_db)).
  intros pk row Hrow. cbn in Hrow. rewrite lookup_empty in Hrow. discriminate.
Defined.

Lemma sync_db_policy_id_idempotent_witness :
  let w2 := (PolicyOperationService._sync_db_policy_id backend_42 "bk_cmdb" admin
               (world waiting_db)).2 in
  pm_policy_id <$> policy (db w2) !! 1 = Some 42
  /\ exists w3,
       PolicyOperationService._sync_db_policy_id backend_42 "bk_cmdb" admin w2
       = (Ok tt, w3)
       /\ policy (db w3) = policy (db w2).
Proof.
  intros w2. split; [vm_compute; reflexivity |].
  apply (sync_db_policy_id_idempotent backend_42 "bk_cmdb" admin (world waiting_db) w2).
  vm_compute. reflexivity.
Defined.

Lemma cache_set_then_get_witness :
  exists r1 d,
    ResourceIDNameCache.set cmdb_hosts
      [("1", ResourceIDNameCache.PyStr "h1"); ("2", ResourceIDNameCache.PyNone)]
      empty_redis = (Ok tt, r1)
    /\ ResourceIDNameCache.get cmdb_hosts ["1"; "2"] r1 = (Ok d, r1)
    /\ d !! "1" = Some (Some "h1")
    /\ d !! "2" = Some None.
Proof.
  destruct (cache_set_then_get cmdb_hosts
              [("1", ResourceIDNameCache.PyStr "h1"); ("2", ResourceIDNameCache.PyNone)]
              empty_redis ["1"; "2"]) as (r1 & d & Hset & Hget & Hall).
  - reflexivity.
  - cbn. repeat (apply NoDup_cons; split; [solve_not_elem |]). apply NoDup_nil_2.
  - exists r1, d. split; [exact Hset |]. split; [exact Hget |]. split.
    + apply (Hall "1"); [left | left].
    + destruct (Hall "2") as [_ Hmiss]; [right; left |].
      rewrite Hmiss;
        [unfold empty_redis; cbn [ResourceIDNameCache.store]; by rewrite lookup_empty |].
      intros name Hin.
      repeat (apply elem_of_cons in Hin as [Hin | Hin]; [discriminate |]).
      by apply elem_of_nil in Hin.
Defined.

Lemma cache_set_writes_str_names_only_witness :
  exists r1,
    ResourceIDNameCache.set cmdb_hosts
      [("1", ResourceIDNameCache.PyStr "h1"); ("2", ResourceIDNameCache.PyNone)]
      empty_redis = (Ok tt, r1)
    /\ ResourceIDNameCache.store r1 !! "bk_iam:rp:id_name:bk_cmdb:host:2" = None.
Proof.
  destruct (cache_set_writes_str_names_only cmdb_hosts
              [("1", ResourceIDNameCache.PyStr "h1"); ("2", ResourceIDNameCache.PyNone)]
              empty_redis) as (r1 & Hset & Hkeys).
  - reflexivity.
  - exists r1. split; [exact Hset |].
    destruct (Hkeys "bk_iam:rp:id_name:bk_cmdb:host:2")
      as [Hsame | (id & name & Hin & Hkey & _)].
    + rewrite Hsame. unfold empty_redis. cbn [ResourceIDNameCache.store].
      apply lookup_empty.
    + exfalso.
      repeat (apply elem_of_cons in Hin as [Hin | Hin];
              [try discriminate; injection Hin as -> ->; discriminate Hkey |]).
      by apply elem_of_nil in Hin.
Defined.

Lemma cache_key_determines_id_witness :
  ResourceIDNameCache._generate_id_cache_key cmdb_hosts "1"
  = "bk_iam:rp:id_name:bk_cmdb:host:1"
  /\ "1" = "1".
Proof.
  split; [reflexivity |].
  apply (cache_key_determines_id cmdb_hosts "1" "1"). reflexivity.
Defined.

Lemma handle_empty_data_has_default_type_witness :
  type_of (JList [JInt 1]) = type_of (JList [])
  /\ (JList [JInt 1] = JList []
      \/ (JList [JInt 1] = JList [JInt 1] /\ falsy (JList [JInt 1]) = false)).
Proof.
  apply (handle_empty_data_has_default_type (JList [JInt 1]) (JList []) (JList [JInt 1])).
  reflexivity.
Defined.

Lemma paged_results_within_count_witness :
  ResourceProviderClient.list_instance (provider (answer 0 two_hosts)) (JDict [])
    first_page
  = Return (JInt 5, JList [instance_of "1" "h1"; instance_of "2" "h2"])
  /\ exists n,
       py_len (C := ResourceProviderClient.ErrorCode)
         (JList [instance_of "1" "h1"; instance_of "2" "h2"]) = Return n
       /\ n <= 5.
Proof.
  assert (ResourceProviderClient.list_instance (provider (answer 0 two_hosts)) (JDict [])
            first_page
          = Return (JInt 5, JList [instance_of "1" "h1"; instance_of "2" "h2"])) as Hrun.
  { reflexivity. }
  split; [exact Hrun |].
  apply (paged_results_within_count (provider (answer 0 two_hosts)) "" []
           (JDict []) first_page (JInt 5)
           (JList [instance_of "1" "h1"; instance_of "2" "h2"])).
  left. exact Hrun.
Defined.

Lemma list_instance_of_empty_data_witness :
  ResourceProviderClient.list_instance (provider (answer 0 (JStr ""))) (JDict [])
    first_page = Return (JInt 0, JList []).
Proof.
  apply (list_instance_of_empty_data (provider (answer 0 (JStr ""))) (JDict []) first_page
           (answer 0 (JStr "")) (JInt 0) (JStr "") 200);
    [reflexivity | lia | reflexivity | reflexivity | reflexivity | reflexivity].
Defined.

Lemma call_api_returns_data_of_code_zero_witness :
  exists status_code resp code,
    ResourceProviderClient.send (provider (answer 0 two_hosts))
      (JDict [("method", JStr "list_instance")])
    = ResourceProviderClient.HttpResponse status_code (Some resp)
    /\ ~ (400 <= status_code < 600)
    /\ getitem (C := ResourceProviderClient.ErrorCode) resp "code" = Return code
    /\ equals_zero code = true
    /\ getitem (C := ResourceProviderClient.ErrorCode) resp "data" = Return two_hosts.
Proof.
  apply (call_api_returns_data_of_code_zero (provider (answer 0 two_hosts))
           (JDict [("method", JStr "list_instance")]) two_hosts).
  reflexivity.
Defined.

Lemma call_api_raises_on_nonzero_code_witness :
  ResourceProviderClient._call_api (provider (answer 401 JNull))
    (JDict [("method", JStr "list_attr")])
  = Throw (CodeError ResourceProviderClient.RESOURCE_PROVIDER_UNAUTHORIZED).
Proof.
  destruct (call_api_raises_on_nonzero_code (provider (answer 401 JNull))
              (JDict [("method", JStr "list_attr")]) (JStr "list_attr")
              (answer 401 JNull) 200 401)
    as (error & Hrun & _ & Hbody);
    [reflexivity | reflexivity | reflexivity | lia |].
  destruct Hbody as (Hunauthorized & _); [lia |].
  rewrite Hrun. by rewrite Hunauthorized.
Defined.

Lemma generate_http_auth_uses_token_witness :
  ResourceProviderClient._generate_http_auth [("auth", "basic"); ("token", "s3cr3t")]
  = Return (Some (ResourceProviderClient.HTTPBasicAuth "bk_iam" "s3cr3t"))
  /\ dict_lookup "token" [("auth", "basic"); ("token", "s3cr3t")] = Some "s3cr3t".
Proof.
  split; [reflexivity |].
  apply (generate_http_auth_uses_token [("auth", "basic"); ("token", "s3cr3t")]
           (Some (ResourceProviderClient.HTTPBasicAuth "bk_iam" "s3cr3t"))).
  reflexivity.
Defined.

Lemma call_esb_api_returns_data_of_code_zero_witness :
  exists resp code message,
    esb_ok "/api/c/compapi/v2/esb/get_api_public_key/"
      (dict_update [] (esb.common_params "bk_iam" "t0k3n")) = (true, resp)
    /\ getitem (C := esb.ErrorCode) resp "code" = Return code
    /\ equals_zero code = true
    /\ getitem (C := esb.ErrorCode) resp "message" = Return message
    /\ getitem (C := esb.ErrorCode) resp "data" = Return (JStr "key").
Proof.
  apply (call_esb_api_returns_data_of_code_zero "bk_iam" "t0k3n" esb_ok
           "/api/c/compapi/v2/esb/get_api_public_key/" [] (JStr "key")).
  reflexivity.
Defined.

Lemma pre_application_actions_tags_witness :
  let a := ActionBiz.mkActionBean "view" "View" "View" [] (Some 1700000000)
             ActionBiz.READONLY in
  a ∈ ActionBiz.list_pre_application_actions holder "*" actions_of_cmdb
        no_names_of_types every_action "bk_cmdb" manager "admin" ["view"; "edit"]
  /\ ActionBiz.tag a = ActionBiz.READONLY
  /\ exists p, p ∈ list_by_subject holder "bk_cmdb" (mkSubject USER "admin")
               /\ action_id p = "view"
               /\ ActionBiz.expired_at a = Some (expired_at p).
Proof.
  intros a.
  assert (a ∈ ActionBiz.list_pre_application_actions holder "*" actions_of_cmdb
                no_names_of_types every_action "bk_cmdb" manager "admin"
                ["view"; "edit"]) as Hin.
  { vm_compute. left. }
  split; [exact Hin |].
  apply (pre_application_actions_tags holder "*" actions_of_cmdb no_names_of_types
           every_action "bk_cmdb" manager "admin" ["view"; "edit"] a Hin).
  left.
Defined.

Lemma pre_application_groups_in_every_result_witness :
  exists ids,
    GroupQuery.list_pre_application_groups api_exceptions groups_3_7_and_7
      (PolicyBeanList.new "bk_cmdb" []) = Ok ids
    /\ 7 ∈ ids /\ 3 ∉ ids.
Proof.
  destruct (pre_application_groups_in_every_result api_exceptions groups_3_7_and_7
              (PolicyBeanList.new "bk_cmdb" [])) as [_ Hcommon].
  destruct (Hcommon [[3; 7]; [7]]) as (ids & Hrun & _ & Hids); [reflexivity |].
  exists ids. split; [exact Hrun |]. split.
  - apply Hids. split; [discriminate |].
    repeat (apply Forall_cons; split); [right; left | left | apply Forall_nil; exact I].
  - intros Hin. apply Hids in Hin as [_ Hall].
    apply Forall_cons in Hall as [_ Hall]. apply Forall_cons in Hall as [Hin _].
    repeat (apply elem_of_cons in Hin as [Hin | Hin]; [discriminate |]).
    by apply elem_of_nil in Hin.
Defined.

Lemma role_group_name_unique_excludes_own_witness :
  GroupCheck.check_role_group_name_unique groups_7_8 1 "ops" 7 (world db_7_8)
  = (Ok tt, world db_7_8)
  /\ is_ok (GroupCheck.check_role_group_name_unique groups_7_8 1 "ops" 8
              (world db_7_8)).1 = false.
Proof.
  split.
  - rewrite (role_group_name_unique_excludes_own groups_7_8 1 "ops" 7 (world db_7_8)).
    + vm_compute. reflexivity.
    + repeat (apply NoDup_cons; split; [solve_not_elem |]). apply NoDup_nil_2.
  - rewrite (role_group_name_unique_excludes_own groups_7_8 1 "ops" 8 (world db_7_8)).
    + vm_compute. reflexivity.
    + repeat (apply NoDup_cons; split; [solve_not_elem |]). apply NoDup_nil_2.
Defined.

Lemma member_count_limit_is_the_setting_witness :
  GroupCheck.check_member_count crowded ∅ 7 5 = Ok tt
  /\ GroupCheck.check_member_count crowded ∅ 7 6 <> Ok tt.
Proof.
  split.
  - apply (member_count_limit_is_the_setting crowded ∅ 7 5
             (GroupCheck.mkGroupCounters "ops" 490 5)); [reflexivity |].
    rewrite lookup_empty. cbn. lia.
  - intros Hpass.
    apply (member_count_limit_is_the_setting crowded ∅ 7 6
             (GroupCheck.mkGroupCounters "ops" 490 5)) in Hpass; [| reflexivity].
    rewrite lookup_empty in Hpass. cbn in Hpass. lia.
Defined.

Lemma application_is_part_of_the_request_witness :
  ApplicationDataTrans._gen_need_apply_policy_list holder 1600000000 "admin" "bk_cmdb"
    request_view_x_y = Ok apply_view_y
  /\ PolicyBeanList.policies apply_view_y <> []
  /\ PolicyBeanList.system_id apply_view_y = "bk_cmdb"
  /\ action_id <$> PolicyBeanList.policies apply_view_y
     `sublist_of` action_id <$> PolicyBeanList.policies request_view_x_y.
Proof.
  assert (ApplicationDataTrans._gen_need_apply_policy_list holder 1600000000 "admin"
            "bk_cmdb" request_view_x_y = Ok apply_view_y) as Hrun.
  { vm_compute. reflexivity. }
  split; [exact Hrun |].
  exact (application_is_part_of_the_request holder 1600000000 "admin" "bk_cmdb"
           request_view_x_y apply_view_y Hrun).
Defined.

Lemma application_keeps_held_expiration_witness :
  let p := policy_on "view" [host "Y" "y"] in
  expired_at p = 1700000000
  /\ exists diff_policy,
       PolicyBeanList.get
         (PolicyBeanList.sub request_view_x_y
            (PolicyBeanList.new "bk_cmdb"
               (list_by_subject holder "bk_cmdb" (mkSubject USER "admin"))))
         "view" = Some diff_policy
       /\ related_resource_types p = related_resource_types diff_policy.
Proof.
  intros p.
  assert (ApplicationDataTrans._gen_need_apply_policy_list holder 1600000000 "admin"
            "bk_cmdb" request_view_x_y = Ok apply_view_y) as Hrun.
  { vm_compute. reflexivity. }
  assert (p ∈ PolicyBeanList.policies apply_view_y) as Hin by left.
  pose proof (application_keeps_held_expiration holder 1600000000 "admin" "bk_cmdb"
                request_view_x_y apply_view_y p Hrun Hin) as Hkept.
  vm_compute in Hkept. exact Hkept.
Defined.


End MoreSamples.
